(** * Audio recorder manager: device catalog, capture session and encoder

    A shallow embedding of the Python reference implementation
    ([devices.py], [recorder.py]) and the facts checked against it.

    Conventions of the embedding:
    - Python [int] is [Z]; [str] is [string] (bytes of the ASCII range,
      which is all [str.lower] touches here); [bytes] is [list byte].
    - A call that may raise returns a [result]; an exception carries its
      class and the text [str(e)] gives.
    - Floating point seconds ([time.time()], [datetime.now()]) are exact
      integers of milliseconds; a sample rate is an integer number of Hz.
    - What the platform answers (PortAudio, the file system, the clock) is
      an explicit argument of the operation that asks. *)

From Stdlib Require Import ZArith List String Ascii Strings.Byte Bool Lia.
From Stdlib Require Import Permutation Sorted.
Import ListNotations.
Open Scope Z_scope.

(** ** Python primitives *)
Module Py.

(** Exception classes the two modules raise or catch. *)
Inductive exn_class :=
| Exception
| TypeError
| KeyError
| AttributeError
| ValueError
| OSError
| ImportError
| EOFError
| StructError
| WaveError
| AudioDeviceError
| WASAPINotAvailableError
| AudioRecorderError
| RecordingInProgressError.

Definition exn_class_eqb (a b : exn_class) : bool :=
  match a, b with
  | Exception, Exception | TypeError, TypeError | KeyError, KeyError
  | AttributeError, AttributeError | ValueError, ValueError
  | OSError, OSError | ImportError, ImportError | EOFError, EOFError
  | StructError, StructError | WaveError, WaveError
  | AudioDeviceError, AudioDeviceError
  | WASAPINotAvailableError, WASAPINotAvailableError
  | AudioRecorderError, AudioRecorderError
  | RecordingInProgressError, RecordingInProgressError => true
  | _, _ => false
  end.

(** The direct base class ([class RecordingInProgressError(AudioRecorderError)]
    and so on); [Exception] is the root. *)
Definition base (c : exn_class) : option exn_class :=
  match c with
  | Exception => None
  | WASAPINotAvailableError => Some AudioDeviceError
  | RecordingInProgressError => Some AudioRecorderError
  | _ => Some Exception
  end.

(** [isinstance(e, c)] on the class of [e]: the hierarchy is two deep. *)
Definition isinstance (c_e c : exn_class) : bool :=
  exn_class_eqb c_e c
  || match base c_e with
     | Some b =>
         exn_class_eqb b c
         || match base b with
            | Some b' => exn_class_eqb b' c
            | None => false
            end
     | None => false
     end.

Record exn := mk_exn { exn_cls : exn_class; exn_msg : string }.

Inductive result (A : Type) :=
| Ok (a : A)
| Raise (e : exn).
Arguments Ok {A} a.
Arguments Raise {A} e.

Definition bind {A B} (r : result A) (k : A -> result B) : result B :=
  match r with
  | Ok a => k a
  | Raise e => Raise e
  end.

(** [str.lower()] on one character. Strings are texts of ASCII
    characters: the letters [A] to [Z] are the ones that change. A
    character outside ASCII that Python lowers (the Kelvin sign to
    [k]) has no counterpart here. *)
Definition lower_ascii (c : ascii) : ascii :=
  let n := nat_of_ascii c in
  if ((65 <=? n) && (n <=? 90))%nat then ascii_of_nat (n + 32) else c.

Fixpoint lower (s : string) : string :=
  match s with
  | EmptyString => EmptyString
  | String c s' => String (lower_ascii c) (lower s')
  end.

(** [sub in s] on two strings. *)
Fixpoint contains (sub s : string) : bool :=
  String.prefix sub s
  || match s with
     | EmptyString => false
     | String _ s' => contains sub s'
     end.

(** [s.endswith(suf)]. *)
Definition endswith (s suf : string) : bool :=
  let n := String.length s in
  let k := String.length suf in
  (k <=? n)%nat && String.eqb (String.substring (n - k) k s) suf.

(** [s[:-k]] for [0 < k]. *)
Definition drop_last (k : nat) (s : string) : string :=
  String.substring 0 (String.length s - k) s.

(** A value of a dict of the native layer: an [int] or a [str]. *)
Inductive pyval :=
| PInt (z : Z)
| PStr (s : string).

(** [sub in v]: a substring test on a [str], a [TypeError] on an [int]. *)
Definition py_in (sub : string) (v : pyval) : result bool :=
  match v with
  | PStr s => Ok (contains sub s)
  | PInt _ =>
      Raise (mk_exn TypeError "argument of type 'int' is not iterable")
  end.

(** [range(n)]. *)
Definition range (n : Z) : list Z := map Z.of_nat (seq 0 (Z.to_nat n)).

(** [sorted(l, key=key)]: the sort is stable, so its result is the one of
    insertion from the right, each element placed before the first one
    whose key is not smaller. *)
Section Sorted.
Context {A : Type} (key : A -> Z).

Fixpoint insert_by (x : A) (l : list A) : list A :=
  match l with
  | [] => [x]
  | y :: l' =>
      if key x <=? key y then x :: y :: l' else y :: insert_by x l'
  end.

Definition sorted (l : list A) : list A := fold_right insert_by [] l.

(** The order the result is sorted by. *)
Definition key_le (a b : A) : Prop := key a <= key b.
End Sorted.

End Py.

Import Py.

Declare Scope py_scope.
Notation "x <- r ;; k" := (bind r (fun x => k))
  (at level 61, r at next level, right associativity) : py_scope.
Open Scope py_scope.

(** ** devices.py *)
Module Devices.

(** The [AudioDevice] data class. *)
Record AudioDevice := mk_AudioDevice {
  index : Z;
  name : string;
  max_input_channels : Z;
  max_output_channels : Z;
  default_sample_rate : Z;
  host_api : string;
  is_loopback : bool;
  is_default : bool
}.

(** The dict [get_device_info_by_index] returns. The code reads
    ['hostApi'] once by subscript and once by [.get('hostApi', 0)], so
    the key may be absent; PortAudio stores the index of the host API
    there, an [int]. *)
Record device_info := mk_device_info {
  di_name : string;
  di_maxInputChannels : Z;
  di_maxOutputChannels : Z;
  di_defaultSampleRate : Z;
  di_hostApi : option pyval
}.

(** The [pyaudio.PyAudio] object, as far as the manager queries it.
    The default device queries answer the ['index'] of the dict. *)
Record PyAudio := mk_PyAudio {
  get_host_api_count : result Z;
  get_device_count : result Z;
  get_device_info_by_index : Z -> result device_info;
  get_host_api_info_by_index : Z -> result string;
  get_default_input_device_info : result Z;
  get_default_output_device_info : result Z
}.

Record DeviceManager := mk_DeviceManager {
  _audio : option PyAudio;
  _devices_cache : option (list AudioDevice)
}.

(** [_is_wasapi_available]: any exception of the queries answers
    [False]. *)
Fixpoint wasapi_among (a : PyAudio) (indices : list Z) : bool :=
  match indices with
  | [] => false
  | i :: rest =>
      match get_host_api_info_by_index a i with
      | Raise _ => false
      | Ok host_api_name =>
          if String.eqb (lower host_api_name) "windows wasapi" then true
          else wasapi_among a rest
      end
  end.

Definition _is_wasapi_available (a : PyAudio) : bool :=
  match get_host_api_count a with
  | Raise _ => false
  | Ok host_api_count => wasapi_among a (range host_api_count)
  end.

(** [DeviceManager()]: [pyaudio_available] is the module constant
    [PYAUDIO_AVAILABLE], [pa] what [pyaudio.PyAudio()] gives. The
    [WASAPINotAvailableError] is raised inside the [try] whose handler
    turns every exception into an [AudioDeviceError]. *)
Definition __init__ (pyaudio_available : bool) (pa : result PyAudio)
  : result DeviceManager :=
  if negb pyaudio_available then
    Raise (mk_exn AudioDeviceError
      "Audio system not available. Install pyaudiowpatch: pip install pyaudiowpatch")
  else
    let wrap e :=
      mk_exn AudioDeviceError
             ("Could not initialize PyAudio: " ++ exn_msg e) in
    match pa with
    | Raise e => Raise (wrap e)
    | Ok a =>
        if _is_wasapi_available a
        then Ok {| _audio := Some a; _devices_cache := None |}
        else Raise (wrap (mk_exn WASAPINotAvailableError
          "WASAPI is not available on this system. Loopback functionalities will not work."))
    end.

Definition loopback_indicators : list string :=
  [ "loopback"; "stereo mix"; "what u hear"; "wave out mix";
    "speakers ("; "headphones (" ]%string.

(** [_is_loopback_device]: the loop over the indicators returns at the
    first one found in the lower-cased name; the channel test follows,
    its last conjunct ['wasapi' in device_info.get('hostApi', 0)]
    evaluated only when the first two hold. *)
Definition _is_loopback_device (di : device_info) : result bool :=
  let device_name := lower (di_name di) in
  if existsb (fun indicator => contains indicator device_name)
             loopback_indicators
  then Ok true
  else if (0 <? di_maxInputChannels di) && (di_maxOutputChannels di =? 0)
  then
    match di_hostApi di with
    | Some v => py_in "wasapi" v
    | None => py_in "wasapi" (PInt 0)
    end
  else Ok false.

(** [_is_default_device]: the whole body is under one [try]; a query
    that raises ends it with [False], the other query not asked. *)
Definition _is_default_device (a : PyAudio) (device_index : Z) : bool :=
  match get_default_input_device_info a with
  | Raise _ => false
  | Ok default_input =>
      if default_input =? device_index then true
      else
        match get_default_output_device_info a with
        | Raise _ => false
        | Ok default_output => default_output =? device_index
        end
  end.

(** The body of the inner [try] of [list_all_devices] for endpoint [i]. *)
Definition make_device (a : PyAudio) (i : Z) : result AudioDevice :=
  di <- get_device_info_by_index a i ;;
  hostApi <- match di_hostApi di with
             | Some v => Ok v
             | None => Raise (mk_exn KeyError "'hostApi'")
             end ;;
  host_api_name <- match hostApi with
                   | PInt k => get_host_api_info_by_index a k
                   | PStr _ =>
                       Raise (mk_exn TypeError "an integer is required")
                   end ;;
  lb <- _is_loopback_device di ;;
  Ok {| index := i;
        name := di_name di;
        max_input_channels := di_maxInputChannels di;
        max_output_channels := di_maxOutputChannels di;
        default_sample_rate := di_defaultSampleRate di;
        host_api := host_api_name;
        is_loopback := lb;
        is_default := _is_default_device a i |}.

(** The [for i in range(device_count)] loop: [devices] is the list under
    construction; an endpoint whose processing raises is passed over. *)
Fixpoint enumerate_loop (a : PyAudio) (indices : list Z)
         (devices : list AudioDevice) : list AudioDevice :=
  match indices with
  | [] => devices
  | i :: rest =>
      match make_device a i with
      | Ok device => enumerate_loop a rest (devices ++ [device])
      | Raise _ => enumerate_loop a rest devices
      end
  end.

Definition list_devices_error (e : exn) : exn :=
  mk_exn AudioDeviceError ("Failed to list devices: " ++ exn_msg e).

(** [list_all_devices(refresh_cache)]. *)
Definition list_all_devices (dm : DeviceManager) (refresh_cache : bool)
  : DeviceManager * result (list AudioDevice) :=
  match _devices_cache dm, refresh_cache with
  | Some cached, false => (dm, Ok cached)
  | _, _ =>
      match _audio dm with
      | None =>
          (dm, Raise (list_devices_error
            (mk_exn AttributeError
               "'NoneType' object has no attribute 'get_device_count'")))
      | Some a =>
          match get_device_count a with
          | Raise e => (dm, Raise (list_devices_error e))
          | Ok device_count =>
              let devices := enumerate_loop a (range device_count) [] in
              ({| _audio := _audio dm; _devices_cache := Some devices |},
               Ok devices)
          end
      end
  end.

Definition is_wasapi (d : AudioDevice) : bool :=
  String.eqb (lower (host_api d)) "windows wasapi".

(** The selection of [get_default_speakers] once the list is there. *)
Definition select_default_speakers (devices : list AudioDevice)
  : option AudioDevice :=
  let loopback_devices := filter is_loopback devices in
  match loopback_devices with
  | first_loopback :: _ =>
      match find is_default loopback_devices with
      | Some default_loopback => Some default_loopback
      | None => Some first_loopback
      end
  | [] =>
      let wasapi_output_devices :=
        filter (fun d => is_wasapi d && (0 <? max_output_channels d))
               devices in
      match wasapi_output_devices with
      | first_wasapi :: _ =>
          match find is_default wasapi_output_devices with
          | Some default_wasapi => Some default_wasapi
          | None => Some first_wasapi
          end
      | [] => None
      end
  end.

(** [get_default_speakers]: whatever the listing raises comes back as
    [AudioDeviceError]. *)
Definition get_default_speakers (dm : DeviceManager)
  : DeviceManager * result (option AudioDevice) :=
  match list_all_devices dm false with
  | (dm', Ok devices) => (dm', Ok (select_default_speakers devices))
  | (dm', Raise e) =>
      (dm', Raise (mk_exn AudioDeviceError
                     ("Failed to detect default device: " ++ exn_msg e)))
  end.

(** The [sort_key] closure of [get_recording_capable_devices] is
    [- score]. *)
Definition score (device : AudioDevice) : Z :=
  (if is_wasapi device then 30 else 0)
  + (if is_loopback device then 20 else 0)
  + (if is_default device then 10 else 0).

Definition sort_key (device : AudioDevice) : Z := - score device.

Definition recording_devices (devices : list AudioDevice)
  : list AudioDevice :=
  filter (fun d => 0 <? max_input_channels d) devices.

Definition get_recording_capable_devices (dm : DeviceManager)
  : DeviceManager * result (list AudioDevice) :=
  match list_all_devices dm false with
  | (dm', Ok devices) =>
      (dm', Ok (sorted sort_key (recording_devices devices)))
  | (dm', Raise e) => (dm', Raise e)
  end.

(** [get_device_by_index]: the first device of the listing with the
    index; an exception of the listing is not caught. *)
Definition get_device_by_index (dm : DeviceManager) (i : Z)
  : DeviceManager * result (option AudioDevice) :=
  match list_all_devices dm false with
  | (dm', Ok devices) => (dm', Ok (find (fun d => index d =? i) devices))
  | (dm', Raise e) => (dm', Raise e)
  end.

(** [get_devices_by_api]: [api_name.lower() in d.host_api.lower()]. *)
Definition get_devices_by_api (dm : DeviceManager) (api_name : string)
  : DeviceManager * result (list AudioDevice) :=
  match list_all_devices dm false with
  | (dm', Ok devices) =>
      (dm', Ok (filter (fun d => contains (lower api_name)
                                          (lower (host_api d)))
                       devices))
  | (dm', Raise e) => (dm', Raise e)
  end.

(** [get_system_default_input] and [get_system_default_output]: the
    query and the lookup are under one [try] whose handler answers
    [None]. *)
Definition system_default (dm : DeviceManager)
           (query : PyAudio -> result Z)
  : DeviceManager * option AudioDevice :=
  match _audio dm with
  | None => (dm, None)
  | Some a =>
      match query a with
      | Raise _ => (dm, None)
      | Ok i =>
          match get_device_by_index dm i with
          | (dm', Ok found) => (dm', found)
          | (dm', Raise _) => (dm', None)
          end
      end
  end.

Definition get_system_default_input (dm : DeviceManager)
  : DeviceManager * option AudioDevice :=
  system_default dm get_default_input_device_info.

Definition get_system_default_output (dm : DeviceManager)
  : DeviceManager * option AudioDevice :=
  system_default dm get_default_output_device_info.

(** [close]: with an audio system, it is terminated, whatever that
    raises, and handle and cache are dropped; without one nothing is
    done. *)
Definition close (dm : DeviceManager) : DeviceManager :=
  match _audio dm with
  | Some _ => {| _audio := None; _devices_cache := None |}
  | None => dm
  end.

End Devices.

(** ** The [wave] module of the standard library

    [_save_as_wav] writes through [wave.open(name, 'wb')]; the file it
    leaves is read back through [wave.open(name, 'rb')]. Both ends are
    modelled on the bytes of the file, on a little-endian host. *)
Module Wave.

Definition byte_of_Z (z : Z) : byte :=
  match Byte.of_N (Z.to_N (z mod 256)) with
  | Some b => b
  | None => x00
  end.

Definition Z_of_byte (b : byte) : Z := Z.of_N (Byte.to_N b).

(** [n] bytes of [v], least significant first. *)
Fixpoint pack_le (n : nat) (v : Z) : list byte :=
  match n with
  | O => []
  | S n' => byte_of_Z v :: pack_le n' (v / 256)
  end.

Fixpoint unpack_le (bs : list byte) : Z :=
  match bs with
  | [] => 0
  | b :: bs' => Z_of_byte b + 256 * unpack_le bs'
  end.

(** [struct.error]. The text CPython gives varies with the format
    code, the value and the platform; one text stands for all. *)
Definition struct_error : exn :=
  mk_exn StructError "argument out of range".

(** [struct.pack('<H', v)] and [struct.pack('<L', v)]. *)
Definition pack_H (v : Z) : result (list byte) :=
  if (0 <=? v) && (v <=? 65535) then Ok (pack_le 2 v)
  else Raise struct_error.

Definition pack_L (v : Z) : result (list byte) :=
  if (0 <=? v) && (v <=? 4294967295) then Ok (pack_le 4 v)
  else Raise struct_error.

Definition tag (s : string) : list byte := list_byte_of_string s.

Fixpoint bytes_eqb (a b : list byte) : bool :=
  match a, b with
  | [], [] => true
  | x :: a', y :: b' => Byte.eqb x y && bytes_eqb a' b'
  | _, _ => false
  end.

Definition WAVE_FORMAT_PCM : Z := 1.

Definition wave_error (m : string) : exn := mk_exn WaveError m.

(** *** [Wave_write] *)
Record Wave_write := mk_Wave_write {
  _nchannels : Z;
  _sampwidth : Z;
  _framerate : Z;
  _nframes : Z;
  _nframeswritten : Z;
  _datawritten : Z;
  _datalength : Z;
  _headerwritten : bool;
  _file : list byte
}.

(** [wave.open(f, 'wb')] on a file just created. *)
Definition open_wb : Wave_write :=
  mk_Wave_write 0 0 0 0 0 0 0 false [].

Definition setnchannels (w : Wave_write) (nchannels : Z)
  : result Wave_write :=
  if negb (_datawritten w =? 0) then
    Raise (wave_error "cannot change parameters after starting to write")
  else if nchannels <? 1 then Raise (wave_error "bad # of channels")
  else Ok (mk_Wave_write nchannels (_sampwidth w) (_framerate w)
             (_nframes w) (_nframeswritten w) (_datawritten w)
             (_datalength w) (_headerwritten w) (_file w)).

Definition setsampwidth (w : Wave_write) (sampwidth : Z)
  : result Wave_write :=
  if negb (_datawritten w =? 0) then
    Raise (wave_error "cannot change parameters after starting to write")
  else if (sampwidth <? 1) || (4 <? sampwidth) then
    Raise (wave_error "bad sample width")
  else Ok (mk_Wave_write (_nchannels w) sampwidth (_framerate w)
             (_nframes w) (_nframeswritten w) (_datawritten w)
             (_datalength w) (_headerwritten w) (_file w)).

Definition setframerate (w : Wave_write) (framerate : Z)
  : result Wave_write :=
  if negb (_datawritten w =? 0) then
    Raise (wave_error "cannot change parameters after starting to write")
  else if framerate <=? 0 then Raise (wave_error "bad frame rate")
  else Ok (mk_Wave_write (_nchannels w) (_sampwidth w) framerate
             (_nframes w) (_nframeswritten w) (_datawritten w)
             (_datalength w) (_headerwritten w) (_file w)).

(** [struct.pack('<L4s4sLHHLLHH4s', ...)] of [_write_header]: any field
    out of the range of its code raises. *)
Definition pack_header (datalength nchannels framerate sampwidth : Z)
  : result (list byte) :=
  form_length <- pack_L (36 + datalength) ;;
  fmt_length <- pack_L 16 ;;
  format_tag <- pack_H WAVE_FORMAT_PCM ;;
  channels <- pack_H nchannels ;;
  rate <- pack_L framerate ;;
  byte_rate <- pack_L (nchannels * framerate * sampwidth) ;;
  block_align <- pack_H (nchannels * sampwidth) ;;
  bits <- pack_H (sampwidth * 8) ;;
  Ok (form_length ++ tag "WAVE" ++ tag "fmt " ++ fmt_length ++ format_tag
      ++ channels ++ rate ++ byte_rate ++ block_align ++ bits
      ++ tag "data").

(** A method that writes leaves the writer changed also when it
    raises: the writer as the call leaves it, and [Ok tt] or the
    exception. *)
Definition effect := (Wave_write * result unit)%type.

Definition and_then (r : effect) (k : Wave_write -> effect) : effect :=
  match r with
  | (w, Ok _) => k w
  | (w, Raise e) => (w, Raise e)
  end.

Definition write (w : Wave_write) (data : list byte) : Wave_write :=
  mk_Wave_write (_nchannels w) (_sampwidth w) (_framerate w)
    (_nframes w) (_nframeswritten w) (_datawritten w) (_datalength w)
    (_headerwritten w) (_file w ++ data).

(** [_write_header]: the four bytes [RIFF] are written and the two
    lengths set before the header is packed, so they stay when the
    packing raises. *)
Definition _write_header (w : Wave_write) (initlength : Z) : effect :=
  let w := write w (tag "RIFF") in
  let nframes :=
    if _nframes w =? 0
    then initlength / (_nchannels w * _sampwidth w)
    else _nframes w in
  let datalength := nframes * _nchannels w * _sampwidth w in
  let w := mk_Wave_write (_nchannels w) (_sampwidth w) (_framerate w)
             nframes (_nframeswritten w) (_datawritten w) datalength
             (_headerwritten w) (_file w) in
  match pack_header datalength (_nchannels w) (_framerate w)
                    (_sampwidth w) with
  | Raise e => (w, Raise e)
  | Ok header =>
      let w := write w header in
      match pack_L datalength with
      | Raise e => (w, Raise e)
      | Ok data_length =>
          (mk_Wave_write (_nchannels w) (_sampwidth w) (_framerate w)
             (_nframes w) (_nframeswritten w) (_datawritten w)
             (_datalength w) true (_file w ++ data_length),
           Ok tt)
      end
  end.

Definition _ensure_header_written (w : Wave_write) (datasize : Z)
  : effect :=
  if _headerwritten w then (w, Ok tt)
  else if _nchannels w =? 0 then
    (w, Raise (wave_error "# channels not specified"))
  else if _sampwidth w =? 0 then
    (w, Raise (wave_error "sample width not specified"))
  else if _framerate w =? 0 then
    (w, Raise (wave_error "sampling rate not specified"))
  else _write_header w datasize.

(** Overwrite the bytes of [f] from position [pos] by [new]. *)
Definition overwrite (pos : nat) (new f : list byte) : list byte :=
  firstn pos f ++ new ++ skipn (pos + List.length new) f.

(** [_patchheader]: the two lengths, at offsets 4 and 40. *)
Definition _patchheader (w : Wave_write) : effect :=
  if _datawritten w =? _datalength w then (w, Ok tt)
  else
    match pack_L (36 + _datawritten w) with
    | Raise e => (w, Raise e)
    | Ok form_length =>
        let w := mk_Wave_write (_nchannels w) (_sampwidth w)
                   (_framerate w) (_nframes w) (_nframeswritten w)
                   (_datawritten w) (_datalength w) (_headerwritten w)
                   (overwrite 4 form_length (_file w)) in
        match pack_L (_datawritten w) with
        | Raise e => (w, Raise e)
        | Ok data_length =>
            (mk_Wave_write (_nchannels w) (_sampwidth w) (_framerate w)
               (_nframes w) (_nframeswritten w) (_datawritten w)
               (_datawritten w) (_headerwritten w)
               (overwrite 40 data_length (_file w)),
             Ok tt)
        end
    end.

Definition writeframesraw (w : Wave_write) (data : list byte) : effect :=
  let len := Z.of_nat (List.length data) in
  and_then (_ensure_header_written w len) (fun w1 =>
    let nframes := len / (_sampwidth w1 * _nchannels w1) in
    (mk_Wave_write (_nchannels w1) (_sampwidth w1) (_framerate w1)
       (_nframes w1) (_nframeswritten w1 + nframes)
       (_datawritten w1 + len) (_datalength w1) (_headerwritten w1)
       (_file w1 ++ data),
     Ok tt)).

Definition writeframes (w : Wave_write) (data : list byte) : effect :=
  and_then (writeframesraw w data) (fun w1 =>
    if negb (_datalength w1 =? _datawritten w1) then _patchheader w1
    else (w1, Ok tt)).

(** [close]: the header if it is not written yet, the lengths if they
    are not those of the data; the file is closed also when one of the
    two raises, and holds what was written until then. *)
Definition close (w : Wave_write) : effect :=
  and_then (_ensure_header_written w 0) (fun w1 =>
    if negb (_datalength w1 =? _datawritten w1) then _patchheader w1
    else (w1, Ok tt)).

(** *** [Wave_read] *)

(** What a reader gets: the parameters, [getnframes()] and
    [readframes(getnframes())]. *)
Record wav := mk_wav {
  nchannels : Z;
  sampwidth : Z;
  framerate : Z;
  nframes : Z;
  frames : list byte
}.

Definition take (n : Z) (bs : list byte) : list byte :=
  firstn (Z.to_nat n) bs.

Definition drop (n : Z) (bs : list byte) : list byte :=
  skipn (Z.to_nat n) bs.

(** [_read_fmt_chunk] on the bytes of the chunk: sixteen of them are
    read, a short read is an [EOFError]. *)
Definition _read_fmt_chunk (body : list byte) : result (Z * Z * Z) :=
  if (List.length body <? 14)%nat then
    Raise (mk_exn EOFError EmptyString)
  else
    let wFormatTag := unpack_le (take 2 body) in
    let nchannels := unpack_le (take 2 (drop 2 body)) in
    let framerate := unpack_le (take 4 (drop 4 body)) in
    if wFormatTag =? WAVE_FORMAT_PCM then
      if (List.length body <? 16)%nat then
        Raise (mk_exn EOFError EmptyString)
      else
        let bits := unpack_le (take 2 (drop 14 body)) in
        let sampwidth := (bits + 7) / 8 in
        if sampwidth =? 0 then Raise (wave_error "bad sample width")
        else if nchannels =? 0 then Raise (wave_error "bad # of channels")
        else Ok (nchannels, sampwidth, framerate)
    else Raise (wave_error "unknown format").

(** The chunk loop of [initfp]: [bs] is what is left of the RIFF chunk,
    [fmt] the format once its chunk was read. A chunk of another name
    is skipped with its padding byte. The loop ends at the data chunk
    or when no chunk header is left. *)
Fixpoint read_chunks (fuel : nat) (bs : list byte)
         (fmt : option (Z * Z * Z)) : result wav :=
  match fuel with
  | O => Raise (wave_error "fmt chunk and/or data chunk missing")
  | S fuel' =>
      if (List.length bs <? 8)%nat then
        Raise (wave_error "fmt chunk and/or data chunk missing")
      else
        let chunkname := take 4 bs in
        let chunksize := unpack_le (take 4 (drop 4 bs)) in
        let body := drop 8 bs in
        let next := drop (chunksize + chunksize mod 2) body in
        if bytes_eqb chunkname (tag "fmt ") then
          match _read_fmt_chunk (take chunksize body) with
          | Raise e => Raise e
          | Ok f => read_chunks fuel' next (Some f)
          end
        else if bytes_eqb chunkname (tag "data") then
          match fmt with
          | None => Raise (wave_error "data chunk before fmt chunk")
          | Some (nchannels, sampwidth, framerate) =>
              let framesize := nchannels * sampwidth in
              let nframes := chunksize / framesize in
              Ok (mk_wav nchannels sampwidth framerate nframes
                    (take (nframes * framesize) (take chunksize body)))
          end
        else read_chunks fuel' next fmt
  end.

(** [wave.open(f, 'rb')] followed by the getters and
    [readframes(getnframes())]. *)
Definition read (f : list byte) : result wav :=
  if (List.length f <? 8)%nat then Raise (mk_exn EOFError EmptyString)
  else if negb (bytes_eqb (take 4 f) (tag "RIFF")) then
    Raise (wave_error "file does not start with RIFF id")
  else
    let riff := take (unpack_le (take 4 (drop 4 f))) (drop 8 f) in
    if negb (bytes_eqb (take 4 riff) (tag "WAVE")) then
      Raise (wave_error "not a WAVE file")
    else read_chunks (S (List.length riff)) (drop 4 riff) None.

End Wave.

(** ** recorder.py *)
Module Recorder.
Import Devices.

(** [pyaudio.paInt16]. *)
Definition paInt16 : Z := 8.

(** The [RecordingConfig] data class; [max_duration] is in seconds. *)
Record RecordingConfig := mk_RecordingConfig {
  device : AudioDevice;
  sample_rate : Z;
  channels : Z;
  chunk_size : Z;
  format : Z;
  max_duration : option Z;
  output_dir : string;
  audio_format : string
}.

(** [RecordingConfig(device=..., sample_rate=..., channels=...)], the
    other fields at their defaults. *)
Definition RecordingConfig_of (device : AudioDevice)
           (sample_rate channels : Z) : RecordingConfig :=
  mk_RecordingConfig device sample_rate channels 4096 paInt16 None
                     "storage/recordings" "wav".

(** The [RecordingStats] data class; times in milliseconds. *)
Record RecordingStats := mk_RecordingStats {
  start_time : Z;
  end_time : option Z;
  duration : Z;
  file_size : Z;
  samples_recorded : Z;
  filename : option string
}.

(** The state of a PortAudio stream, as [is_stopped()] reports it. *)
Inductive Stream := Active | Stopped.

(** The attributes of an [AudioRecorder]. [_audio] tells whether the
    PyAudio handle is there, [_progress_callback] whether a callback
    is set, [_recording_thread] whether a thread object is. *)
Record AudioRecorder := mk_AudioRecorder {
  _config : option RecordingConfig;
  _audio : bool;
  _stream : option Stream;
  _recording : bool;
  _recording_thread : bool;
  _frames : list (list byte);
  _stats : option RecordingStats;
  _progress_callback : bool;
  _frames_captured : Z;
  _has_audio_detected : bool;
  _audio_threshold : Z
}.

Definition set_config v (s : AudioRecorder) :=
  mk_AudioRecorder v (_audio s) (_stream s) (_recording s)
    (_recording_thread s) (_frames s) (_stats s) (_progress_callback s)
    (_frames_captured s) (_has_audio_detected s) (_audio_threshold s).
Definition set_audio v (s : AudioRecorder) :=
  mk_AudioRecorder (_config s) v (_stream s) (_recording s)
    (_recording_thread s) (_frames s) (_stats s) (_progress_callback s)
    (_frames_captured s) (_has_audio_detected s) (_audio_threshold s).
Definition set_stream v (s : AudioRecorder) :=
  mk_AudioRecorder (_config s) (_audio s) v (_recording s)
    (_recording_thread s) (_frames s) (_stats s) (_progress_callback s)
    (_frames_captured s) (_has_audio_detected s) (_audio_threshold s).
Definition set_recording v (s : AudioRecorder) :=
  mk_AudioRecorder (_config s) (_audio s) (_stream s) v
    (_recording_thread s) (_frames s) (_stats s) (_progress_callback s)
    (_frames_captured s) (_has_audio_detected s) (_audio_threshold s).
Definition set_recording_thread v (s : AudioRecorder) :=
  mk_AudioRecorder (_config s) (_audio s) (_stream s) (_recording s)
    v (_frames s) (_stats s) (_progress_callback s)
    (_frames_captured s) (_has_audio_detected s) (_audio_threshold s).
Definition set_frames v (s : AudioRecorder) :=
  mk_AudioRecorder (_config s) (_audio s) (_stream s) (_recording s)
    (_recording_thread s) v (_stats s) (_progress_callback s)
    (_frames_captured s) (_has_audio_detected s) (_audio_threshold s).
Definition set_stats v (s : AudioRecorder) :=
  mk_AudioRecorder (_config s) (_audio s) (_stream s) (_recording s)
    (_recording_thread s) (_frames s) v (_progress_callback s)
    (_frames_captured s) (_has_audio_detected s) (_audio_threshold s).
Definition set_progress_callback v (s : AudioRecorder) :=
  mk_AudioRecorder (_config s) (_audio s) (_stream s) (_recording s)
    (_recording_thread s) (_frames s) (_stats s) v
    (_frames_captured s) (_has_audio_detected s) (_audio_threshold s).
Definition set_frames_captured v (s : AudioRecorder) :=
  mk_AudioRecorder (_config s) (_audio s) (_stream s) (_recording s)
    (_recording_thread s) (_frames s) (_stats s) (_progress_callback s)
    v (_has_audio_detected s) (_audio_threshold s).
Definition set_has_audio_detected v (s : AudioRecorder) :=
  mk_AudioRecorder (_config s) (_audio s) (_stream s) (_recording s)
    (_recording_thread s) (_frames s) (_stats s) (_progress_callback s)
    (_frames_captured s) v (_audio_threshold s).

(** [AudioRecorder(config)], the audio system initialised. *)
Definition __init__ (config : option RecordingConfig) : AudioRecorder :=
  {| _config := config;
     _audio := true;
     _stream := None;
     _recording := false;
     _recording_thread := false;
     _frames := [];
     _stats := None;
     _progress_callback := false;
     _frames_captured := 0;
     _has_audio_detected := false;
     _audio_threshold := 100 |}.

(** [PyAudio.get_sample_size(format)]: bytes per sample of a PortAudio
    sample format. *)
Definition get_sample_size (format : Z) : result Z :=
  if format =? 1 then Ok 4          (* paFloat32 *)
  else if format =? 2 then Ok 4     (* paInt32 *)
  else if format =? 4 then Ok 3     (* paInt24 *)
  else if format =? 8 then Ok 2     (* paInt16 *)
  else if format =? 16 then Ok 1    (* paInt8 *)
  else if format =? 32 then Ok 1    (* paUInt8 *)
  else Raise (mk_exn ValueError "Invalid format").

(** [set_device_auto]: a device manager of its own, built for the call;
    every exception answers [False]. *)
Definition set_device_auto (s : AudioRecorder) (pyaudio_available : bool)
           (pa : result PyAudio) : AudioRecorder * bool :=
  match Devices.__init__ pyaudio_available pa with
  | Raise _ => (s, false)
  | Ok dm =>
      match get_recording_capable_devices dm with
      | (_, Raise _) => (s, false)
      | (_, Ok []) => (s, false)
      | (_, Ok ((first :: _) as recording_devices)) =>
          let choice :=
            if max_input_channels first =? 0 then
              hd_error (filter (fun d => 0 <? max_input_channels d)
                               recording_devices)
            else Some first in
          match choice with
          | None => (s, false)
          | Some device =>
              let channels :=
                if 0 <? max_input_channels device
                then Z.min (max_input_channels device) 2
                else 1 in
              (set_config
                 (Some (RecordingConfig_of device
                          (default_sample_rate device) channels)) s,
               true)
          end
      end
  end.

(** [_cleanup_recording]. *)
Definition _cleanup_recording (s : AudioRecorder) : AudioRecorder :=
  set_stats None (set_frames [] (set_stream None (set_recording false s))).

(** What [start_recording] asks of its surroundings: the audio system a
    device manager would find, the local time as [strftime] prints it,
    whether the output directory can be made, the clock, and whether
    the stream opens. *)
Record start_env := mk_start_env {
  se_pyaudio_available : bool;
  se_pa : result PyAudio;
  se_timestamp : string;
  se_mkdir : option exn;
  se_now : Z;
  se_open : option exn
}.

(** The loop over ['.wav', '.m4a', '.mp4'] that removes the first
    extension the name ends with. *)
Fixpoint strip_extension (exts : list string) (filename : string)
  : string :=
  match exts with
  | [] => filename
  | ext :: rest =>
      if endswith filename ext
      then drop_last (String.length ext) filename
      else strip_extension rest filename
  end.

Definition output_name (filename : option string) (timestamp : string)
           (audio_format : string) : string :=
  let filename :=
    match filename with
    | None | Some EmptyString => "meeting_" ++ timestamp
    | Some f => f
    end%string in
  let expected_ext := ("." ++ lower audio_format)%string in
  let filename := strip_extension [".wav"; ".m4a"; ".mp4"]%string filename in
  if endswith filename expected_ext then filename
  else (filename ++ expected_ext)%string.

(** [start_recording(filename, progress_callback)]. The path is the
    directory and the name joined by a slash, which is what
    [output_dir / filename] gives on a POSIX host for a relative name
    without empty or dot parts; an absolute name, which pathlib lets
    replace the directory, and the backslash of a Windows host are not
    modelled. *)
Definition start_recording (s : AudioRecorder) (filename : option string)
           (progress_callback : bool) (env : start_env)
  : AudioRecorder * result string :=
  if _recording s then
    (s, Raise (mk_exn RecordingInProgressError
                      "Recording is already in progress"))
  else
    let configured :=
      match _config s with
      | Some _ => (s, true)
      | None => set_device_auto s (se_pyaudio_available env) (se_pa env)
      end in
    match _config (fst configured), snd configured with
    | Some config, true =>
        let s := fst configured in
        let filename :=
          output_name filename (se_timestamp env) (audio_format config) in
        match se_mkdir env with
        | Some e => (s, Raise e)
        | None =>
            let filepath := (output_dir config ++ "/" ++ filename)%string in
            let s := set_progress_callback progress_callback s in
            let s := set_stats
                       (Some (mk_RecordingStats (se_now env) None 0 0 0
                                                (Some filepath))) s in
            let s := set_frames [] s in
            let failed e :=
              (_cleanup_recording s,
               Raise (mk_exn AudioRecorderError
                        ("Failed to start recording: " ++ exn_msg e))) in
            if negb (_audio s) then
              failed (mk_exn AttributeError
                        "'NoneType' object has no attribute 'open'")
            else
              match se_open env with
              | Some e => failed e
              | None =>
                  (set_recording_thread true
                     (set_recording true (set_stream (Some Active) s)),
                   Ok filepath)
              end
        end
    | _, _ =>
        (fst configured,
         Raise (mk_exn AudioRecorderError
                       "Could not configure audio device"))
    end.

(** *** The level of a chunk *)

(** [struct.unpack('<nh', data)] with [n = len(data) // 2]: signed
    sixteen-bit samples; a chunk of odd length does not unpack. *)
Fixpoint unpack_h (data : list byte) : option (list Z) :=
  match data with
  | [] => Some []
  | [_] => None
  | lo :: hi :: rest =>
      match unpack_h rest with
      | None => None
      | Some samples =>
          let v := Wave.Z_of_byte lo + 256 * Wave.Z_of_byte hi in
          Some ((if v <? 32768 then v else v - 65536) :: samples)
      end
  end.

Definition sum_of_squares (samples : list Z) : Z :=
  fold_left (fun acc x => acc + x * x) samples 0.

(** The float [_calculate_audio_level] returns is the square root of a
    quotient of two integers, or [0.0]; the two integers are kept. *)
Inductive level :=
| Zero
| Rms (sum_of_squares n : Z).

Definition _calculate_audio_level (data : list byte) : level :=
  match unpack_h data with
  | None => Zero
  | Some [] => Zero
  | Some samples =>
      Rms (sum_of_squares samples) (Z.of_nat (List.length samples))
  end.

(** [audio_level > threshold]: for a threshold that is not negative,
    the root of [sum / n] exceeds it when [sum] exceeds
    [threshold * threshold * n]. *)
Definition level_gt (l : level) (threshold : Z) : bool :=
  match l with
  | Zero => threshold <? 0
  | Rms sum n =>
      (threshold <? 0) || (threshold * threshold * n <? sum)
  end.

(** *** The recording thread *)

(** What one pass of the loop meets: whether the platform has stopped
    the stream, what [read] gives, and how long the read, the progress
    callback and the sleep of 0.05 s take, in milliseconds. *)
Record iter_env := mk_iter_env {
  ev_stream_stops : bool;
  ev_read : result (list byte);
  ev_read_ms : Z;
  ev_callback_ms : Z;
  ev_sleep_ms : Z
}.

(** The thread: the recorder it shares with the caller, its local
    [start_time] and the clock [time.time()] reads. *)
Record worker := mk_worker {
  w_rec : AudioRecorder;
  w_start : Z;
  w_clock : Z
}.

Inductive exit_reason :=
| LoopConditionFalse
| MaxDurationReached (duration : Z)
| StreamInterrupted
| DeviceUnavailable
| StreamInvalid
| CriticalError.

Inductive iter_result :=
| Continue (w : worker)
| Break (w : worker) (r : exit_reason).

(** The thread after a pass, however the pass ended. *)
Definition pass_result (r : iter_result) : worker :=
  match r with
  | Continue w => w
  | Break w _ => w
  end.

Definition advance (ms : Z) (w : worker) : worker :=
  mk_worker (w_rec w) (w_start w) (w_clock w + ms).

Definition with_rec (f : AudioRecorder -> AudioRecorder) (w : worker)
  : worker :=
  mk_worker (f (w_rec w)) (w_start w) (w_clock w).

(** The handler [except Exception as e] of the loop body. *)
Definition on_exception (w : worker) (e : exn) : iter_result :=
  let text := lower (exn_msg e) in
  if contains "invalid" text || contains "closed" text
  then Break w StreamInvalid
  else Continue w.

(** The part of the body after a read that returned [data]. *)
Definition on_data (w : worker) (config : RecordingConfig)
           (data : list byte) (ms_callback ms_sleep : Z) : iter_result :=
  let after_callback (w : worker) :=
    let w := if _progress_callback (w_rec w)
             then advance ms_callback w else w in
    Continue (advance ms_sleep w) in
  if (0 <? List.length data)%nat then
    let w := with_rec (fun s => set_frames (_frames s ++ [data]) s) w in
    let w := with_rec (fun s =>
               set_frames_captured (_frames_captured s + 1) s) w in
    match _stats (w_rec w) with
    | None =>
        on_exception w
          (mk_exn AttributeError
             "'NoneType' object has no attribute 'samples_recorded'")
    | Some st =>
        let st := mk_RecordingStats (start_time st) (end_time st)
                    (duration st) (file_size st)
                    (samples_recorded st + chunk_size config)
                    (filename st) in
        let w := with_rec (set_stats (Some st)) w in
        let w :=
          if negb (_has_audio_detected (w_rec w)) then
            if level_gt (_calculate_audio_level data)
                        (_audio_threshold (w_rec w))
            then with_rec (set_has_audio_detected true) w
            else w
          else w in
        after_callback w
    end
  else after_callback w.

(** One pass of [while self._recording]. *)
Definition worker_iter (w : worker) (ev : iter_env) : iter_result :=
  if negb (_recording (w_rec w)) then Break w LoopConditionFalse
  else
    let duration := w_clock w - w_start w in
    match _config (w_rec w) with
    | None => Break w CriticalError
    | Some config =>
        let limit_reached :=
          match max_duration config with
          | None => false
          | Some d => negb (d =? 0) && (1000 * d <=? duration)
          end in
        if limit_reached then
          Break (with_rec (set_recording false) w)
                (MaxDurationReached duration)
        else
          let w :=
            if ev_stream_stops ev
            then with_rec (fun s =>
                   match _stream s with
                   | Some _ => set_stream (Some Stopped) s
                   | None => s
                   end) w
            else w in
          match _stream (w_rec w) with
          | None | Some Stopped => Break w StreamInterrupted
          | Some Active =>
              let w := advance (ev_read_ms ev) w in
              match ev_read ev with
              | Raise e =>
                  if isinstance (exn_cls e) OSError
                     && (contains "unanticipated host error" (exn_msg e)
                         || contains "device unavailable" (exn_msg e))
                  then Break w DeviceUnavailable
                  else on_exception w e
              | Ok data =>
                  on_data w config data (ev_callback_ms ev)
                          (ev_sleep_ms ev)
              end
          end
    end.

(** The [finally] of the thread: a stream that still runs is stopped
    and closed. *)
Definition worker_finally (s : AudioRecorder) : AudioRecorder :=
  match _stream s with
  | Some Active => set_stream (Some Stopped) s
  | _ => s
  end.

(** The loop over the passes [evs] describes. [None] as reason: the
    passes are used up and the loop is still running. *)
Fixpoint worker_loop (w : worker) (evs : list iter_env)
  : worker * option exit_reason :=
  match evs with
  | [] => (w, None)
  | ev :: evs' =>
      match worker_iter w ev with
      | Continue w' => worker_loop w' evs'
      | Break w' r => (with_rec worker_finally w', Some r)
      end
  end.

(** [_recording_worker], started at clock [now]. *)
Definition _recording_worker (s : AudioRecorder) (now : Z)
           (evs : list iter_env) : worker * option exit_reason :=
  worker_loop (mk_worker s now now) evs.

(** *** Stopping and saving *)

(** The files by name; an entry hides the older ones of its name. *)
Definition files := list (string * list byte).

Fixpoint lookup (path : string) (fs : files) : option (list byte) :=
  match fs with
  | [] => None
  | (name, content) :: rest =>
      if String.eqb name path then Some content else lookup path rest
  end.

(** What [stop_recording] asks of its surroundings: the clock, the
    module constant [PYDUB_AVAILABLE], the error the file system gives
    when the WAV file is opened for writing, if any, and what
    [AudioSegment(...).export(...)] does: the bytes of the file it
    wrote, or the exception it raised, and then the file it left
    under the name, if it had opened one. *)
Record stop_env := mk_stop_env {
  st_now : Z;
  st_pydub_available : bool;
  st_io : option exn;
  st_export : result (list byte);
  st_export_leaves : option (list byte)
}.

Definition none_has_no (attribute : string) : exn :=
  mk_exn AttributeError
         ("'NoneType' object has no attribute '" ++ attribute ++ "'").

(** Leaving the [with] block of [_save_as_wav] on an exception:
    [__exit__] closes the writer, and what the close raises replaces
    the exception. The file stays, with what was written to it. *)
Definition leave_with (w : Wave.Wave_write) (e : exn)
  : list byte * exn :=
  match Wave.close w with
  | (w', Raise e') => (Wave._file w', e')
  | (w', Ok _) => (Wave._file w', e)
  end.

(** The [with] block of [_save_as_wav] on a writer that has its file,
    opened under [path]: the file is there from the opening on,
    whatever is raised later. *)
Definition wav_block (s : AudioRecorder) (path : string) (fs : files)
  : files * result unit :=
  let w0 := Wave.open_wb in
  let left (w : Wave.Wave_write) (e : exn) : files * result unit :=
    let '(f, e') := leave_with w e in ((path, f) :: fs, Raise e') in
  match _config s with
  | None => left w0 (none_has_no "channels")
  | Some config =>
      match Wave.setnchannels w0 (channels config) with
      | Raise e => left w0 e
      | Ok w1 =>
          let width :=
            if _audio s then get_sample_size (format config)
            else Raise (none_has_no "get_sample_size") in
          match width with
          | Raise e => left w1 e
          | Ok width =>
              match Wave.setsampwidth w1 width with
              | Raise e => left w1 e
              | Ok w2 =>
                  match Wave.setframerate w2 (sample_rate config) with
                  | Raise e => left w2 e
                  | Ok w3 =>
                      match Wave.writeframes w3 (List.concat (_frames s))
                      with
                      | (w4, Raise e) => left w4 e
                      | (w4, Ok _) =>
                          match Wave.close w4 with
                          | (w5, Raise e) =>
                              ((path, Wave._file w5) :: fs, Raise e)
                          | (w5, Ok _) =>
                              ((path, Wave._file w5) :: fs, Ok tt)
                          end
                      end
                  end
              end
          end
      end
  end.

(** The block when the statistics have no file name:
    [wave.open(None, 'wb')] gives a writer without a file, the setters
    work as ever, and the first write fails. *)
Definition wav_block_without_file (s : AudioRecorder) : exn :=
  let r :=
    config <- match _config s with
              | Some config => Ok config
              | None => Raise (none_has_no "channels")
              end ;;
    w1 <- Wave.setnchannels Wave.open_wb (channels config) ;;
    width <- (if _audio s then get_sample_size (format config)
              else Raise (none_has_no "get_sample_size")) ;;
    w2 <- Wave.setsampwidth w1 width ;;
    Wave.setframerate w2 (sample_rate config) in
  match r with
  | Raise e => e
  | Ok _ => none_has_no "write"
  end.

(** [_save_as_wav]. *)
Definition _save_as_wav (s : AudioRecorder) (fs : files) (env : stop_env)
  : files * result unit :=
  match _stats s with
  | None => (fs, Raise (none_has_no "filename"))
  | Some st =>
      match filename st with
      | None => (fs, Raise (wav_block_without_file s))
      | Some path =>
          match st_io env with
          | Some e => (fs, Raise e)
          | None => wav_block s path fs
          end
      end
  end.

Definition pydub_missing_message : string :=
  "pydub not available for M4A encoding. Install with: pip install pydub".

(** [_save_as_m4a]. Without a file name pydub exports to a temporary
    file of its own. *)
Definition _save_as_m4a (s : AudioRecorder) (fs : files) (env : stop_env)
  : files * result unit :=
  if negb (st_pydub_available env) then
    (fs, Raise (mk_exn AudioRecorderError pydub_missing_message))
  else
    let body : files * result unit :=
      match _stats s, _config s with
      | None, _ => (fs, Raise (none_has_no "filename"))
      | Some _, None => (fs, Raise (none_has_no "channels"))
      | Some st, Some config =>
          match (if _audio s then get_sample_size (format config)
                 else Raise (none_has_no "get_sample_size")) with
          | Raise e => (fs, Raise e)
          | Ok _ =>
              match st_export env, filename st with
              | Ok f, Some path => ((path, f) :: fs, Ok tt)
              | Ok f, None => (fs, Ok tt)
              | Raise e, Some path =>
                  (match st_export_leaves env with
                   | Some f => (path, f) :: fs
                   | None => fs
                   end,
                   Raise e)
              | Raise e, None => (fs, Raise e)
              end
          end
      end in
    match body with
    | (fs', Ok _) => (fs', Ok tt)
    | (fs', Raise e) =>
        if isinstance (exn_cls e) ImportError then
          (fs', Raise (mk_exn AudioRecorderError
             ("Failed to encode M4A. Check if ffmpeg is installed: "
              ++ exn_msg e)))
        else
          (fs', Raise (mk_exn AudioRecorderError
                         ("Failed to save M4A file: " ++ exn_msg e)))
    end.

(** [_save_recording]: the size entered in the statistics is the one
    [stat()] reports for the file under the name. A save that fails
    after its file was opened leaves that file. *)
Definition _save_recording (s : AudioRecorder) (fs : files)
           (env : stop_env) : AudioRecorder * files * result unit :=
  let failed (fs' : files) (e : exn)
      : AudioRecorder * files * result unit :=
    (s, fs',
     Raise (mk_exn AudioRecorderError
              ("Failed to write file: " ++ exn_msg e))) in
  match _frames s with
  | [] =>
      (s, fs, Raise (mk_exn AudioRecorderError "No audio data to save"))
  | _ :: _ =>
      match _config s, _stats s with
      | None, _ => failed fs (none_has_no "audio_format")
      | Some _, None => failed fs (none_has_no "filename")
      | Some config, Some st =>
          let audio_format :=
            match audio_format config with
            | EmptyString => "wav"%string
            | f => lower f
            end in
          match (if String.eqb audio_format "m4a"
                 then _save_as_m4a s fs env
                 else _save_as_wav s fs env) with
          | (fs', Raise e) => failed fs' e
          | (fs', Ok _) =>
              match filename st with
              | None =>
                  failed fs' (mk_exn TypeError
                    "expected str, bytes or os.PathLike object, not NoneType")
              | Some path =>
                  match lookup path fs' with
                  | None =>
                      failed fs' (mk_exn OSError
                        ("[Errno 2] No such file or directory: '"
                         ++ path ++ "'"))
                  | Some content =>
                      let st := mk_RecordingStats (start_time st)
                                  (end_time st) (duration st)
                                  (Z.of_nat (List.length content))
                                  (samples_recorded st) (filename st) in
                      (set_stats (Some st) s, fs', Ok tt)
                  end
              end
          end
      end
  end.

(** [stop_recording]. The thread takes a pass of its loop as one step,
    so the join finds it at the loop condition, now false: it leaves
    through its [finally]. *)
Definition stop_recording (s : AudioRecorder) (fs : files)
           (env : stop_env)
  : AudioRecorder * files * result RecordingStats :=
  match _frames s, _stats s with
  | [], None =>
      (s, fs, Raise (mk_exn AudioRecorderError "No recording to save"))
  | _, _ =>
      let s := set_recording false s in
      let s := if _recording_thread s then worker_finally s else s in
      let s := set_stream None s in
      match _stats s with
      | None => (s, fs, Raise (none_has_no "end_time"))
      | Some st =>
          let st := mk_RecordingStats (start_time st) (Some (st_now env))
                      (st_now env - start_time st) (file_size st)
                      (samples_recorded st) (filename st) in
          let s := set_stats (Some st) s in
          match _save_recording s fs env with
          | (s, fs, Ok _) =>
              (s, fs,
               match _stats s with
               | Some st => Ok st
               | None => Raise (none_has_no "end_time")
               end)
          | (s, fs, Raise e) =>
              (s, fs,
               Raise (mk_exn AudioRecorderError
                        ("Failed to save file: " ++ exn_msg e)))
          end
      end
  end.

Definition is_recording (s : AudioRecorder) : bool := _recording s.

Definition get_frames_captured (s : AudioRecorder) : Z :=
  _frames_captured s.

Definition has_audio_detected (s : AudioRecorder) : bool :=
  _has_audio_detected s.

(** [get_current_stats], asked at clock [now]. *)
Definition get_current_stats (s : AudioRecorder) (now : Z)
  : AudioRecorder * option RecordingStats :=
  match _stats s with
  | None => (s, None)
  | Some st =>
      if _recording s then
        let st := mk_RecordingStats (start_time st) (end_time st)
                    (now - start_time st) (file_size st)
                    (samples_recorded st) (filename st) in
        (set_stats (Some st) s, Some st)
      else (s, Some st)
  end.

(** [close]: an exception of the stop is logged and dropped. *)
Definition close (s : AudioRecorder) (fs : files) (env : stop_env)
  : AudioRecorder * files :=
  let '(s, fs) :=
    if _recording s then
      let '(s, fs, _) := stop_recording s fs env in (s, fs)
    else (s, fs) in
  (set_audio false s, fs).

(** *** Quality presets *)

(** A preset of [RecordingQuality]: a dict of six keys. *)
Record preset := mk_preset {
  q_sample_rate : Z;
  q_channels : Z;
  q_chunk_size : Z;
  q_name : string;
  q_description : string;
  q_size_per_min : string
}.

Definition QUICK : preset :=
  mk_preset 16000 1 2048 "Quick (16kHz Mono)"
            "Smaller files, good for voice notes" "2 MB/min".

Definition STANDARD : preset :=
  mk_preset 44100 2 4096 "Standard (44.1kHz Stereo)"
            "CD quality, balanced file size" "10 MB/min".

Definition PROFESSIONAL : preset :=
  mk_preset 48000 2 4096 "Professional (48kHz Stereo)"
            "Professional quality for meetings" "11 MB/min".

Definition HIGH : preset :=
  mk_preset 96000 2 8192 "High (96kHz Stereo)"
            "Maximum quality, larger files" "22 MB/min".

(** [RecordingQuality.get_all()], a dict, as its list of items. *)
Definition get_all : list (string * preset) :=
  [ ("quick", QUICK); ("standard", STANDARD);
    ("professional", PROFESSIONAL); ("high", HIGH) ]%string.

(** [dict.get(key, default)] on the items of a dict. *)
Fixpoint dict_get {V : Type} (items : list (string * V)) (key : string)
         (default : V) : V :=
  match items with
  | [] => default
  | (k, v) :: rest =>
      if String.eqb k key then v else dict_get rest key default
  end.

(** [RecordingQuality.get(quality_name)]. *)
Definition RecordingQuality_get (quality_name : string) : preset :=
  dict_get get_all (lower quality_name) PROFESSIONAL.

End Recorder.

(** ** What the specification says, in its own words *)
Module Policy.
Import Devices.

(** The two tests of the loopback classification: one of the six
    substrings in the lower-cased name; input channels and no output
    channel. *)
Definition indicator_in_name (n : string) : bool :=
  existsb (fun indicator => contains indicator (lower n))
          loopback_indicators.

Definition channel_rule (di : device_info) : bool :=
  (0 <? di_maxInputChannels di) && (di_maxOutputChannels di =? 0).

(** The selection policy of [get_default_speakers]: (a) with a device
    flagged loopback in the list, the first one flagged loopback and
    default, else the first one flagged loopback; (b) else, among the
    devices of the WASAPI host API with output channels, the first one
    flagged default, else the first; (c) else none. *)
Definition wasapi_output (d : AudioDevice) : bool :=
  is_wasapi d && (0 <? max_output_channels d).

Definition default_speakers_policy (devices : list AudioDevice)
  : option AudioDevice :=
  if existsb is_loopback devices then
    match find (fun d => is_loopback d && is_default d) devices with
    | Some d => Some d
    | None => find is_loopback devices
    end
  else
    match find (fun d => wasapi_output d && is_default d) devices with
    | Some d => Some d
    | None => find wasapi_output devices
    end.

(** The endpoints of [range(n)] that can be processed, in order. *)
Definition surviving_endpoints (a : PyAudio) (n : Z) : list AudioDevice :=
  flat_map (fun i => match make_device a i with
                     | Ok d => [d]
                     | Raise _ => []
                     end)
           (range n).

(** The preference score as the specification states it: 30 for the
    native low-latency host API of the platform, 20 for a loopback
    device, 10 for a default device, added. *)
Definition preference_score (native loopback default : bool) : Z :=
  (if native then 30 else 0)
  + (if loopback then 20 else 0)
  + (if default then 10 else 0).

Definition preference (d : AudioDevice) : Z :=
  preference_score (is_wasapi d) (is_loopback d) (is_default d).

(** The devices of preference [k]. *)
Definition of_score (k : Z) (l : list AudioDevice) : list AudioDevice :=
  filter (fun d => preference d =? k) l.

(** The canonical WAV file of [data]: the RIFF header of 44 bytes with
    the PCM format of the parameters, then the data as they are. *)
Definition canonical_wav (nchannels sampwidth framerate : Z)
           (data : list byte) : list byte :=
  let len := Z.of_nat (List.length data) in
  Wave.tag "RIFF"
  ++ (Wave.pack_le 4 (36 + len) ++ Wave.tag "WAVE" ++ Wave.tag "fmt "
      ++ Wave.pack_le 4 16 ++ Wave.pack_le 2 Wave.WAVE_FORMAT_PCM
      ++ Wave.pack_le 2 nchannels ++ Wave.pack_le 4 framerate
      ++ Wave.pack_le 4 (nchannels * framerate * sampwidth)
      ++ Wave.pack_le 2 (nchannels * sampwidth)
      ++ Wave.pack_le 2 (sampwidth * 8) ++ Wave.tag "data")
  ++ Wave.pack_le 4 len ++ data.

End Policy.

(** ** Hosts and sessions used as examples *)
Module Examples.
Import Devices.

(** A host with one microphone on WASAPI, host API 2 of three. *)
Definition usb_microphone : device_info :=
  mk_device_info "Microphone (USB Audio)" 1 0 48000 (Some (PInt 2)).

Definition host_api_names (k : Z) : result string :=
  if k =? 0 then Ok "MME"%string
  else if k =? 1 then Ok "Windows DirectSound"%string
  else if k =? 2 then Ok "Windows WASAPI"%string
  else Raise (mk_exn OSError "Invalid host API").

Definition no_default : result Z :=
  Raise (mk_exn OSError "No Default Input Device Available").

Definition microphone_host : PyAudio :=
  {| get_host_api_count := Ok 3;
     get_device_count := Ok 1;
     get_device_info_by_index := fun i =>
       if i =? 0 then Ok usb_microphone
       else Raise (mk_exn OSError "Invalid device");
     get_host_api_info_by_index := host_api_names;
     get_default_input_device_info := Ok 0;
     get_default_output_device_info := no_default |}.

(** A host with a line input and output on MME, which enumerates. *)
Definition line_in_host : PyAudio :=
  {| get_host_api_count := Ok 3;
     get_device_count := Ok 1;
     get_device_info_by_index := fun i =>
       if i =? 0 then Ok (mk_device_info "Line In" 2 2 44100 (Some (PInt 0)))
       else Raise (mk_exn OSError "Invalid device");
     get_host_api_info_by_index := host_api_names;
     get_default_input_device_info := Ok 0;
     get_default_output_device_info := no_default |}.

Definition line_in_device : AudioDevice :=
  mk_AudioDevice 0 "Line In" 2 2 44100 "MME" false true.

(** A manager whose first listing found no device. *)
Definition manager_with_empty_cache : DeviceManager :=
  {| _audio := Some line_in_host; _devices_cache := Some [] |}.

Definition fresh_manager : DeviceManager :=
  {| _audio := Some line_in_host; _devices_cache := None |}.

(** The two devices of the scenario of the specification. *)
Definition loopback_speakers : AudioDevice :=
  mk_AudioDevice 0 "Speakers (Realtek) [Loopback]" 2 0 48000
                 "Windows WASAPI" true false.

Definition plain_microphone : AudioDevice :=
  mk_AudioDevice 1 "Microphone" 1 0 44100 "MME" false true.

(** A host of three endpoints: loopback speakers on WASAPI, an endpoint
    that cannot be queried, and a line input on MME; the default output
    is endpoint 0, the default input endpoint 2. *)
Definition studio_host : PyAudio :=
  {| get_host_api_count := Ok 3;
     get_device_count := Ok 3;
     get_device_info_by_index := fun i =>
       if i =? 0 then
         Ok (mk_device_info "Speakers (Realtek) [Loopback]" 2 0 48000
                            (Some (PInt 2)))
       else if i =? 2 then
         Ok (mk_device_info "Line In" 2 2 44100 (Some (PInt 0)))
       else Raise (mk_exn OSError "Invalid device");
     get_host_api_info_by_index := host_api_names;
     get_default_input_device_info := Ok 2;
     get_default_output_device_info := Ok 0 |}.

Definition studio_manager : DeviceManager :=
  {| _audio := Some studio_host; _devices_cache := None |}.

Definition studio_speakers : AudioDevice :=
  mk_AudioDevice 0 "Speakers (Realtek) [Loopback]" 2 0 48000
                 "Windows WASAPI" true true.

Definition studio_line_in : AudioDevice :=
  mk_AudioDevice 2 "Line In" 2 2 44100 "MME" false true.

Definition studio_listed : DeviceManager :=
  {| _audio := Some studio_host;
     _devices_cache := Some [studio_speakers; studio_line_in] |}.

End Examples.

(** ** A session as its caller and its thread drive it *)
Module Session.
Import Devices Recorder.

(** The steps that change the attributes of a recorder: the methods the
    caller invokes, and the steps of the recording thread, one pass of
    its loop at a time, with whatever the thread holds as [start_time]
    and reads as the clock. *)
Inductive op :=
| SetDeviceAuto (pyaudio_available : bool) (pa : result PyAudio)
| StartRecording (filename : option string) (progress_callback : bool)
                 (env : start_env)
| WorkerPass (start clock : Z) (ev : iter_env)
| WorkerExit
| StopRecording (env : stop_env)
| GetCurrentStats (now : Z)
| CleanupRecording
| Close (env : stop_env).

Definition step (s : AudioRecorder) (o : op) : AudioRecorder :=
  match o with
  | SetDeviceAuto available pa => fst (set_device_auto s available pa)
  | StartRecording filename callback env =>
      fst (start_recording s filename callback env)
  | WorkerPass start clock ev =>
      w_rec (pass_result (worker_iter (mk_worker s start clock) ev))
  | WorkerExit => worker_finally s
  | StopRecording env => fst (fst (stop_recording s [] env))
  | GetCurrentStats now => fst (get_current_stats s now)
  | CleanupRecording => _cleanup_recording s
  | Close env => fst (close s [] env)
  end.

Definition run (s : AudioRecorder) (ops : list op) : AudioRecorder :=
  fold_left step ops s.

(** What a pass of the loop takes at most: a read, the callback, the
    sleep. *)
Definition within (B C S : Z) (ev : iter_env) : Prop :=
  0 <= ev_read_ms ev <= B
  /\ 0 <= ev_callback_ms ev <= C
  /\ 0 <= ev_sleep_ms ev <= S.

(** A pass whose read returns data and whose sleep lasts the 0.05 s
    asked for, or longer. *)
Definition steady (ev : iter_env) : Prop :=
  ev_stream_stops ev = false
  /\ (exists data, ev_read ev = Ok data)
  /\ 0 <= ev_read_ms ev
  /\ 0 <= ev_callback_ms ev
  /\ 50 <= ev_sleep_ms ev.

(** A recorder that records with [config], its stream open and its
    statistics there. *)
Definition recording_on (config : RecordingConfig) (s : AudioRecorder)
  : Prop :=
  _recording s = true
  /\ _config s = Some config
  /\ _stream s = Some Active
  /\ _stats s <> None.

End Session.

(** ** Sessions used as examples *)
Module Sessions.
Import Devices Recorder Session Examples.
Local Open Scope string_scope.

Definition stereo_wav : RecordingConfig :=
  RecordingConfig_of loopback_speakers 48000 2.


(** A limit of one second. *)
Definition one_second : RecordingConfig :=
  mk_RecordingConfig loopback_speakers 48000 2 4096 paInt16 (Some 1)
                     "storage/recordings" "wav".

(** Buffers of two frames, as the chunks below are. *)
Definition two_frame_buffers : RecordingConfig :=
  mk_RecordingConfig loopback_speakers 48000 2 2 paInt16 None
                     "storage/recordings" "wav".

Definition quiet_start : start_env :=
  {| se_pyaudio_available := true;
     se_pa := Ok microphone_host;
     se_timestamp := "20250101_120000";
     se_mkdir := None;
     se_now := 0;
     se_open := None |}.

(** Two stereo frames of sample value 4096, and two of silence. *)
Definition loud_chunk : list byte :=
  [x00; x10; x00; x10; x00; x10; x00; x10].

Definition silent_chunk : list byte :=
  [x00; x00; x00; x00; x00; x00; x00; x00].

(** A pass that reads [data] in 20 ms, then sleeps 50 ms. *)
Definition pass (data : list byte) : iter_env :=
  mk_iter_env false (Ok data) 20 0 50.

Definition wav_stop : stop_env :=
  {| st_now := 1000;
     st_pydub_available := true;
     st_io := None;
     st_export := Raise (mk_exn OSError "not asked");
     st_export_leaves := None |}.



(** A session that recorded one loud chunk and was stopped. *)
Definition recorded (config : RecordingConfig) : AudioRecorder :=
  run (Recorder.__init__ (Some config))
      [StartRecording (Some "first") false quiet_start;
       WorkerPass 0 0 (pass loud_chunk)].

Definition used_session : AudioRecorder :=
  run (recorded stereo_wav) [StopRecording wav_stop].

(** A pass whose read fails on an overflow, and one that finds the
    device gone. *)
Definition overflow_pass : iter_env :=
  mk_iter_env false (Raise (mk_exn OSError "[Errno -9981] Input overflowed"))
              20 0 50.

Definition unplugged_pass : iter_env :=
  mk_iter_env false
    (Raise (mk_exn OSError "[Errno -9985] device unavailable")) 20 0 50.

(** The stream does not open: the device is busy. *)
Definition busy_start : start_env :=
  {| se_pyaudio_available := true;
     se_pa := Ok microphone_host;
     se_timestamp := "20250101_120000";
     se_mkdir := None;
     se_now := 0;
     se_open := Some (mk_exn OSError "[Errno -9996] Invalid input device") |}.

(** A session that has just started. *)
Definition started (config : RecordingConfig) : AudioRecorder :=
  run (Recorder.__init__ (Some config))
      [StartRecording (Some "first") false quiet_start].

(** A session with two buffers of two frames. *)
Definition two_buffers : AudioRecorder :=
  run (recorded two_frame_buffers) [WorkerPass 0 70 (pass silent_chunk)].

(** A sample rate the header of a WAV file cannot hold. *)
Definition unwritable : RecordingConfig :=
  mk_RecordingConfig loopback_speakers 4294967296 2 4096 paInt16 None
                     "storage/recordings" "wav".



End Sessions.

(** ** main.py *)
Module Main.

(** The name [quick_record] makes when none is given: the extension is
    the lower-cased format when that is [wav] or [m4a], else [wav]. *)
Definition quick_record_filename (timestamp audio_format : string)
  : string :=
  let ext :=
    if existsb (String.eqb (lower audio_format)) ["wav"; "m4a"]%string
    then lower audio_format
    else "wav"%string in
  ("recording_" ++ timestamp ++ "." ++ ext)%string.

(** What [record_worker] sets before it starts the recorder: a duration
    of -1 is the manual mode, without limit for the recorder and with
    7200 status updates at most. *)
Definition max_duration_of (duration : Z) : option Z :=
  if duration =? -1 then None else Some duration.

Definition effective_duration (duration : Z) : Z :=
  if duration =? -1 then 7200 else duration.

(** The two assignments to [recorder._config] of [record_worker]. *)
Definition configure (config : Recorder.RecordingConfig)
           (duration : Z) (audio_format : string)
  : Recorder.RecordingConfig :=
  Recorder.mk_RecordingConfig
    (Recorder.device config) (Recorder.sample_rate config)
    (Recorder.channels config) (Recorder.chunk_size config)
    (Recorder.format config) (max_duration_of duration)
    (Recorder.output_dir config) (lower audio_format).

End Main.

(** ** Notions used to state what the code does *)
Module Behaviour.
Import Devices Recorder.

(** A read error that ends the recording loop: an [OSError] whose text
    names a host error or a lost device, or any exception whose
    lower-cased text has "invalid" or "closed". *)
Definition fatal_read_error (e : exn) : bool :=
  (isinstance (exn_cls e) OSError
   && (contains "unanticipated host error" (exn_msg e)
       || contains "device unavailable" (exn_msg e)))
  || contains "invalid" (lower (exn_msg e))
  || contains "closed" (lower (exn_msg e)).

(** The chunk a pass appends: what its read returned, unless empty. *)
Definition chunk_of (ev : iter_env) : list (list byte) :=
  match ev_read ev with
  | Ok data => if (0 <? List.length data)%nat then [data] else []
  | Raise _ => []
  end.

Definition chunks (evs : list iter_env) : list (list byte) :=
  flat_map chunk_of evs.

(** A pass whose read returns while the stream runs. *)
Definition reads (ev : iter_env) : Prop :=
  ev_stream_stops ev = false /\ exists data, ev_read ev = Ok data.

(** A name without a dot. *)
Definition dotless (s : string) : Prop := contains "." s = false.

(** The extensions [start_recording] removes. *)
Definition known_extensions : list string :=
  [".wav"; ".m4a"; ".mp4"]%string.

(** The absolute value of every sample is at most [bound]. *)
Definition within_amplitude (bound : Z) (samples : list Z) : Prop :=
  Forall (fun x => Z.abs x <= bound) samples.

Definition above_amplitude (bound : Z) (samples : list Z) : Prop :=
  Forall (fun x => bound < Z.abs x) samples.

(** Statistics with the end time [now] and the duration since their
    start. *)
Definition finalised (st : RecordingStats) (now : Z) : RecordingStats :=
  mk_RecordingStats (start_time st) (Some now) (now - start_time st)
                    (file_size st) (samples_recorded st) (filename st).

(** Statistics with the size of the file written. *)
Definition sized (st : RecordingStats) (size : Z) : RecordingStats :=
  mk_RecordingStats (start_time st) (end_time st) (duration st) size
                    (samples_recorded st) (filename st).

End Behaviour.

(** * Facts *)

(** Case analysis on the scrutinees of the goal: the first one found, or
    the innermost ones first. *)
Ltac split_matches :=
  repeat match goal with
         | |- context [match ?x with _ => _ end] => destruct x eqn:?
         end.

Ltac split_inner_matches :=
  repeat match goal with
         | |- context [match ?x with _ => _ end] =>
             lazymatch x with
             | context [match _ with _ => _ end] => fail
             | _ => destruct x eqn:?
             end
         end.

Import Devices Policy.

(** ** Lists *)
Section ListFacts.
Context {A : Type}.
Implicit Types (f g : A -> bool) (l : list A).

Lemma find_filter f g l :
  find f (filter g l) = find (fun x => g x && f x) l.
Proof.
  induction l as [|x l IH]; simpl; [reflexivity|].
  destruct (g x) eqn:Hg; simpl; [|exact IH].
  destruct (f x); [reflexivity | exact IH].
Qed.

Lemma hd_filter g l :
  hd_error (filter g l) = find g l.
Proof.
  induction l as [|x l IH]; simpl; [reflexivity|].
  destruct (g x); [reflexivity | exact IH].
Qed.

Lemma filter_nil_existsb g l :
  filter g l = [] <-> existsb g l = false.
Proof.
  induction l as [|x l IH]; simpl; [tauto|].
  destruct (g x); simpl; [split; discriminate | exact IH].
Qed.
End ListFacts.

(** ** The device catalog *)
Section DefaultSpeakers.

Lemma select_default_speakers_policy devices :
  select_default_speakers devices = default_speakers_policy devices.
Proof.
  unfold select_default_speakers, default_speakers_policy.
  destruct (filter is_loopback devices) as [|d0 rest] eqn:Hlb.
  - apply filter_nil_existsb in Hlb. rewrite Hlb.
    fold wasapi_output.
    rewrite <- (find_filter is_default wasapi_output devices).
    rewrite <- (hd_filter wasapi_output devices).
    destruct (filter wasapi_output devices) as [|w0 ws]; simpl.
    + reflexivity.
    + destruct (is_default w0); [reflexivity|].
      destruct (find is_default ws); reflexivity.
  - assert (Hex : existsb is_loopback devices = true).
    { destruct (existsb is_loopback devices) eqn:E; [reflexivity|].
      apply filter_nil_existsb in E. congruence. }
    rewrite Hex.
    rewrite <- (find_filter is_default is_loopback devices).
    rewrite <- (hd_filter is_loopback devices).
    rewrite Hlb. simpl.
    destruct (is_default d0); [reflexivity|].
    destruct (find is_default rest); reflexivity.
Qed.

Lemma default_speakers_policy_none devices :
  default_speakers_policy devices = None <->
  (forall d, In d devices ->
             is_loopback d = false /\ wasapi_output d = false).
Proof.
  unfold default_speakers_policy. split.
  - intros H d Hin.
    destruct (existsb is_loopback devices) eqn:Hex.
    + destruct (find (fun d => is_loopback d && is_default d) devices);
        [discriminate|].
      apply existsb_exists in Hex. destruct Hex as (x & Hx & Hlb).
      pose proof (find_none _ _ H x Hx). congruence.
    + destruct (find (fun d => wasapi_output d && is_default d) devices);
        [discriminate|].
      split.
      * destruct (is_loopback d) eqn:E; [|reflexivity].
        assert (existsb is_loopback devices = true)
          by (apply existsb_exists; eauto).
        congruence.
      * exact (find_none _ _ H d Hin).
  - intros H.
    assert (Hex : existsb is_loopback devices = false).
    { destruct (existsb is_loopback devices) eqn:E; [|reflexivity].
      apply existsb_exists in E. destruct E as (x & Hx & Hlb).
      destruct (H x Hx). congruence. }
    rewrite Hex.
    destruct (find (fun d => wasapi_output d && is_default d) devices)
      as [d|] eqn:F1.
    + apply find_some in F1. destruct F1 as (Hin & Hd).
      destruct (H d Hin) as (_ & Hw). rewrite Hw in Hd. discriminate.
    + destruct (find wasapi_output devices) as [d|] eqn:F2;
        [|reflexivity].
      apply find_some in F2. destruct F2 as (Hin & Hd).
      destruct (H d Hin). congruence.
Qed.

(** C3. [get_default_speakers] answers by the selection policy over the
    current device list: the first device flagged loopback and default
    if a loopback device exists, else the first loopback device; else
    the first default device among those of the WASAPI host API with
    output channels, else the first of them; else [None], which is the
    answer exactly when no device is loopback or WASAPI output. It
    raises only when the listing raises, and then an
    [AudioDeviceError]. *)
Theorem get_default_speakers_policy (dm : DeviceManager) :
  match list_all_devices dm false with
  | (dm', Ok devices) =>
      get_default_speakers dm
      = (dm', Ok (default_speakers_policy devices))
      /\ (default_speakers_policy devices = None <->
          forall d, In d devices ->
                    is_loopback d = false /\ wasapi_output d = false)
  | (dm', Raise e) =>
      exists m,
        get_default_speakers dm
        = (dm', Raise (mk_exn AudioDeviceError m))
  end.
Proof.
  unfold get_default_speakers.
  destruct (list_all_devices dm false) as [dm' [devices|e]].
  - split.
    + now rewrite select_default_speakers_policy.
    + apply default_speakers_policy_none.
  - eexists. reflexivity.
Qed.

Lemma get_default_speakers_policy_witness :
  get_default_speakers
    {| _audio := None;
       _devices_cache :=
         Some [Examples.plain_microphone; Examples.loopback_speakers] |}
  = ({| _audio := None;
        _devices_cache :=
          Some [Examples.plain_microphone; Examples.loopback_speakers] |},
     Ok (Some Examples.loopback_speakers)).
Proof.
  exact (proj1 (get_default_speakers_policy
                  {| _audio := None;
                     _devices_cache :=
                       Some [Examples.plain_microphone;
                             Examples.loopback_speakers] |})).
Defined.

End DefaultSpeakers.

Section Loopback.
Import Examples.

(** A name with one of the six substrings is loopback. *)
Lemma is_loopback_by_name di :
  indicator_in_name (di_name di) = true ->
  _is_loopback_device di = Ok true.
Proof.
  unfold indicator_in_name, _is_loopback_device. intros ->. reflexivity.
Qed.

(** Neither a name nor the channel pattern: not loopback. *)
Lemma is_loopback_neither di :
  indicator_in_name (di_name di) = false ->
  channel_rule di = false ->
  _is_loopback_device di = Ok false.
Proof.
  unfold indicator_in_name, channel_rule, _is_loopback_device.
  intros -> ->. reflexivity.
Qed.

(** The channel pattern on the dict PortAudio gives, whose ['hostApi']
    is an index: the membership test raises. *)
Lemma is_loopback_channel_rule_raises di :
  indicator_in_name (di_name di) = false ->
  channel_rule di = true ->
  (forall s, di_hostApi di <> Some (PStr s)) ->
  _is_loopback_device di
  = Raise (mk_exn TypeError "argument of type 'int' is not iterable").
Proof.
  unfold indicator_in_name, channel_rule, _is_loopback_device.
  intros -> -> Hstr.
  destruct (di_hostApi di) as [[k|s]|]; try reflexivity.
  now destruct (Hstr s).
Qed.

(** With a [str] there the test is a substring test that minds the
    case. *)
Lemma is_loopback_channel_rule_str di s :
  indicator_in_name (di_name di) = false ->
  channel_rule di = true ->
  di_hostApi di = Some (PStr s) ->
  _is_loopback_device di = Ok (contains "wasapi" s).
Proof.
  unfold indicator_in_name, channel_rule, _is_loopback_device.
  intros -> -> ->. reflexivity.
Qed.

(** So an endpoint that reaches the channel test never becomes a
    device: whatever ['hostApi'] holds, its processing raises. *)
Lemma make_device_channel_rule_raises a i di :
  get_device_info_by_index a i = Ok di ->
  indicator_in_name (di_name di) = false ->
  channel_rule di = true ->
  exists e, make_device a i = Raise e.
Proof.
  intros Hdi Hname Hrule. unfold make_device. rewrite Hdi. simpl.
  destruct (di_hostApi di) as [[k|s]|] eqn:Hh; simpl;
    try (eexists; reflexivity).
  destruct (get_host_api_info_by_index a k); simpl;
    [|eexists; reflexivity].
  rewrite is_loopback_channel_rule_raises; auto.
  - simpl. eexists; reflexivity.
  - intros s. rewrite Hh. discriminate.
Qed.

(** C1, at the failing input. A microphone of the WASAPI host API with
    one input channel and no output channel, its name without any of
    the six substrings: the classification raises [TypeError] instead of
    answering loopback, and the listing of the host, whose only device
    it is, comes back empty. *)
Theorem loopback_channel_rule_drops_wasapi_microphone :
  indicator_in_name (di_name usb_microphone) = false
  /\ get_host_api_info_by_index microphone_host 2 = Ok "Windows WASAPI"%string
  /\ _is_loopback_device usb_microphone
     = Raise (mk_exn TypeError "argument of type 'int' is not iterable")
  /\ list_all_devices
       {| _audio := Some microphone_host; _devices_cache := None |} false
     = ({| _audio := Some microphone_host; _devices_cache := Some [] |},
        Ok []).
Proof. repeat split; reflexivity. Qed.

End Loopback.

Section Listing.
Import Examples.

Lemma enumerate_loop_app a indices devices :
  enumerate_loop a indices devices
  = devices ++ flat_map (fun i => match make_device a i with
                                  | Ok d => [d]
                                  | Raise _ => []
                                  end) indices.
Proof.
  revert devices.
  induction indices as [|i rest IH]; intros devices; simpl.
  - now rewrite app_nil_r.
  - destruct (make_device a i) as [d|e]; rewrite IH; simpl.
    + now rewrite <- app_assoc.
    + reflexivity.
Qed.

Lemma surviving_endpoints_In a n d :
  In d (surviving_endpoints a n) <->
  exists i, In i (range n) /\ make_device a i = Ok d.
Proof.
  unfold surviving_endpoints. rewrite in_flat_map. split.
  - intros (i & Hi & Hd). exists i. split; [exact Hi|].
    destruct (make_device a i) as [d'|e]; simpl in Hd.
    + destruct Hd as [->|[]]. reflexivity.
    + destruct Hd.
  - intros (i & Hi & Hd). exists i. split; [exact Hi|].
    rewrite Hd. now left.
Qed.

(** C4, as stated, fails on a cache that holds an empty list: a call
    without refresh does not enumerate the host again. *)
Lemma list_all_devices_empty_cache_not_enumerated :
  ~ (forall dm refresh a n,
        refresh = true \/ _devices_cache dm = None
        \/ _devices_cache dm = Some [] ->
        _audio dm = Some a ->
        get_device_count a = Ok n ->
        snd (list_all_devices dm refresh) = Ok (surviving_endpoints a n)).
Proof.
  intros H.
  specialize (H manager_with_empty_cache false line_in_host 1
                (or_intror (or_intror eq_refl)) eq_refl eq_refl).
  vm_compute in H. discriminate H.
Qed.

(** C4, amended. Without refresh a cache that was filled by an earlier
    listing, be it with no device at all, is returned as it is and the
    manager is unchanged. With refresh, or with a cache never filled,
    the endpoints are enumerated: when the count is there, the call
    succeeds with the endpoints that could be processed, in order, the
    others passed over, and the cache holds that list; when the count
    raises, the call raises [AudioDeviceError] and the manager is
    unchanged. *)
Theorem list_all_devices_cache_or_enumerate dm refresh :
  (forall cached,
      refresh = false -> _devices_cache dm = Some cached ->
      list_all_devices dm refresh = (dm, Ok cached))
  /\ (refresh = true \/ _devices_cache dm = None ->
      forall a, _audio dm = Some a ->
        match get_device_count a with
        | Ok n =>
            list_all_devices dm refresh
            = ({| _audio := Some a;
                  _devices_cache := Some (surviving_endpoints a n) |},
               Ok (surviving_endpoints a n))
            /\ (forall d, In d (surviving_endpoints a n) <->
                          exists i, In i (range n)
                                    /\ make_device a i = Ok d)
        | Raise e =>
            list_all_devices dm refresh
            = (dm, Raise (mk_exn AudioDeviceError
                            ("Failed to list devices: " ++ exn_msg e)))
        end).
Proof.
  split.
  - intros cached -> Hc. unfold list_all_devices. now rewrite Hc.
  - intros Hre a Ha.
    assert (Hgo : list_all_devices dm refresh
                  = match get_device_count a with
                    | Raise e => (dm, Raise (list_devices_error e))
                    | Ok device_count =>
                        let devices :=
                          enumerate_loop a (range device_count) [] in
                        ({| _audio := _audio dm;
                            _devices_cache := Some devices |}, Ok devices)
                    end).
    { unfold list_all_devices. rewrite Ha.
      destruct Hre as [-> | ->].
      - destruct (_devices_cache dm); reflexivity.
      - destruct refresh; reflexivity. }
    rewrite Hgo. destruct (get_device_count a) as [n|e].
    + cbv zeta. rewrite enumerate_loop_app, Ha. simpl. split.
      * reflexivity.
      * apply surviving_endpoints_In.
    + reflexivity.
Qed.

Lemma list_all_devices_cache_or_enumerate_witness :
  list_all_devices manager_with_empty_cache false
  = (manager_with_empty_cache, Ok [])
  /\ list_all_devices fresh_manager false
     = ({| _audio := Some line_in_host;
           _devices_cache := Some [line_in_device] |},
        Ok [line_in_device]).
Proof.
  split.
  - exact (proj1 (list_all_devices_cache_or_enumerate
                    manager_with_empty_cache false)
                 [] eq_refl eq_refl).
  - exact (proj1 (proj2 (list_all_devices_cache_or_enumerate
                           fresh_manager false)
                        (or_intror eq_refl) line_in_host eq_refl)).
Defined.

End Listing.

(** ** Sorting by preference *)
Section StableSort.
Context {A : Type} (key : A -> Z).

Lemma insert_by_perm x l : Permutation (insert_by key x l) (x :: l).
Proof.
  induction l as [|y l IH]; simpl; [reflexivity|].
  destruct (key x <=? key y); [reflexivity|].
  rewrite IH. apply perm_swap.
Qed.

Lemma sorted_perm l : Permutation (sorted key l) l.
Proof.
  induction l as [|x l IH]; simpl; [reflexivity|].
  rewrite insert_by_perm. now constructor.
Qed.

Lemma insert_by_sorted x l :
  StronglySorted (key_le key) l ->
  StronglySorted (key_le key) (insert_by key x l).
Proof.
  induction 1 as [|y l Hs IH Hall]; simpl.
  - repeat constructor.
  - destruct (key x <=? key y) eqn:E.
    + apply Z.leb_le in E. constructor.
      * now constructor.
      * constructor; [exact E|].
        revert Hall. apply Forall_impl. unfold key_le. intros; lia.
    + apply Z.leb_gt in E. constructor; [exact IH|].
      rewrite (Forall_forall (key_le key y)).
      intros z Hz.
      apply (Permutation_in _ (insert_by_perm x l)) in Hz.
      destruct Hz as [<-|Hz].
      * unfold key_le; lia.
      * rewrite Forall_forall in Hall. now apply Hall.
Qed.

Lemma sorted_sorted l : StronglySorted (key_le key) (sorted key l).
Proof.
  induction l as [|x l IH]; simpl; [constructor|].
  now apply insert_by_sorted.
Qed.

(** Insertion passes only elements of a smaller key, so the elements
    of one key keep their order. *)
Lemma insert_by_filter k x l :
  filter (fun a => key a =? k) (insert_by key x l)
  = filter (fun a => key a =? k) (x :: l).
Proof.
  induction l as [|y l IH]; [reflexivity|].
  cbn [insert_by]. destruct (key x <=? key y) eqn:E; [reflexivity|].
  apply Z.leb_gt in E.
  cbn [filter] in *. rewrite IH.
  destruct (key y =? k) eqn:Ey; destruct (key x =? k) eqn:Ex;
    try reflexivity.
  apply Z.eqb_eq in Ey, Ex. lia.
Qed.

Lemma sorted_stable k l :
  filter (fun a => key a =? k) (sorted key l)
  = filter (fun a => key a =? k) l.
Proof.
  induction l as [|x l IH]; [reflexivity|].
  cbn [sorted fold_right]. rewrite insert_by_filter.
  cbn [filter]. fold (sorted key l). now rewrite IH.
Qed.
End StableSort.

Section RecordingCapable.
Import Examples.

(** The score the sort key negates is the preference score of the
    specification. *)
Lemma score_preference d : score d = preference d.
Proof. reflexivity. Qed.

(** C5. [get_recording_capable_devices] returns the devices of the
    listing that have input channels, each as often as it is listed;
    their preference scores (30 for the WASAPI host API, 20 for
    loopback, 10 for default, added) never increase along the result;
    and the devices of any one score stand in the order of the
    listing. *)
Theorem get_recording_capable_devices_order dm dm' devices :
  list_all_devices dm false = (dm', Ok devices) ->
  exists out,
    get_recording_capable_devices dm = (dm', Ok out)
    /\ Permutation out (filter (fun d => 0 <? max_input_channels d) devices)
    /\ StronglySorted (fun a b => preference b <= preference a) out
    /\ (forall k,
           of_score k out
           = of_score k (filter (fun d => 0 <? max_input_channels d)
                                devices)).
Proof.
  intros Hl. unfold get_recording_capable_devices. rewrite Hl.
  eexists. split; [reflexivity|]. split; [apply sorted_perm|]. split.
  - pose proof (sorted_sorted sort_key (recording_devices devices)) as Hs.
    induction Hs as [|x l Hs IH Hall]; constructor; [exact IH|].
    revert Hall. apply Forall_impl.
    unfold key_le, sort_key. intros d.
    rewrite (score_preference x), (score_preference d). lia.
  - intros k. unfold of_score.
    assert (Hext : forall l : list AudioDevice,
               filter (fun d => preference d =? k) l
               = filter (fun d => sort_key d =? - k) l).
    { apply filter_ext. intros d. unfold sort_key.
      replace (score d) with (preference d)
        by (symmetry; apply score_preference).
      destruct (preference d =? k) eqn:E1;
        destruct (- preference d =? - k) eqn:E2;
        try reflexivity.
      - apply Z.eqb_eq in E1. apply Z.eqb_neq in E2. lia.
      - apply Z.eqb_neq in E1. apply Z.eqb_eq in E2. lia. }
    rewrite !Hext. apply sorted_stable.
Qed.

Lemma get_recording_capable_devices_order_witness :
  exists out,
    get_recording_capable_devices
      {| _audio := None;
         _devices_cache := Some [plain_microphone; loopback_speakers] |}
    = ({| _audio := None;
          _devices_cache := Some [plain_microphone; loopback_speakers] |},
       Ok out)
    /\ Permutation out
         (filter (fun d => 0 <? max_input_channels d)
                 [plain_microphone; loopback_speakers])
    /\ StronglySorted (fun a b => preference b <= preference a) out
    /\ (forall k,
           of_score k out
           = of_score k (filter (fun d => 0 <? max_input_channels d)
                                [plain_microphone; loopback_speakers])).
Proof.
  apply (get_recording_capable_devices_order
           {| _audio := None;
              _devices_cache := Some [plain_microphone; loopback_speakers] |}).
  reflexivity.
Defined.

End RecordingCapable.

(** ** The capture session *)

Import Recorder Session.

Section Start.
Import Sessions.

Lemma set_device_auto_frame s available pa :
  let s' := fst (set_device_auto s available pa) in
  _recording s' = _recording s
  /\ _frames s' = _frames s
  /\ _stats s' = _stats s
  /\ _audio s' = _audio s
  /\ _frames_captured s' = _frames_captured s
  /\ _has_audio_detected s' = _has_audio_detected s
  /\ _audio_threshold s' = _audio_threshold s.
Proof.
  unfold set_device_auto.
  repeat match goal with
         | |- context [match ?x with _ => _ end] => destruct x
         end; cbn; repeat split.
Qed.

(** C2, as stated, fails: a session that was recorded and saved starts
    a second recording. *)
Lemma used_session_starts_again :
  snd (stop_recording (recorded stereo_wav) [] wav_stop)
  = Ok (mk_RecordingStats 0 (Some 1000) 1000 52 4096
          (Some "storage/recordings/first.wav"%string))
  /\ is_recording used_session = false
  /\ snd (start_recording used_session (Some "second"%string) false
                          quiet_start)
     = Ok "storage/recordings/second.wav"%string.
Proof. repeat split; reflexivity. Qed.

(** C2, amended. [start_recording] is rejected with
    [RecordingInProgressError], the recorder unchanged, while a
    recording is in progress. A recorder that is not recording, new or
    used before, is not rejected so: it starts as soon as it has a
    configuration and an audio handle, the directory can be made and
    the stream opens, and whatever it raises otherwise is the error of
    the directory or an [AudioRecorderError]. *)
Theorem start_recording_rejected_while_recording
        s filename callback env :
  (_recording s = true ->
   start_recording s filename callback env
   = (s, Raise (mk_exn RecordingInProgressError
                       "Recording is already in progress")))
  /\ (_recording s = false ->
      (forall config,
          _config s = Some config -> _audio s = true ->
          se_mkdir env = None -> se_open env = None ->
          exists path,
            snd (start_recording s filename callback env) = Ok path
            /\ _recording (fst (start_recording s filename callback env))
               = true)
      /\ (forall e,
             snd (start_recording s filename callback env) = Raise e ->
             se_mkdir env = Some e
             \/ exn_cls e = AudioRecorderError)).
Proof.
  split; [|split].
  - intros H. unfold start_recording. now rewrite H.
  - intros config Hc Ha Hm Ho. unfold start_recording.
    rewrite H, Hc. cbn. rewrite Hc, Hm. cbn. rewrite Ha, Ho. cbn.
    eexists. split; reflexivity.
  - intros e. unfold start_recording. rewrite H.
    destruct (_config s) as [config|] eqn:Hc; cbn.
    + rewrite Hc.
      destruct (se_mkdir env) as [e'|]; cbn.
      * intros [= ->]. now left.
      * destruct (_audio s); cbn.
        -- destruct (se_open env); cbn; [|discriminate].
           intros [= <-]. now right.
        -- intros [= <-]. now right.
    + destruct (set_device_auto s _ _) as [s' ok]; cbn.
      destruct (_config s') as [config|]; destruct ok; cbn;
        try (intros [= <-]; now right).
      destruct (se_mkdir env) as [e'|]; cbn.
      * intros [= ->]. now left.
      * destruct (_audio s'); cbn.
        -- destruct (se_open env); cbn; [|discriminate].
           intros [= <-]. now right.
        -- intros [= <-]. now right.
Qed.

Lemma start_recording_rejected_while_recording_witness :
  start_recording (recorded stereo_wav) None false quiet_start
  = (recorded stereo_wav,
     Raise (mk_exn RecordingInProgressError
                   "Recording is already in progress"))
  /\ exists path,
       snd (start_recording used_session None false quiet_start) = Ok path
       /\ _recording (fst (start_recording used_session None false
                                           quiet_start)) = true.
Proof.
  split.
  - exact (proj1 (start_recording_rejected_while_recording
                    (recorded stereo_wav) None false quiet_start)
                 eq_refl).
  - exact (proj1 (proj2 (start_recording_rejected_while_recording
                           used_session None false quiet_start)
                        eq_refl)
                 stereo_wav eq_refl eq_refl eq_refl eq_refl).
Defined.

End Start.

Section Worker.
Import Sessions.

(** What a pass leaves as it is, and what it only moves one way. *)
Lemma worker_iter_frame w ev :
  let w' := pass_result (worker_iter w ev) in
  _config (w_rec w') = _config (w_rec w)
  /\ _audio_threshold (w_rec w') = _audio_threshold (w_rec w)
  /\ w_start w' = w_start w
  /\ (_has_audio_detected (w_rec w) = true ->
      _has_audio_detected (w_rec w') = true)
  /\ _frames_captured (w_rec w')
     - Z.of_nat (List.length (_frames (w_rec w')))
     = _frames_captured (w_rec w)
       - Z.of_nat (List.length (_frames (w_rec w))).
Proof.
  destruct w as [s start clock].
  unfold worker_iter, on_data, on_exception, with_rec, advance.
  cbn [w_rec w_start w_clock].
  split_matches; cbn; rewrite ?length_app; cbn;
    repeat split; auto; try lia; try congruence.
Qed.

Lemma worker_finally_frame s :
  _config (worker_finally s) = _config s
  /\ _audio_threshold (worker_finally s) = _audio_threshold s
  /\ _has_audio_detected (worker_finally s) = _has_audio_detected s
  /\ _frames_captured (worker_finally s) = _frames_captured s
  /\ _frames (worker_finally s) = _frames s
  /\ _stats (worker_finally s) = _stats s
  /\ _recording (worker_finally s) = _recording s.
Proof.
  unfold worker_finally. destruct (_stream s) as [[|]|]; cbn; repeat split.
Qed.

Lemma worker_loop_frame evs : forall w,
  let w' := fst (worker_loop w evs) in
  _config (w_rec w') = _config (w_rec w)
  /\ w_start w' = w_start w
  /\ (_has_audio_detected (w_rec w) = true ->
      _has_audio_detected (w_rec w') = true)
  /\ _frames_captured (w_rec w')
     - Z.of_nat (List.length (_frames (w_rec w')))
     = _frames_captured (w_rec w)
       - Z.of_nat (List.length (_frames (w_rec w))).
Proof.
  induction evs as [|ev evs IH]; intros w; cbn.
  - repeat split; auto.
  - pose proof (worker_iter_frame w ev) as Hi.
    destruct (worker_iter w ev) as [w1|w1 r]; cbn in Hi.
    + specialize (IH w1). cbn in IH.
      destruct Hi as (H1 & _ & H2 & H3 & H4).
      destruct IH as (I1 & I2 & I3 & I4).
      repeat split; try congruence; auto.
    + cbn. destruct Hi as (H1 & _ & H2 & H3 & H4).
      destruct (worker_finally_frame (w_rec w1))
        as (F1 & _ & F2 & F3 & F4 & _).
      rewrite F1, F2, F3, F4. repeat split; auto.
Qed.

End Worker.

Section Reuse.
Import Sessions.

Lemma start_recording_frame s filename callback env :
  let s' := fst (start_recording s filename callback env) in
  _frames_captured s' = _frames_captured s
  /\ _has_audio_detected s' = _has_audio_detected s
  /\ _audio_threshold s' = _audio_threshold s.
Proof.
  unfold start_recording.
  destruct (_recording s); [cbn; repeat split|].
  destruct (_config s) as [config|] eqn:Hc; cbn.
  - rewrite Hc.
    destruct (se_mkdir env); cbn; [repeat split|].
    destruct (_audio s); cbn; [destruct (se_open env)|];
      cbn; repeat split.
  - pose proof (set_device_auto_frame s (se_pyaudio_available env)
                                      (se_pa env)) as Hf.
    destruct (set_device_auto s _ _) as [s' ok]. cbn in Hf.
    destruct Hf as (_ & _ & _ & _ & H1 & H2 & H3). cbn.
    destruct (_config s'); destruct ok; cbn; auto.
    destruct (se_mkdir env); cbn; auto.
    destruct (_audio s'); cbn; [destruct (se_open env)|]; cbn; auto.
Qed.

Lemma start_recording_fresh s filename callback env path :
  snd (start_recording s filename callback env) = Ok path ->
  let s' := fst (start_recording s filename callback env) in
  _frames s' = []
  /\ _stats s' = Some (mk_RecordingStats (se_now env) None 0 0 0
                                         (Some path)).
Proof.
  unfold start_recording.
  destruct (_recording s); [discriminate|].
  destruct (match _config s with
            | Some _ => (s, true)
            | None => set_device_auto s _ _
            end) as [s0 ok]. cbn.
  destruct (_config s0); destruct ok; cbn; try discriminate.
  destruct (se_mkdir env); cbn; [discriminate|].
  destruct (_audio s0); cbn; [|discriminate].
  destruct (se_open env); cbn; [discriminate|].
  intros [= <-]. split; reflexivity.
Qed.

(** C10. [start_recording] leaves the counter of frames captured and
    the audio-detected flag as they are, whatever its outcome; when it
    succeeds the frame buffer is empty and the statistics are new. So
    after a second start on a recorder and any passes of the recording
    thread, [get_frames_captured] is what it was before that start plus
    the chunks of the new recording, and [has_audio_detected] is still
    true if it was. *)
Theorem start_recording_keeps_counter_and_flag
        s filename callback env now evs :
  let s1 := fst (start_recording s filename callback env) in
  let s2 := w_rec (fst (_recording_worker s1 now evs)) in
  get_frames_captured s1 = get_frames_captured s
  /\ has_audio_detected s1 = has_audio_detected s
  /\ (forall path,
         snd (start_recording s filename callback env) = Ok path ->
         _frames s1 = []
         /\ _stats s1 = Some (mk_RecordingStats (se_now env) None 0 0 0
                                                (Some path))
         /\ get_frames_captured s2
            = get_frames_captured s
              + Z.of_nat (List.length (_frames s2)))
  /\ (has_audio_detected s = true -> has_audio_detected s2 = true).
Proof.
  intros s1 s2.
  destruct (start_recording_frame s filename callback env)
    as (Hc & Hf & _).
  pose proof (worker_loop_frame evs (mk_worker s1 now now)) as Hl.
  cbn in Hl. destruct Hl as (_ & _ & Hflag & Hcount).
  fold s1 in Hc, Hf.
  unfold get_frames_captured, has_audio_detected.
  split; [exact Hc|]. split; [exact Hf|]. split.
  - intros path H.
    destruct (start_recording_fresh s filename callback env path H)
      as (Hfr & Hst).
    fold s1 in Hfr, Hst. split; [exact Hfr|]. split; [exact Hst|].
    subst s2. unfold _recording_worker.
    rewrite Hfr in Hcount. cbn in Hcount. lia.
  - intros Hs. apply Hflag. congruence.
Qed.

Lemma start_recording_keeps_counter_and_flag_witness :
  let s1 := fst (start_recording used_session (Some "second"%string)
                                 false quiet_start) in
  let s2 := w_rec (fst (_recording_worker s1 0 [pass silent_chunk])) in
  get_frames_captured used_session = 1
  /\ _frames s1 = []
  /\ get_frames_captured s2 = 1 + Z.of_nat (List.length (_frames s2))
  /\ get_frames_captured s2 = 2
  /\ has_audio_detected s2 = true.
Proof.
  pose proof (start_recording_keeps_counter_and_flag
                used_session (Some "second"%string) false quiet_start
                0 [pass silent_chunk]) as H.
  cbv zeta in H. destruct H as (_ & _ & H & Hflag).
  destruct (H _ eq_refl) as (Hfr & _ & Hcount).
  split; [reflexivity|]. split; [exact Hfr|]. split; [exact Hcount|].
  split; [reflexivity|]. exact (Hflag eq_refl).
Defined.

End Reuse.

Section Latch.
Import Sessions.

Lemma save_recording_frame s fs env :
  let s' := fst (fst (_save_recording s fs env)) in
  _has_audio_detected s' = _has_audio_detected s
  /\ _audio_threshold s' = _audio_threshold s
  /\ _frames_captured s' = _frames_captured s
  /\ _recording s' = _recording s.
Proof.
  unfold _save_recording.
  destruct (_frames s); [cbn; repeat split|].
  destruct (_config s) as [config|]; [|cbn; repeat split].
  destruct (_stats s) as [st|]; [|cbn; repeat split].
  match goal with
  | |- context [if ?b then _save_as_m4a s fs env else _] =>
      destruct (if b then _save_as_m4a s fs env else _save_as_wav s fs env)
        as [fs' [u|e]]
  end; [|cbn; repeat split].
  destruct (filename st) as [path|]; [|cbn; repeat split].
  destruct (lookup path fs'); cbn; repeat split.
Qed.

Lemma stop_recording_frame s fs env :
  let s' := fst (fst (stop_recording s fs env)) in
  _has_audio_detected s' = _has_audio_detected s
  /\ _audio_threshold s' = _audio_threshold s
  /\ _frames_captured s' = _frames_captured s.
Proof.
  unfold stop_recording.
  assert (Hgo : forall s0 : AudioRecorder,
             _has_audio_detected s0 = _has_audio_detected s ->
             _audio_threshold s0 = _audio_threshold s ->
             _frames_captured s0 = _frames_captured s ->
             let s' :=
               fst (fst
                 match _stats s0 with
                 | None => (s0, fs, Raise (none_has_no "end_time"))
                 | Some st =>
                     let st := mk_RecordingStats (start_time st)
                                 (Some (st_now env))
                                 (st_now env - start_time st)
                                 (file_size st) (samples_recorded st)
                                 (filename st) in
                     let s := set_stats (Some st) s0 in
                     match _save_recording s fs env with
                     | (s, fs, Ok _) =>
                         (s, fs,
                          match _stats s with
                          | Some st => Ok st
                          | None => Raise (none_has_no "end_time")
                          end)
                     | (s, fs, Raise e) =>
                         (s, fs,
                          Raise (mk_exn AudioRecorderError
                                   ("Failed to save file: " ++ exn_msg e)))
                     end
                 end) in
             _has_audio_detected s' = _has_audio_detected s
             /\ _audio_threshold s' = _audio_threshold s
             /\ _frames_captured s' = _frames_captured s).
  { intros s0 H1 H2 H3.
    destruct (_stats s0) as [st|]; cbn; [|auto].
    match goal with
    | |- context [_save_recording ?x fs env] =>
        pose proof (save_recording_frame x fs env) as Hs;
        destruct (_save_recording x fs env) as [[s1 fs1] [u|e]]
    end; cbn in *; destruct Hs as (S1 & S2 & S3 & _);
      repeat split; congruence. }
  destruct (_frames s) as [|f frs]; [destruct (_stats s) eqn:Hst|].
  - apply Hgo;
      destruct (_recording_thread (set_recording false s));
      try (destruct (worker_finally_frame (set_recording false s))
            as (_ & F2 & F1 & F3 & _)); cbn in *; auto.
  - cbn. auto.
  - apply Hgo;
      destruct (_recording_thread (set_recording false s));
      try (destruct (worker_finally_frame (set_recording false s))
            as (_ & F2 & F1 & F3 & _)); cbn in *; auto.
Qed.

Lemma step_frame s o :
  (_has_audio_detected s = true -> _has_audio_detected (step s o) = true)
  /\ _audio_threshold (step s o) = _audio_threshold s.
Proof.
  destruct o as [available pa | fname callback env | start clock ev
                 | | env | now | | env]; cbn [step].
  - destruct (set_device_auto_frame s available pa)
      as (_ & _ & _ & _ & _ & H1 & H2).
    split; congruence.
  - destruct (start_recording_frame s fname callback env)
      as (_ & H1 & H2).
    split; congruence.
  - destruct (worker_iter_frame (mk_worker s start clock) ev)
      as (_ & H2 & _ & H1 & _).
    split; [exact H1 | exact H2].
  - destruct (worker_finally_frame s) as (_ & H2 & H1 & _).
    split; congruence.
  - destruct (stop_recording_frame s [] env) as (H1 & H2 & _).
    split; congruence.
  - unfold get_current_stats.
    destruct (_stats s); [destruct (_recording s)|]; cbn; auto.
  - cbn. auto.
  - unfold close. destruct (_recording s); cbn; [|auto].
    pose proof (stop_recording_frame s [] env) as H. cbv zeta in H.
    revert H. destruct (stop_recording s [] env) as [[s1 fs1] r].
    cbn. intros (H1 & H2 & _). split; congruence.
Qed.

Lemma run_frame ops : forall s,
  (_has_audio_detected s = true -> _has_audio_detected (run s ops) = true)
  /\ _audio_threshold (run s ops) = _audio_threshold s.
Proof.
  induction ops as [|o ops IH]; intros s; [cbn; auto|].
  change (run s (o :: ops)) with (run (step s o) ops).
  destruct (step_frame s o) as (H1 & H2).
  destruct (IH (step s o)) as (I1 & I2).
  split; [auto | congruence].
Qed.

(** C7. The audio-detected flag of a new recorder is false and its
    threshold is 100, which no step changes. A pass of the recording
    thread that reads a chunk whose level exceeds the threshold leaves
    the flag true. Once the flag is true it is true after any sequence
    of steps of the caller and of the thread, whatever the later chunks
    hold. *)
Theorem audio_detected_latches :
  (forall config ops,
      has_audio_detected (Recorder.__init__ config) = false
      /\ _audio_threshold (run (Recorder.__init__ config) ops) = 100)
  /\ (forall s start clock ev config data,
         _recording s = true ->
         _config s = Some config ->
         (forall d, max_duration config = Some d ->
                    d = 0 \/ clock - start < 1000 * d) ->
         _stream s = Some Active ->
         ev_stream_stops ev = false ->
         ev_read ev = Ok data ->
         data <> [] ->
         _stats s <> None ->
         level_gt (_calculate_audio_level data) (_audio_threshold s)
         = true ->
         has_audio_detected (step s (WorkerPass start clock ev)) = true)
  /\ (forall s ops,
         has_audio_detected s = true ->
         has_audio_detected (run s ops) = true).
Proof.
  split; [|split].
  - intros config ops. split; [reflexivity|].
    now rewrite (proj2 (run_frame ops (Recorder.__init__ config))).
  - intros s start clock ev config data Hrec Hc Hlim Hs Hev Hread Hd Hst Hl.
    unfold has_audio_detected. cbn [step].
    unfold worker_iter. cbn [w_rec w_start w_clock].
    rewrite Hrec, Hc. cbn [negb].
    assert (Hno : match max_duration config with
                  | None => false
                  | Some d => negb (d =? 0) && (1000 * d <=? clock - start)
                  end = false).
    { destruct (max_duration config) as [d|]; [|reflexivity].
      destruct (Hlim d eq_refl) as [-> | Hlt]; [reflexivity|].
      apply andb_false_iff. right. apply Z.leb_gt. exact Hlt. }
    rewrite Hno, Hev. cbn [w_rec]. rewrite Hs, Hread.
    unfold on_data, with_rec, advance. cbn [w_rec w_start w_clock].
    set (lv := level_gt (_calculate_audio_level data)) in *.
    destruct data as [|b data]; [congruence|].
    cbn [List.length Nat.ltb Nat.leb].
    destruct (_stats s) as [st|] eqn:Hst'; [|congruence].
    cbn. rewrite Hst'. cbn.
    destruct (_has_audio_detected s) eqn:Hflag; cbn.
    + destruct (_progress_callback s); cbn; exact Hflag.
    + rewrite Hl. cbn. destruct (_progress_callback s); reflexivity.
  - intros s ops. apply run_frame.
Qed.

Lemma audio_detected_latches_witness :
  let s0 := fst (start_recording (Recorder.__init__ (Some stereo_wav))
                                 None false quiet_start) in
  let s1 := step s0 (WorkerPass 0 0 (pass loud_chunk)) in
  has_audio_detected s0 = false
  /\ has_audio_detected s1 = true
  /\ has_audio_detected
       (run s1 [WorkerPass 0 70 (pass silent_chunk);
                WorkerPass 0 140 (pass silent_chunk);
                StopRecording wav_stop;
                StartRecording None false quiet_start;
                WorkerPass 0 0 (pass silent_chunk)]) = true.
Proof.
  intros s0 s1.
  assert (H1 : has_audio_detected s1 = true).
  { apply (proj1 (proj2 audio_detected_latches)
                 s0 0 0 (pass loud_chunk) stereo_wav loud_chunk);
      try reflexivity.
    - intros d [=].
    - discriminate.
    - discriminate. }
  split; [reflexivity|]. split; [exact H1|].
  apply (proj2 (proj2 audio_detected_latches)). exact H1.
Defined.

End Latch.

Section SaveErrors.
Import Sessions.








End SaveErrors.

Section Duration.
Import Sessions.

Variables (config : RecordingConfig) (d : Z).
Hypothesis limit : max_duration config = Some d.
Hypothesis positive : 0 < d.

(** A pass that goes on found the limit not reached and took at most a
    read, a callback and a sleep; a pass that ends on the limit found
    it reached. *)
Lemma worker_iter_clock B C S w ev :
  _config (w_rec w) = Some config ->
  within B C S ev ->
  match worker_iter w ev with
  | Continue w1 =>
      w_clock w - w_start w < 1000 * d
      /\ w_clock w1 <= w_clock w + (B + C + S)
      /\ w_start w1 = w_start w
      /\ _config (w_rec w1) = Some config
  | Break _ (MaxDurationReached elapsed) =>
      elapsed = w_clock w - w_start w /\ 1000 * d <= elapsed
  | Break _ _ => True
  end.
Proof.
  intros Hc (Hr & Hcb & Hs).
  destruct w as [s start clock]. cbn [w_rec w_start w_clock] in *.
  unfold worker_iter. cbn [w_rec w_start w_clock].
  destruct (_recording s); cbn [negb]; [|exact I].
  rewrite Hc, limit.
  destruct (d =? 0) eqn:Ed; [apply Z.eqb_eq in Ed; lia|]. cbn [negb andb].
  destruct (1000 * d <=? clock - start) eqn:El.
  - apply Z.leb_le in El. split; [reflexivity | exact El].
  - apply Z.leb_gt in El.
    unfold on_data, on_exception, with_rec, advance.
    cbn [w_rec w_start w_clock].
    split_inner_matches; cbn; auto; repeat split; auto; try lia.
Qed.

Lemma worker_loop_bounds B C S evs : forall w w' elapsed,
  _config (w_rec w) = Some config ->
  Forall (within B C S) evs ->
  w_clock w - w_start w < 1000 * d + (B + C + S) ->
  worker_loop w evs = (w', Some (MaxDurationReached elapsed)) ->
  1000 * d <= elapsed < 1000 * d + (B + C + S).
Proof.
  induction evs as [|ev evs IH]; intros w w' elapsed Hc Hall Hinv Hrun.
  - discriminate Hrun.
  - inversion Hall as [|? ? Hev Hrest]; subst.
    pose proof (worker_iter_clock B C S w ev Hc Hev) as Hi.
    cbn [worker_loop] in Hrun.
    destruct (worker_iter w ev) as [w1|w1 r].
    + destruct Hi as (Hlt & Hclock & Hstart & Hc1).
      apply (IH w1 w' elapsed Hc1 Hrest); [|exact Hrun].
      rewrite Hstart. lia.
    + injection Hrun as _ ->. destruct Hi as (-> & Hge). lia.
Qed.

(** A steady pass on a recorder that records goes on unless the limit
    is reached, and takes 50 ms at least. *)
Lemma worker_iter_steady w ev :
  recording_on config (w_rec w) ->
  steady ev ->
  match worker_iter w ev with
  | Continue w1 =>
      recording_on config (w_rec w1)
      /\ w_start w1 = w_start w
      /\ w_clock w + 50 <= w_clock w1
  | Break _ (MaxDurationReached elapsed) => True
  | Break _ _ => False
  end.
Proof.
  intros (Hrec & Hc & Hstr & Hst) (Hev & (data & Hread) & Hr & Hcb & Hs).
  destruct w as [s start clock]. cbn [w_rec w_start w_clock] in *.
  unfold worker_iter. cbn [w_rec w_start w_clock].
  rewrite Hrec, Hc, limit. cbn [negb].
  destruct (negb (d =? 0) && (1000 * d <=? clock - start)); [exact I|].
  rewrite Hev. cbn [w_rec]. rewrite Hstr, Hread.
  unfold on_data, with_rec, advance, recording_on.
  cbn [w_rec w_start w_clock].
  destruct (_stats s) as [st|] eqn:Est; [|congruence].
  split_inner_matches; cbn in *; repeat split; auto; try congruence; try lia.
Qed.

Lemma worker_loop_ends evs : forall w,
  recording_on config (w_rec w) ->
  Forall steady evs ->
  (0 < List.length evs)%nat ->
  1000 * d
  <= w_clock w - w_start w + 50 * (Z.of_nat (List.length evs) - 1) ->
  exists w' elapsed,
    worker_loop w evs = (w', Some (MaxDurationReached elapsed)).
Proof.
  induction evs as [|ev evs IH]; intros w Hon Hall Hlen Hreach.
  - cbn in Hlen. lia.
  - inversion Hall as [|? ? Hev Hrest]; subst.
    pose proof (worker_iter_steady w ev Hon Hev) as Hi.
    destruct Hon as (_ & Hc & _).
    cbn [worker_loop].
    destruct (worker_iter w ev) as [w1|w1 r] eqn:Eiter.
    + destruct Hi as (Hon1 & Hstart & Hclock).
      assert (Hlt : w_clock w - w_start w < 1000 * d).
      { destruct w as [s start clock].
        unfold worker_iter in Eiter. cbn [w_rec w_start w_clock] in *.
        destruct (_recording s); cbn [negb] in Eiter; [|discriminate].
        rewrite Hc, limit in Eiter.
        destruct (d =? 0) eqn:Ed; [apply Z.eqb_eq in Ed; lia|].
        cbn [negb andb] in Eiter.
        destruct (1000 * d <=? clock - start) eqn:El; [discriminate|].
        now apply Z.leb_gt in El. }
      cbn [List.length] in Hreach.
      apply IH; auto.
      * destruct evs; cbn in *; lia.
      * rewrite Hstart. lia.
    + destruct r; try contradiction. eauto.
Qed.

(** The limit is never taken for reached before its time, whatever
    the passes take. *)
Lemma worker_loop_lower evs : forall w w' elapsed,
  _config (w_rec w) = Some config ->
  worker_loop w evs = (w', Some (MaxDurationReached elapsed)) ->
  1000 * d <= elapsed.
Proof.
  induction evs as [|ev evs IH]; intros w w' elapsed Hc Hrun.
  - discriminate Hrun.
  - cbn [worker_loop] in Hrun.
    pose proof (worker_iter_frame w ev) as Hf. cbv zeta in Hf.
    destruct (worker_iter w ev) as [w1|w1 r] eqn:Eiter.
    + cbn [pass_result] in Hf. destruct Hf as (Hc1 & _).
      apply (IH w1 w' elapsed); [congruence | exact Hrun].
    + injection Hrun as _ ->.
      destruct w as [s start clock].
      unfold worker_iter in Eiter. cbn [w_rec w_start w_clock] in *.
      destruct (_recording s); cbn [negb] in Eiter; [|discriminate].
      rewrite Hc, limit in Eiter.
      destruct (negb (d =? 0) && (1000 * d <=? clock - start)) eqn:El.
      * injection Eiter as _ <-.
        apply andb_true_iff in El. destruct El as (_ & El).
        now apply Z.leb_le in El.
      * revert Eiter.
        unfold on_data, on_exception, with_rec, advance.
        cbn [w_rec w_start w_clock].
        split_inner_matches; discriminate.
Qed.

End Duration.

Section DurationLimit.
Import Sessions.

(** C6, as stated, fails: with reads of 20 ms and the sleep of 50 ms
    between them, the loop under a limit of one second ends 1050 ms
    after its start, later than the limit and one read. *)
Lemma limit_exit_later_than_one_read :
  ~ (forall s config d now B evs w elapsed,
        _config s = Some config ->
        max_duration config = Some d ->
        Forall (fun ev => 0 <= ev_read_ms ev <= B) evs ->
        _recording_worker s now evs
        = (w, Some (MaxDurationReached elapsed)) ->
        1000 * d <= elapsed <= 1000 * d + B).
Proof.
  intros H.
  pose (s := fst (start_recording (Recorder.__init__ (Some one_second))
                                  None false quiet_start)).
  assert (Hall : Forall (fun ev => 0 <= ev_read_ms ev <= 20)
                        (repeat (pass silent_chunk) 16)).
  { apply Forall_forall. intros ev Hev.
    apply repeat_spec in Hev. subst ev. cbn. lia. }
  assert (Hrun : _recording_worker s 0 (repeat (pass silent_chunk) 16)
                 = (fst (_recording_worker s 0
                           (repeat (pass silent_chunk) 16)),
                    Some (MaxDurationReached 1050)))
    by (vm_compute; reflexivity).
  specialize (H s one_second 1 0 20 (repeat (pass silent_chunk) 16)
                _ 1050 eq_refl eq_refl Hall Hrun).
  lia.
Qed.

(** C6, amended. Under a limit of [d] seconds, [d] positive, the
    recording thread that ends on the limit has measured an elapsed
    time of [d] seconds at least, whatever its passes took, and of
    less than [d] seconds and one pass of its loop, that is a read, a
    progress callback and the sleep, when its passes took no more; and
    it does end on the limit once passes whose reads return and whose
    sleep lasts its 50 ms have filled the time. *)
Theorem limit_exit_within_one_pass s config d now B C S :
  _config s = Some config ->
  max_duration config = Some d ->
  0 < d ->
  0 <= B + C + S ->
  (forall evs w elapsed,
      _recording_worker s now evs
      = (w, Some (MaxDurationReached elapsed)) ->
      1000 * d <= elapsed
      /\ (Forall (within B C S) evs ->
          elapsed < 1000 * d + (B + C + S)))
  /\ (forall evs,
         recording_on config s ->
         Forall steady evs ->
         1000 * d <= 50 * (Z.of_nat (List.length evs) - 1) ->
         exists w elapsed,
           _recording_worker s now evs
           = (w, Some (MaxDurationReached elapsed))).
Proof.
  intros Hc Hlim Hd Hpos. split.
  - intros evs w elapsed Hrun. split.
    + exact (worker_loop_lower config d Hlim evs
               (mk_worker s now now) w elapsed Hc Hrun).
    + intros Hall.
      apply (worker_loop_bounds config d Hlim Hd B C S evs
               (mk_worker s now now) w elapsed); auto.
      cbn [w_clock w_start]. lia.
  - intros evs Hon Hall Hlen.
    apply (worker_loop_ends config d Hlim Hd evs (mk_worker s now now));
      auto.
    + destruct evs; [cbn [List.length] in Hlen; lia | cbn [List.length]; lia].
    + cbn [w_clock w_start]. lia.
Qed.

Lemma limit_exit_within_one_pass_witness :
  let s := fst (start_recording (Recorder.__init__ (Some one_second))
                                None false quiet_start) in
  (forall w elapsed,
      _recording_worker s 0 (repeat (pass silent_chunk) 16)
      = (w, Some (MaxDurationReached elapsed)) ->
      1000 <= elapsed < 1070)
  /\ exists w elapsed,
       _recording_worker s 0 (repeat (pass silent_chunk) 21)
       = (w, Some (MaxDurationReached elapsed)).
Proof.
  intros s.
  assert (Hw : forall n, Forall (within 20 0 50)
                                (repeat (pass silent_chunk) n)).
  { intros n. apply Forall_forall. intros ev Hev.
    apply repeat_spec in Hev. subst ev. unfold within. cbn. lia. }
  assert (Hs : forall n, Forall steady (repeat (pass silent_chunk) n)).
  { intros n. apply Forall_forall. intros ev Hev.
    apply repeat_spec in Hev. subst ev. unfold steady. cbn.
    repeat split; try lia. eexists; reflexivity. }
  assert (Hpos : 0 <= 20 + 0 + 50) by lia.
  assert (Hd : 0 < 1) by lia.
  destruct (limit_exit_within_one_pass s one_second 1 0 20 0 50
              eq_refl eq_refl Hd Hpos) as (Hbound & Hends).
  split.
  - intros w elapsed Hrun.
    destruct (Hbound _ w elapsed Hrun) as (Hlo & Hhi).
    specialize (Hhi (Hw 16%nat)). lia.
  - apply Hends.
    + unfold recording_on. repeat split. discriminate.
    + apply Hs.
    + rewrite repeat_length. lia.
Defined.

End DurationLimit.

(** ** The WAV encoder *)
Section WavBytes.
Import Wave.

Lemma Z_of_byte_of_Z z : Z_of_byte (byte_of_Z z) = z mod 256.
Proof.
  unfold Z_of_byte, byte_of_Z.
  assert (Hr : 0 <= z mod 256 < 256) by (apply Z.mod_pos_bound; lia).
  destruct (Byte.of_N (Z.to_N (z mod 256))) as [b|] eqn:E.
  - apply Byte.to_of_N in E. rewrite E. lia.
  - apply Byte.of_N_None_iff in E. lia.
Qed.

Lemma unpack_pack n : forall v,
  0 <= v < 256 ^ Z.of_nat n -> unpack_le (pack_le n v) = v.
Proof.
  induction n as [|n IH]; intros v Hv.
  - cbn in *. lia.
  - cbn [pack_le unpack_le]. rewrite Z_of_byte_of_Z.
    rewrite IH.
    + pose proof (Z.div_mod v 256). lia.
    + rewrite Nat2Z.inj_succ, Z.pow_succ_r in Hv by lia.
      split; [apply Z.div_pos; lia|].
      apply Z.div_lt_upper_bound; lia.
Qed.

Lemma unpack_pack_L v :
  0 <= v <= 4294967295 -> unpack_le (pack_le 4 v) = v.
Proof.
  intros H. apply unpack_pack. change (256 ^ Z.of_nat 4) with 4294967296. lia.
Qed.

Lemma unpack_pack_H v :
  0 <= v <= 65535 -> unpack_le (pack_le 2 v) = v.
Proof.
  intros H. apply unpack_pack. change (256 ^ Z.of_nat 2) with 65536. lia.
Qed.

Lemma length_pack_le n : forall v, List.length (pack_le n v) = n.
Proof. induction n; intros v; cbn; [reflexivity | now rewrite IHn]. Qed.

Lemma take_app_exact n (a b : list byte) :
  Z.to_nat n = List.length a -> take n (a ++ b) = a.
Proof.
  intros H. unfold take. rewrite H, firstn_app, Nat.sub_diag, firstn_all.
  cbn. apply app_nil_r.
Qed.

Lemma drop_app_exact n (a b : list byte) :
  Z.to_nat n = List.length a -> drop n (a ++ b) = b.
Proof.
  intros H. unfold drop. rewrite H, skipn_app, Nat.sub_diag, skipn_all.
  reflexivity.
Qed.

Lemma take_all n (a : list byte) :
  Z.to_nat n = List.length a -> take n a = a.
Proof. intros H. unfold take. rewrite H. apply firstn_all. Qed.

(** A chunk: its name, its size and its bytes. *)
Lemma chunk_parts (name size body rest : list byte) :
  List.length name = 4%nat -> List.length size = 4%nat ->
  let bs := name ++ size ++ body ++ rest in
  (List.length bs <? 8)%nat = false
  /\ take 4 bs = name
  /\ take 4 (drop 4 bs) = size
  /\ drop 8 bs = body ++ rest.
Proof.
  intros Hn Hs bs. subst bs. repeat split.
  - apply Nat.ltb_ge. rewrite !length_app. lia.
  - now apply take_app_exact.
  - rewrite drop_app_exact by (now rewrite Hn). now apply take_app_exact.
  - rewrite app_assoc. apply drop_app_exact. rewrite length_app. now rewrite Hn, Hs.
Qed.

Lemma read_fmt_chunk_pcm ch w rate byte_rate block_align :
  1 <= ch <= 65535 -> 1 <= w <= 4 -> 0 <= rate <= 4294967295 ->
  _read_fmt_chunk (pack_le 2 WAVE_FORMAT_PCM ++ pack_le 2 ch ++ pack_le 4 rate
                   ++ pack_le 4 byte_rate ++ pack_le 2 block_align
                   ++ pack_le 2 (w * 8))
  = Ok (ch, w, rate).
Proof.
  intros Hch Hw Hrate. unfold _read_fmt_chunk.
  set (body := pack_le 2 WAVE_FORMAT_PCM ++ _).
  assert (Hlen : List.length body = 16%nat).
  { subst body. rewrite !length_app, !length_pack_le. reflexivity. }
  rewrite Hlen. cbn [Nat.ltb Nat.leb].
  assert (H1 : unpack_le (take 2 body) = WAVE_FORMAT_PCM).
  { subst body. rewrite take_app_exact by reflexivity. reflexivity. }
  assert (H2 : unpack_le (take 2 (drop 2 body)) = ch).
  { subst body. rewrite drop_app_exact by reflexivity.
    rewrite take_app_exact by reflexivity. apply unpack_pack_H. lia. }
  assert (H3 : unpack_le (take 4 (drop 4 body)) = rate).
  { subst body. rewrite app_assoc, drop_app_exact by reflexivity.
    rewrite take_app_exact by reflexivity. apply unpack_pack_L. lia. }
  assert (H4 : unpack_le (take 2 (drop 14 body)) = w * 8).
  { subst body. rewrite !app_assoc.
    rewrite drop_app_exact
      by (rewrite !length_app, !length_pack_le; reflexivity).
    rewrite take_all by reflexivity. apply unpack_pack_H. lia. }
  rewrite H1, H2, H3, H4. rewrite Z.eqb_refl.
  replace ((w * 8 + 7) / 8) with w.
  - destruct (w =? 0) eqn:E1; [apply Z.eqb_eq in E1; lia|].
    destruct (ch =? 0) eqn:E2; [apply Z.eqb_eq in E2; lia|]. reflexivity.
  - apply Z.div_unique with (r := 7); lia.
Qed.

Lemma read_canonical ch w rate data :
  1 <= ch <= 65535 -> 1 <= w <= 4 -> 0 <= rate <= 4294967295 ->
  36 + Z.of_nat (List.length data) <= 4294967295 ->
  Wave.read (canonical_wav ch w rate data)
  = Ok (Wave.mk_wav ch w rate (Z.of_nat (List.length data) / (ch * w))
          (Wave.take (Z.of_nat (List.length data) / (ch * w) * (ch * w)) data)).
Proof.
  intros Hch Hw Hrate Hlen.
  unfold canonical_wav.
  set (len := Z.of_nat (List.length data)) in *.
  assert (Hlen0 : 0 <= len) by (subst len; lia).
  set (fmt_body := pack_le 2 WAVE_FORMAT_PCM ++ pack_le 2 ch ++ pack_le 4 rate
                   ++ pack_le 4 (ch * rate * w) ++ pack_le 2 (ch * w)
                   ++ pack_le 2 (w * 8)).
  set (data_chunk := tag "data" ++ pack_le 4 len ++ data ++ []).
  set (riff := tag "WAVE" ++ tag "fmt " ++ pack_le 4 16 ++ fmt_body ++ data_chunk).
  assert (Hfile :
    tag "RIFF"
    ++ (pack_le 4 (36 + len) ++ tag "WAVE" ++ tag "fmt "
        ++ pack_le 4 16 ++ pack_le 2 WAVE_FORMAT_PCM
        ++ pack_le 2 ch ++ pack_le 4 rate
        ++ pack_le 4 (ch * rate * w)
        ++ pack_le 2 (ch * w)
        ++ pack_le 2 (w * 8) ++ tag "data")
    ++ pack_le 4 len ++ data
    = tag "RIFF" ++ pack_le 4 (36 + len) ++ riff ++ []).
  { subst riff data_chunk fmt_body. rewrite !app_nil_r.
    repeat rewrite <- app_assoc. reflexivity. }
  rewrite Hfile. clear Hfile.
  assert (Hfmt_len : List.length fmt_body = 16%nat).
  { subst fmt_body. rewrite !length_app, !length_pack_le. reflexivity. }
  assert (Hdc_len : List.length data_chunk = (8 + List.length data)%nat).
  { subst data_chunk. rewrite !length_app, length_pack_le.
    change (List.length (tag "data")) with 4%nat. cbn [List.length]. lia. }
  assert (Hriff_len : Z.of_nat (List.length riff) = 36 + len).
  { subst riff. rewrite !length_app, length_pack_le, Hfmt_len, Hdc_len.
    change (List.length (tag "WAVE")) with 4%nat.
    change (List.length (tag "fmt ")) with 4%nat. subst len. lia. }
  unfold Wave.read.
  destruct (chunk_parts (tag "RIFF") (pack_le 4 (36 + len)) riff [])
    as (P1 & P2 & P3 & P4); [reflexivity | apply length_pack_le |].
  rewrite P1, P2, P3, P4. clear P1 P2 P3 P4.
  change (bytes_eqb (tag "RIFF") (tag "RIFF")) with true. cbn [negb].
  rewrite unpack_pack_L by lia.
  rewrite app_nil_r.
  rewrite (take_all (36 + len) riff) by lia.
  assert (Hw4 : take 4 riff = tag "WAVE").
  { subst riff. now apply take_app_exact. }
  rewrite Hw4. change (bytes_eqb (tag "WAVE") (tag "WAVE")) with true.
  cbn [negb].
  assert (Hd4 : drop 4 riff = tag "fmt " ++ pack_le 4 16 ++ fmt_body ++ data_chunk).
  { subst riff. now apply drop_app_exact. }
  rewrite Hd4.
  (* the fmt chunk *)
  cbn [read_chunks].
  destruct (chunk_parts (tag "fmt ") (pack_le 4 16) fmt_body data_chunk)
    as (P1 & P2 & P3 & P4); [reflexivity | reflexivity |].
  rewrite P1, P2, P3, P4. clear P1 P2 P3 P4.
  change (bytes_eqb (tag "fmt ") (tag "fmt ")) with true. cbv iota.
  change (unpack_le (pack_le 4 16)) with 16.
  rewrite (take_app_exact 16 fmt_body data_chunk) by (now rewrite Hfmt_len).
  change (16 + 16 mod 2) with 16.
  rewrite (drop_app_exact 16 fmt_body data_chunk) by (now rewrite Hfmt_len).
  subst fmt_body. rewrite read_fmt_chunk_pcm by assumption.
  (* the data chunk *)
  destruct (List.length riff) as [|fuel] eqn:Efuel; [change (Z.of_nat 0) with 0 in Hriff_len; lia|].
  cbn [read_chunks].
  subst data_chunk.
  destruct (chunk_parts (tag "data") (pack_le 4 len) data [])
    as (P1 & P2 & P3 & P4); [reflexivity | apply length_pack_le |].
  rewrite P1, P2, P3, P4. clear P1 P2 P3 P4.
  change (bytes_eqb (tag "data") (tag "fmt ")) with false.
  change (bytes_eqb (tag "data") (tag "data")) with true. cbv iota.
  rewrite unpack_pack_L by lia.
  rewrite app_nil_r.
  rewrite (take_all len data) by (subst len; lia).
  reflexivity.
Qed.

Lemma pack_L_ok v : 0 <= v <= 4294967295 -> pack_L v = Ok (pack_le 4 v).
Proof.
  intros H. unfold pack_L.
  destruct (0 <=? v) eqn:E1; [|apply Z.leb_gt in E1; lia].
  destruct (v <=? 4294967295) eqn:E2; [|apply Z.leb_gt in E2; lia].
  reflexivity.
Qed.

Lemma pack_H_ok v : 0 <= v <= 65535 -> pack_H v = Ok (pack_le 2 v).
Proof.
  intros H. unfold pack_H.
  destruct (0 <=? v) eqn:E1; [|apply Z.leb_gt in E1; lia].
  destruct (v <=? 65535) eqn:E2; [|apply Z.leb_gt in E2; lia].
  reflexivity.
Qed.

End WavBytes.

Section WavRoundTrip.
Import Sessions.

Lemma get_sample_size_range f w : get_sample_size f = Ok w -> 1 <= w <= 4.
Proof.
  unfold get_sample_size.
  repeat match goal with
         | |- context [if ?b then _ else _] => destruct b
         end; intros [= <-]; lia.
Qed.

Lemma length_concat_chunks (c : Z) (chunks : list (list byte)) :
  (forall chunk, In chunk chunks -> Z.of_nat (List.length chunk) = c) ->
  Z.of_nat (List.length (List.concat chunks))
  = Z.of_nat (List.length chunks) * c.
Proof.
  induction chunks as [|chunk chunks IH]; intros H.
  - reflexivity.
  - cbn [List.concat List.length]. rewrite length_app, Nat2Z.inj_add.
    rewrite (H chunk) by now left.
    rewrite IH by (intros x Hx; apply H; now right). lia.
Qed.

(** The writer, step by step, on parameters the header can hold and
    data of whole frames. *)
Lemma writer_steps ch w rate data :
  1 <= ch -> 1 <= w <= 4 -> 1 <= rate ->
  ch * rate * w <= 4294967295 -> ch * w <= 65535 ->
  36 + Z.of_nat (List.length data) <= 4294967295 ->
  (Z.of_nat (List.length data) / (ch * w)) * (ch * w)
  = Z.of_nat (List.length data) ->
  let len := Z.of_nat (List.length data) in
  let written :=
    Wave.mk_Wave_write ch w rate (len / (ch * w)) (0 + len / (w * ch))
                       (0 + len) len true
                       (canonical_wav ch w rate data) in
  Wave.setnchannels Wave.open_wb ch
  = Ok (Wave.mk_Wave_write ch 0 0 0 0 0 0 false [])
  /\ Wave.setsampwidth (Wave.mk_Wave_write ch 0 0 0 0 0 0 false []) w
     = Ok (Wave.mk_Wave_write ch w 0 0 0 0 0 false [])
  /\ Wave.setframerate (Wave.mk_Wave_write ch w 0 0 0 0 0 false []) rate
     = Ok (Wave.mk_Wave_write ch w rate 0 0 0 0 false [])
  /\ Wave.writeframes (Wave.mk_Wave_write ch w rate 0 0 0 0 false []) data
     = (written, Ok tt)
  /\ Wave.close written = (written, Ok tt).
Proof.
  intros Hch Hw Hrate Hbr Hba Hlen Hdiv len written.
  assert (Hlen0 : 0 <= len) by (subst len; lia).
  assert (Hch' : ch <= 65535) by nia.
  assert (Hrate' : rate <= 4294967295) by nia.
  split; [|split; [|split; [|split]]].
  - unfold Wave.setnchannels, Wave.open_wb.
    cbn [Wave._datawritten Z.eqb negb].
    destruct (ch <? 1) eqn:E1; [apply Z.ltb_lt in E1; lia|]. reflexivity.
  - unfold Wave.setsampwidth. cbn [Wave._datawritten Z.eqb negb].
    destruct (w <? 1) eqn:E2; [apply Z.ltb_lt in E2; lia|].
    destruct (4 <? w) eqn:E3; [apply Z.ltb_lt in E3; lia|]. reflexivity.
  - unfold Wave.setframerate. cbn [Wave._datawritten Z.eqb negb].
    destruct (rate <=? 0) eqn:E4; [apply Z.leb_le in E4; lia|].
    reflexivity.
  - unfold Wave.writeframes, Wave.writeframesraw,
      Wave._ensure_header_written.
    cbn [Wave._nchannels Wave._sampwidth Wave._framerate Wave._nframes
         Wave._nframeswritten Wave._datawritten Wave._datalength
         Wave._headerwritten Wave._file].
    destruct (ch =? 0) eqn:E5; [apply Z.eqb_eq in E5; lia|].
    destruct (w =? 0) eqn:E6; [apply Z.eqb_eq in E6; lia|].
    destruct (rate =? 0) eqn:E7; [apply Z.eqb_eq in E7; lia|].
    unfold Wave._write_header, Wave.write.
    cbn [Wave._nchannels Wave._sampwidth Wave._framerate Wave._nframes
         Wave._nframeswritten Wave._datawritten Wave._datalength
         Wave._headerwritten Wave._file Z.eqb].
    fold len.
    replace (len / (ch * w) * ch * w) with len
      by (subst len; rewrite <- Hdiv at 1; ring).
    unfold Wave.pack_header.
    rewrite (pack_L_ok (36 + len)) by lia.
    rewrite (pack_L_ok 16) by lia.
    rewrite (pack_H_ok Wave.WAVE_FORMAT_PCM)
      by (unfold Wave.WAVE_FORMAT_PCM; lia).
    rewrite (pack_H_ok ch) by lia.
    rewrite (pack_L_ok rate) by lia.
    rewrite (pack_L_ok (ch * rate * w)) by nia.
    rewrite (pack_H_ok (ch * w)) by nia.
    rewrite (pack_H_ok (w * 8)) by lia.
    rewrite (pack_L_ok len) by lia.
    cbn [bind Wave.and_then].
    cbn [Wave._nchannels Wave._sampwidth Wave._framerate Wave._nframes
         Wave._nframeswritten Wave._datawritten Wave._datalength
         Wave._headerwritten Wave._file].
    change (0 + len) with len. rewrite Z.eqb_refl. cbn [negb].
    subst written. unfold canonical_wav. fold len. cbn [app].
    change (0 + len) with len.
    repeat rewrite <- app_assoc. reflexivity.
  - subst written. unfold Wave.close, Wave._ensure_header_written.
    cbn [Wave._datawritten Wave._datalength Wave._headerwritten
         Wave.and_then].
    change (0 + len) with len. rewrite Z.eqb_refl. reflexivity.
Qed.


Lemma length_canonical_wav ch w rate data :
  Z.of_nat (List.length (canonical_wav ch w rate data))
  = 44 + Z.of_nat (List.length data).
Proof.
  unfold canonical_wav. rewrite !length_app, !length_pack_le.
  change (List.length (Wave.tag "RIFF")) with 4%nat.
  change (List.length (Wave.tag "WAVE")) with 4%nat.
  change (List.length (Wave.tag "fmt ")) with 4%nat.
  change (List.length (Wave.tag "data")) with 4%nat. lia.
Qed.

(** [_save_as_wav] on a recorder whose parameters fit the header and
    whose chunks hold whole buffers: the canonical file when the data
    fit the length field, eight bytes and [struct.error] when they do
    not. *)
Lemma save_as_wav_canonical s fs env config st path width :
  _config s = Some config ->
  _stats s = Some st ->
  filename st = Some path ->
  _audio s = true ->
  st_io env = None ->
  get_sample_size (format config) = Ok width ->
  1 <= channels config ->
  1 <= sample_rate config ->
  channels config * sample_rate config * width <= 4294967295 ->
  channels config * width <= 65535 ->
  (forall chunk,
      In chunk (_frames s) ->
      Z.of_nat (List.length chunk)
      = chunk_size config * (channels config * width)) ->
  36 + Z.of_nat (List.length (_frames s))
       * (chunk_size config * (channels config * width))
  <= 4294967295 ->
  let file := canonical_wav (channels config) width (sample_rate config)
                            (List.concat (_frames s)) in
  _save_as_wav s fs env = ((path, file) :: fs, Ok tt)
  /\ Z.of_nat (List.length file)
     = 44 + Z.of_nat (List.length (_frames s))
            * (chunk_size config * (channels config * width))
  /\ Wave.read file
     = Ok (Wave.mk_wav (channels config) width (sample_rate config)
             (Z.of_nat (List.length (_frames s)) * chunk_size config)
             (List.concat (_frames s))).
Proof.
  intros Hc Hst Hname Ha Hio Hw Hch Hrate Hbr Hba Hchunks Hsize.
  pose proof (get_sample_size_range _ _ Hw) as Hwr.
  set (ch := channels config) in *.
  set (rate := sample_rate config) in *.
  set (data := List.concat (_frames s)).
  set (n := Z.of_nat (List.length (_frames s))) in *.
  assert (Hlen : Z.of_nat (List.length data)
                 = n * chunk_size config * (ch * width)).
  { subst data n. rewrite (length_concat_chunks _ _ Hchunks). ring. }
  assert (Hpos : 0 < ch * width) by nia.
  assert (Hq : Z.of_nat (List.length data) / (ch * width)
               = n * chunk_size config).
  { rewrite Hlen. apply Z.div_mul. lia. }
  assert (Hdiv : Z.of_nat (List.length data) / (ch * width) * (ch * width)
                 = Z.of_nat (List.length data)).
  { rewrite Hq, Hlen. ring. }
  assert (Hfit : 36 + Z.of_nat (List.length data) <= 4294967295).
  { rewrite Hlen. subst n. lia. }
  destruct (writer_steps ch width rate data Hch Hwr Hrate Hbr Hba Hfit Hdiv)
    as (W1 & W2 & W3 & W4 & W5).
  cbv zeta. split; [|split].
  - unfold _save_as_wav. rewrite Hst, Hname, Hio.
    unfold wav_block. rewrite Hc. fold ch. rewrite W1.
    rewrite Ha, Hw, W2. fold rate. rewrite W3. fold data. rewrite W4.
    rewrite W5. reflexivity.
  - rewrite length_canonical_wav. fold data. rewrite Hlen. ring.
  - rewrite read_canonical; try lia; try nia.
    rewrite Hdiv, Hq. rewrite take_all by lia. reflexivity.
Qed.





End WavRoundTrip.

(** ** More of the device catalog *)
Section Catalog.
Import Examples.

Lemma range_In n i : In i (range n) <-> 0 <= i < n.
Proof.
  unfold range. rewrite in_map_iff. split.
  - intros (k & <- & Hk). apply in_seq in Hk. lia.
  - intros H. exists (Z.to_nat i). split; [lia|]. apply in_seq. lia.
Qed.

Lemma range_sorted n : StronglySorted Z.lt (range n).
Proof.
  unfold range. generalize (Z.to_nat n) as k. generalize 0%nat as s.
  intros s k. revert s.
  induction k as [|k IH]; intros s; cbn; constructor.
  - apply IH.
  - apply Forall_forall. intros x Hx. apply in_map_iff in Hx.
    destruct Hx as (j & <- & Hj). apply in_seq in Hj. lia.
Qed.

(** A device that was made from endpoint [i] carries the index [i], the
    default flag of [i], and the fields and the loopback answer of the
    dict of [i], whose host API is an index. *)
Lemma make_device_fields a i d :
  make_device a i = Ok d ->
  index d = i
  /\ is_default d = _is_default_device a i
  /\ exists di k,
       get_device_info_by_index a i = Ok di
       /\ di_hostApi di = Some (PInt k)
       /\ get_host_api_info_by_index a k = Ok (host_api d)
       /\ name d = di_name di
       /\ max_input_channels d = di_maxInputChannels di
       /\ max_output_channels d = di_maxOutputChannels di
       /\ _is_loopback_device di = Ok (is_loopback d).
Proof.
  unfold make_device.
  destruct (get_device_info_by_index a i) as [di|e] eqn:Hdi; [|discriminate].
  cbn [bind].
  destruct (di_hostApi di) as [[k|s]|] eqn:Hh; try discriminate.
  cbn [bind].
  destruct (get_host_api_info_by_index a k) as [h|e] eqn:Hk; [|discriminate].
  cbn [bind].
  destruct (_is_loopback_device di) as [lb|e] eqn:Hl; [|discriminate].
  cbn [bind]. intros [= <-]. cbn.
  split; [reflexivity|]. split; [reflexivity|].
  exists di, k. repeat split; auto.
Qed.

Lemma surviving_sorted a (l : list Z) :
  StronglySorted Z.lt l ->
  StronglySorted Z.lt
    (map index (flat_map (fun i => match make_device a i with
                                   | Ok d => [d]
                                   | Raise _ => []
                                   end) l)).
Proof.
  induction 1 as [|i l Hs IH Hall]; cbn; [constructor|].
  destruct (make_device a i) as [d|e] eqn:Hd; cbn; [|exact IH].
  constructor; [exact IH|].
  apply Forall_forall. intros x Hx. apply in_map_iff in Hx.
  destruct Hx as (d' & <- & Hd'). apply in_flat_map in Hd'.
  destruct Hd' as (j & Hj & Hin).
  destruct (make_device a j) as [d''|e'] eqn:Hj'; [|destruct Hin].
  destruct Hin as [<-|[]].
  apply make_device_fields in Hd, Hj'.
  destruct Hd as (-> & _), Hj' as (-> & _).
  rewrite Forall_forall in Hall. now apply Hall.
Qed.

Lemma surviving_length a (l : list Z) :
  (List.length (flat_map (fun i => match make_device a i with
                                   | Ok d => [d]
                                   | Raise _ => []
                                   end) l) <= List.length l)%nat.
Proof.
  induction l as [|i l IH]; cbn; [lia|].
  destruct (make_device a i); cbn; lia.
Qed.

(** A listing that enumerates gives the endpoints that could be
    processed. *)
Lemma list_all_devices_enumerates dm refresh a n :
  Devices._audio dm = Some a ->
  get_device_count a = Ok n ->
  refresh = true \/ _devices_cache dm = None ->
  list_all_devices dm refresh
  = ({| Devices._audio := Some a; _devices_cache := Some (surviving_endpoints a n) |},
     Ok (surviving_endpoints a n)).
Proof.
  intros Ha Hn Hre. unfold list_all_devices. rewrite Ha, Hn.
  rewrite enumerate_loop_app. cbn [app].
  destruct Hre as [-> | ->]; [destruct (_devices_cache dm)|destruct refresh];
    reflexivity.
Qed.

(** X2. A listing that enumerates (refresh asked, or nothing cached)
    returns devices whose indices increase strictly, so no index is
    listed twice; each index is an endpoint below the count whose
    processing gave that very device; and there are no more devices
    than endpoints. *)
Theorem listing_indices dm refresh a n devices :
  Devices._audio dm = Some a ->
  get_device_count a = Ok n ->
  refresh = true \/ _devices_cache dm = None ->
  snd (list_all_devices dm refresh) = Ok devices ->
  StronglySorted Z.lt (map index devices)
  /\ Forall (fun d => 0 <= index d < n /\ make_device a (index d) = Ok d)
            devices
  /\ Z.of_nat (List.length devices) <= Z.max 0 n.
Proof.
  intros Ha Hn Hre. rewrite (list_all_devices_enumerates dm refresh a n) by auto.
  cbn [snd]. intros [= <-]. split; [|split].
  - apply surviving_sorted, range_sorted.
  - apply Forall_forall. intros d Hd. apply surviving_endpoints_In in Hd.
    destruct Hd as (i & Hi & Hd).
    destruct (make_device_fields a i d Hd) as (-> & _).
    split; [now apply range_In | exact Hd].
  - unfold surviving_endpoints.
    pose proof (surviving_length a (range n)) as Hl.
    unfold range in Hl at 2. rewrite length_map, length_seq in Hl. lia.
Qed.

(** X3. In a listing that enumerates, a device is flagged loopback
    exactly when its lower-cased name has one of the six substrings;
    a device not flagged never has input channels and no output
    channel, since the channel test raises for such an endpoint and
    the endpoint is passed over. *)
Theorem listing_loopback_flags dm refresh a n devices :
  Devices._audio dm = Some a ->
  get_device_count a = Ok n ->
  refresh = true \/ _devices_cache dm = None ->
  snd (list_all_devices dm refresh) = Ok devices ->
  Forall (fun d =>
            is_loopback d = indicator_in_name (name d)
            /\ (is_loopback d = false ->
                (0 <? max_input_channels d) && (max_output_channels d =? 0)
                = false))
         devices.
Proof.
  intros Ha Hn Hre. rewrite (list_all_devices_enumerates dm refresh a n) by auto.
  cbn [snd]. intros [= <-].
  apply Forall_forall. intros d Hd. apply surviving_endpoints_In in Hd.
  destruct Hd as (i & _ & Hd).
  destruct (make_device_fields a i d Hd)
    as (_ & _ & di & k & _ & Hh & _ & Hname & Hin & Hout & Hlb).
  rewrite Hname, Hin, Hout. revert Hlb.
  unfold _is_loopback_device, indicator_in_name.
  destruct (existsb _ loopback_indicators).
  - intros [= <-]. split; [reflexivity | discriminate].
  - destruct ((0 <? di_maxInputChannels di)
              && (di_maxOutputChannels di =? 0)).
    + rewrite Hh. discriminate.
    + intros [= <-]. split; reflexivity.
Qed.

(** X4. In a listing that enumerates, a device is flagged default
    exactly when its index is that of the default input device, or the
    default output device is asked for and has its index; when the
    query for the default input raises, no device is flagged default,
    the default output device included. *)
Theorem listing_default_flags dm refresh a n devices :
  Devices._audio dm = Some a ->
  get_device_count a = Ok n ->
  refresh = true \/ _devices_cache dm = None ->
  snd (list_all_devices dm refresh) = Ok devices ->
  match get_default_input_device_info a with
  | Raise _ => Forall (fun d => is_default d = false) devices
  | Ok i =>
      Forall (fun d =>
                is_default d = true <->
                index d = i
                \/ get_default_output_device_info a = Ok (index d))
             devices
  end.
Proof.
  intros Ha Hn Hre. rewrite (list_all_devices_enumerates dm refresh a n) by auto.
  cbn [snd]. intros [= <-].
  assert (Hflag : forall d, In d (surviving_endpoints a n) ->
                            is_default d = _is_default_device a (index d)).
  { intros d Hd. apply surviving_endpoints_In in Hd.
    destruct Hd as (i & _ & Hd).
    destruct (make_device_fields a i d Hd) as (-> & H & _). exact H. }
  unfold _is_default_device in Hflag.
  destruct (get_default_input_device_info a) as [i|e];
    apply Forall_forall; intros d Hd; rewrite (Hflag d Hd);
    [|reflexivity].
  destruct (i =? index d) eqn:Ei.
  - apply Z.eqb_eq in Ei. split; [intros _; now left | reflexivity].
  - apply Z.eqb_neq in Ei.
    destruct (get_default_output_device_info a) as [o|e].
    + rewrite Z.eqb_eq. split.
      * intros ->. now right.
      * intros [H | [= H]]; congruence.
    + split; [discriminate|]. intros [H | H]; congruence.
Qed.

(** X5. After a listing that succeeded, a listing without refresh
    returns the same devices and leaves the manager as it is: the
    cache holds what was returned and the audio system is the same. *)
Theorem list_all_devices_again dm refresh dm1 devices :
  list_all_devices dm refresh = (dm1, Ok devices) ->
  list_all_devices dm1 false = (dm1, Ok devices)
  /\ _devices_cache dm1 = Some devices
  /\ Devices._audio dm1 = Devices._audio dm.
Proof.
  unfold list_all_devices at 1.
  assert (Hen :
    match Devices._audio dm with
    | Some a =>
        match get_device_count a with
        | Ok device_count =>
            ({| Devices._audio := Devices._audio dm;
                _devices_cache :=
                  Some (enumerate_loop a (range device_count) []) |},
             Ok (enumerate_loop a (range device_count) []))
        | Raise e => (dm, Raise (list_devices_error e))
        end
    | None =>
        (dm, Raise (list_devices_error
           (mk_exn AttributeError
              "'NoneType' object has no attribute 'get_device_count'")))
    end = (dm1, Ok devices) ->
    list_all_devices dm1 false = (dm1, Ok devices)
    /\ _devices_cache dm1 = Some devices /\ Devices._audio dm1 = Devices._audio dm).
  { destruct (Devices._audio dm) as [a|]; [|discriminate].
    destruct (get_device_count a); [|discriminate].
    intros [= <- <-]. repeat split. }
  destruct (_devices_cache dm) as [cached|] eqn:Hc.
  - destruct refresh; [exact Hen|].
    intros [= <- <-]. unfold list_all_devices. rewrite Hc. repeat split.
  - destruct refresh; exact Hen.
Qed.

(** X6. On a manager that has not listed yet, [get_device_by_index]
    finds a device exactly when the index is an endpoint below the
    count whose processing succeeds, and the device is the one made
    from that endpoint. *)
Theorem get_device_by_index_enumerated dm a n i :
  Devices._audio dm = Some a ->
  get_device_count a = Ok n ->
  _devices_cache dm = None ->
  exists found,
    snd (get_device_by_index dm i) = Ok found
    /\ forall d, found = Some d <-> 0 <= i < n /\ make_device a i = Ok d.
Proof.
  intros Ha Hn Hc. unfold get_device_by_index.
  rewrite (list_all_devices_enumerates dm false a n) by auto.
  eexists. split; [reflexivity|]. intros d. split.
  - intros Hf. apply find_some in Hf. destruct Hf as (Hin & Hi).
    apply Z.eqb_eq in Hi. apply surviving_endpoints_In in Hin.
    destruct Hin as (j & Hj & Hd).
    destruct (make_device_fields a j d Hd) as (Hidx & _).
    subst j. rewrite <- Hi. split; [now apply range_In | exact Hd].
  - intros (Hi & Hd).
    assert (Hin : In d (surviving_endpoints a n)).
    { apply surviving_endpoints_In. exists i. split; [now apply range_In|auto]. }
    destruct (find (fun d0 => index d0 =? i) (surviving_endpoints a n))
      as [d'|] eqn:Hf.
    + apply find_some in Hf. destruct Hf as (Hin' & Hi').
      apply Z.eqb_eq in Hi'. apply surviving_endpoints_In in Hin'.
      destruct Hin' as (j & _ & Hd').
      destruct (make_device_fields a j d' Hd') as (Hidx & _).
      assert (Hji : j = i) by congruence. rewrite Hji in Hd'. congruence.
    + pose proof (find_none _ _ Hf d Hin) as Hno. cbn in Hno.
      destruct (make_device_fields a i d Hd) as (Hidx & _).
      rewrite Hidx, Z.eqb_refl in Hno. discriminate.
Qed.


Lemma lower_ascii_idempotent c : lower_ascii (lower_ascii c) = lower_ascii c.
Proof. destruct c as [[] [] [] [] [] [] [] []]; reflexivity. Qed.

Lemma lower_idempotent s : lower (lower s) = lower s.
Proof.
  induction s as [|c s IH]; cbn; [reflexivity|].
  now rewrite lower_ascii_idempotent, IH.
Qed.

Lemma contains_empty s : contains EmptyString s = true.
Proof. destruct s; reflexivity. Qed.

(** X7. [get_devices_by_api] does not mind the case of the name it is
    given; the empty name selects every device; what it returns is
    listed; and a name that is, up to case, a part of
    'windows wasapi' selects every device of the WASAPI host API. *)
Theorem get_devices_by_api_substring dm api_name :
  get_devices_by_api dm (lower api_name) = get_devices_by_api dm api_name
  /\ forall dm' devices,
       list_all_devices dm false = (dm', Ok devices) ->
       get_devices_by_api dm EmptyString = (dm', Ok devices)
       /\ exists found,
            get_devices_by_api dm api_name = (dm', Ok found)
            /\ (forall d, In d found -> In d devices)
            /\ (contains (lower api_name) "windows wasapi" = true ->
                forall d, In d devices -> is_wasapi d = true -> In d found).
Proof.
  split.
  - unfold get_devices_by_api. now rewrite lower_idempotent.
  - intros dm' devices Hl. unfold get_devices_by_api. rewrite Hl. split.
    + f_equal. f_equal. cbn [lower].
      rewrite (filter_ext _ (fun _ => true)); [apply filter_true|].
      intros d. apply contains_empty.
    + eexists. split; [reflexivity|]. split.
      * intros d Hd. apply filter_In in Hd. tauto.
      * intros Hsub d Hd Hw. apply filter_In. split; [exact Hd|].
        unfold is_wasapi in Hw. apply String.eqb_eq in Hw.
        now rewrite Hw.
Qed.

(** X8. The device [get_system_default_input] (or
    [get_system_default_output]) returns is a listed device whose
    index is the one the platform reports as default input (or
    output); when that query raises the answer is [None] and the
    manager is unchanged. *)
Theorem system_default_found dm :
  (forall dm' d,
      get_system_default_input dm = (dm', Some d) ->
      exists a devices,
        Devices._audio dm = Some a
        /\ get_default_input_device_info a = Ok (index d)
        /\ list_all_devices dm false = (dm', Ok devices)
        /\ In d devices)
  /\ (forall dm' d,
         get_system_default_output dm = (dm', Some d) ->
         exists a devices,
           Devices._audio dm = Some a
           /\ get_default_output_device_info a = Ok (index d)
           /\ list_all_devices dm false = (dm', Ok devices)
           /\ In d devices)
  /\ (forall a e,
         Devices._audio dm = Some a ->
         get_default_input_device_info a = Raise e ->
         get_system_default_input dm = (dm, None))
  /\ (forall a e,
         Devices._audio dm = Some a ->
         get_default_output_device_info a = Raise e ->
         get_system_default_output dm = (dm, None)).
Proof.
  assert (Hgen : forall query dm' d,
             system_default dm query = (dm', Some d) ->
             exists a devices,
               Devices._audio dm = Some a
               /\ query a = Ok (index d)
               /\ list_all_devices dm false = (dm', Ok devices)
               /\ In d devices).
  { intros query dm' d. unfold system_default, get_device_by_index.
    destruct (Devices._audio dm) as [a|]; [|discriminate].
    destruct (query a) as [i|e] eqn:Hq; [|discriminate].
    destruct (list_all_devices dm false) as [dm1 [devices|e]];
      [|discriminate].
    intros [= <- Hf]. apply find_some in Hf. destruct Hf as (Hin & Hi).
    apply Z.eqb_eq in Hi. exists a, devices. rewrite Hi. auto. }
  split; [apply Hgen|]. split; [apply Hgen|].
  split; intros a e Ha Hq;
    unfold get_system_default_input, get_system_default_output,
      system_default; now rewrite Ha, Hq.
Qed.

(** X9. Closing a manager that has an audio system drops the cache
    with the handle: a listing afterwards raises [AudioDeviceError]
    instead of serving devices cached before, so does
    [get_default_speakers], and closing twice is closing once. *)
Theorem closed_manager_lists_nothing dm refresh :
  Devices._audio dm <> None ->
  Devices.close (Devices.close dm) = Devices.close dm
  /\ _devices_cache (Devices.close dm) = None
  /\ exists m,
       list_all_devices (Devices.close dm) refresh
       = (Devices.close dm, Raise (mk_exn AudioDeviceError m))
       /\ snd (get_default_speakers (Devices.close dm))
          = Raise (mk_exn AudioDeviceError
                     ("Failed to detect default device: " ++ m)).
Proof.
  intros Ha. unfold Devices.close.
  destruct (Devices._audio dm) as [a|]; [|congruence].
  cbn. split; [reflexivity|]. split; [reflexivity|].
  eexists. split.
  - destruct refresh; reflexivity.
  - reflexivity.
Qed.

(** X10. The device [get_default_speakers] returns is a listed device
    that is flagged loopback, or a WASAPI output device when no listed
    device is loopback; it is flagged default whenever a loopback
    device is, and in the fallback whenever a WASAPI output device
    is. *)
Theorem get_default_speakers_member dm d :
  snd (get_default_speakers dm) = Ok (Some d) ->
  exists devices,
    snd (list_all_devices dm false) = Ok devices
    /\ In d devices
    /\ (is_loopback d = true
        \/ (existsb is_loopback devices = false /\ wasapi_output d = true))
    /\ (forall d', In d' devices ->
                   is_loopback d' = true -> is_default d' = true ->
                   is_loopback d = true /\ is_default d = true)
    /\ (existsb is_loopback devices = false ->
        forall d', In d' devices ->
                   wasapi_output d' = true -> is_default d' = true ->
                   is_default d = true).
Proof.
  unfold get_default_speakers.
  destruct (list_all_devices dm false) as [dm' [devices|e]]; cbn [snd];
    [|discriminate].
  rewrite select_default_speakers_policy. intros [= Hsel].
  exists devices. split; [reflexivity|].
  unfold default_speakers_policy in Hsel.
  destruct (existsb is_loopback devices) eqn:Hex.
  - destruct (find (fun d0 => is_loopback d0 && is_default d0) devices)
      as [d1|] eqn:F1.
    + injection Hsel as <-. apply find_some in F1.
      destruct F1 as (Hin & Hb). apply andb_true_iff in Hb.
      destruct Hb as (Hl & Hd). repeat split; auto; discriminate.
    + apply find_some in Hsel. destruct Hsel as (Hin & Hl).
      repeat split; auto; try discriminate; intros;
        match goal with
        | Hin' : In ?x devices, Hl' : is_loopback ?x = true,
          Hd' : is_default ?x = true |- _ =>
            pose proof (find_none _ _ F1 x Hin') as Hno; cbn in Hno;
            rewrite Hl', Hd' in Hno; discriminate
        end.
  - assert (Hnl : forall d', In d' devices -> is_loopback d' = false).
    { intros d' Hd'. destruct (is_loopback d') eqn:E; [|reflexivity].
      assert (existsb is_loopback devices = true)
        by (apply existsb_exists; eauto). congruence. }
    destruct (find (fun d0 => wasapi_output d0 && is_default d0) devices)
      as [d1|] eqn:F1.
    + injection Hsel as <-. apply find_some in F1.
      destruct F1 as (Hin & Hb). apply andb_true_iff in Hb.
      destruct Hb as (Hw & Hd).
      repeat split; auto; intros;
        match goal with
        | Hin' : In ?x devices, Hl' : is_loopback ?x = true |- _ =>
            rewrite (Hnl x Hin') in Hl'; discriminate
        end.
    + apply find_some in Hsel. destruct Hsel as (Hin & Hw).
      repeat split; auto; intros;
        match goal with
        | Hin' : In ?x devices, Hl' : is_loopback ?x = true |- _ =>
            rewrite (Hnl x Hin') in Hl'; discriminate
        | Hin' : In ?x devices, Hw' : wasapi_output ?x = true,
          Hd' : is_default ?x = true |- _ =>
            pose proof (find_none _ _ F1 x Hin') as Hno; cbn in Hno;
            rewrite Hw', Hd' in Hno; discriminate
        end.
Qed.

Lemma wasapi_among_seq a k : forall s,
  wasapi_among a (map Z.of_nat (seq s k)) = true <->
  exists i, Z.of_nat s <= i < Z.of_nat s + Z.of_nat k
            /\ (exists nm, get_host_api_info_by_index a i = Ok nm
                           /\ lower nm = "windows wasapi"%string)
            /\ forall j, Z.of_nat s <= j < i ->
                         exists nm, get_host_api_info_by_index a j = Ok nm.
Proof.
  induction k as [|k IH]; intros s; cbn [seq map wasapi_among].
  - split; [discriminate|]. intros (i & Hi & _). lia.
  - destruct (get_host_api_info_by_index a (Z.of_nat s)) as [nm|e] eqn:Hq.
    + destruct (String.eqb (lower nm) "windows wasapi") eqn:Hw.
      * split; [intros _|reflexivity].
        exists (Z.of_nat s). split; [lia|]. split.
        -- exists nm. split; [exact Hq|]. now apply String.eqb_eq.
        -- intros j Hj. lia.
      * rewrite IH. apply String.eqb_neq in Hw. split.
        -- intros (i & Hi & Hnm & Hbefore). exists i. split; [lia|].
           split; [exact Hnm|]. intros j Hj.
           destruct (Z.eq_dec j (Z.of_nat s)) as [->|Hne]; [eauto|].
           apply Hbefore. lia.
        -- intros (i & Hi & (nm' & Hq' & Hnm) & Hbefore).
           destruct (Z.eq_dec i (Z.of_nat s)) as [->|Hne]; [congruence|].
           exists i. split; [lia|]. split; [eauto|].
           intros j Hj. apply Hbefore. lia.
    + split; [discriminate|].
      intros (i & Hi & (nm' & Hq' & Hnm) & Hbefore).
      destruct (Z.eq_dec i (Z.of_nat s)) as [->|Hne]; [congruence|].
      destruct (Hbefore (Z.of_nat s)) as (nm & Hq''); [lia|congruence].
Qed.

(** X1. Constructing a manager raises nothing but [AudioDeviceError],
    the missing WASAPI included, whose own error class is wrapped; it
    succeeds only when the audio library is there, the audio system
    initialises, and a host API named 'windows wasapi' up to case is
    found before any host API query fails; the new manager has no
    cache. *)
Theorem DeviceManager_init_outcome available pa :
  match Devices.__init__ available pa with
  | Ok dm =>
      available = true
      /\ exists a count i nm,
           pa = Ok a
           /\ dm = {| Devices._audio := Some a; _devices_cache := None |}
           /\ get_host_api_count a = Ok count
           /\ 0 <= i < count
           /\ get_host_api_info_by_index a i = Ok nm
           /\ lower nm = "windows wasapi"%string
           /\ forall j, 0 <= j < i ->
                        exists nm', get_host_api_info_by_index a j = Ok nm'
  | Raise e => exn_cls e = AudioDeviceError
  end.
Proof.
  unfold Devices.__init__.
  destruct available; cbn [negb]; [|reflexivity].
  destruct pa as [a|e]; [|reflexivity].
  destruct (_is_wasapi_available a) eqn:Hw; [|reflexivity].
  split; [reflexivity|].
  unfold _is_wasapi_available in Hw.
  destruct (get_host_api_count a) as [count|e] eqn:Hc; [|discriminate].
  unfold range in Hw. apply wasapi_among_seq in Hw.
  destruct Hw as (i & Hi & (nm & Hq & Hnm) & Hbefore).
  exists a, count, i, nm. repeat split; auto; try lia.
Qed.

Lemma listing_indices_witness :
  StronglySorted Z.lt (map index [studio_speakers; studio_line_in])
  /\ Forall (fun d => 0 <= index d < 3
                      /\ make_device studio_host (index d) = Ok d)
            [studio_speakers; studio_line_in]
  /\ Z.of_nat (List.length [studio_speakers; studio_line_in]) <= Z.max 0 3.
Proof.
  exact (listing_indices studio_manager false studio_host 3
           [studio_speakers; studio_line_in]
           eq_refl eq_refl (or_intror eq_refl) eq_refl).
Defined.

Lemma listing_loopback_flags_witness :
  Forall (fun d =>
            is_loopback d = indicator_in_name (name d)
            /\ (is_loopback d = false ->
                (0 <? max_input_channels d) && (max_output_channels d =? 0)
                = false))
         [studio_speakers; studio_line_in].
Proof.
  exact (listing_loopback_flags studio_manager false studio_host 3
           [studio_speakers; studio_line_in]
           eq_refl eq_refl (or_intror eq_refl) eq_refl).
Defined.

Lemma listing_default_flags_witness :
  Forall (fun d =>
            is_default d = true <->
            index d = 2
            \/ get_default_output_device_info studio_host = Ok (index d))
         [studio_speakers; studio_line_in].
Proof.
  exact (listing_default_flags studio_manager true studio_host 3
           [studio_speakers; studio_line_in]
           eq_refl eq_refl (or_introl eq_refl) eq_refl).
Defined.

Lemma list_all_devices_again_witness :
  list_all_devices studio_listed false
  = (studio_listed, Ok [studio_speakers; studio_line_in])
  /\ _devices_cache studio_listed = Some [studio_speakers; studio_line_in]
  /\ Devices._audio studio_listed = Devices._audio studio_manager.
Proof.
  exact (list_all_devices_again studio_manager false studio_listed
           [studio_speakers; studio_line_in] eq_refl).
Defined.

Lemma get_device_by_index_enumerated_witness :
  exists found,
    snd (get_device_by_index studio_manager 1) = Ok found
    /\ forall d, found = Some d <->
                 0 <= 1 < 3 /\ make_device studio_host 1 = Ok d.
Proof.
  exact (get_device_by_index_enumerated studio_manager studio_host 3 1
           eq_refl eq_refl eq_refl).
Defined.

Lemma get_devices_by_api_substring_witness :
  exists found,
    get_devices_by_api studio_manager "WASAPI" = (studio_listed, Ok found)
    /\ In studio_speakers found.
Proof.
  destruct (proj2 (get_devices_by_api_substring studio_manager "WASAPI")
                  studio_listed [studio_speakers; studio_line_in] eq_refl)
    as (_ & found & Hf & _ & Hw).
  exists found. split; [exact Hf|].
  apply Hw; [reflexivity | now left | reflexivity].
Defined.

Lemma system_default_found_witness :
  exists a devices,
    Devices._audio studio_manager = Some a
    /\ get_default_input_device_info a = Ok (index studio_line_in)
    /\ list_all_devices studio_manager false = (studio_listed, Ok devices)
    /\ In studio_line_in devices.
Proof.
  exact (proj1 (system_default_found studio_manager)
               studio_listed studio_line_in eq_refl).
Defined.

Lemma closed_manager_lists_nothing_witness :
  Devices.close (Devices.close studio_listed) = Devices.close studio_listed
  /\ _devices_cache (Devices.close studio_listed) = None
  /\ exists m,
       list_all_devices (Devices.close studio_listed) false
       = (Devices.close studio_listed, Raise (mk_exn AudioDeviceError m))
       /\ snd (get_default_speakers (Devices.close studio_listed))
          = Raise (mk_exn AudioDeviceError
                     ("Failed to detect default device: " ++ m)).
Proof.
  apply (closed_manager_lists_nothing studio_listed false). discriminate.
Defined.

Lemma get_default_speakers_member_witness :
  exists devices,
    snd (list_all_devices studio_manager false) = Ok devices
    /\ In studio_speakers devices
    /\ (is_loopback studio_speakers = true
        \/ (existsb is_loopback devices = false
            /\ wasapi_output studio_speakers = true))
    /\ (forall d', In d' devices ->
                   is_loopback d' = true -> is_default d' = true ->
                   is_loopback studio_speakers = true
                   /\ is_default studio_speakers = true)
    /\ (existsb is_loopback devices = false ->
        forall d', In d' devices ->
                   wasapi_output d' = true -> is_default d' = true ->
                   is_default studio_speakers = true).
Proof.
  exact (get_default_speakers_member studio_manager studio_speakers eq_refl).
Defined.

End Catalog.

Import Behaviour.

(** ** Names of recordings *)
Section Names.
Local Open Scope string_scope.

Lemma length_append a b :
  String.length (a ++ b) = (String.length a + String.length b)%nat.
Proof. induction a as [|c a IH]; cbn; [reflexivity | now rewrite IH]. Qed.

Lemma append_empty_r a : a ++ EmptyString = a.
Proof. induction a as [|c a IH]; cbn; [reflexivity | now rewrite IH]. Qed.

Lemma append_assoc a b c : (a ++ b) ++ c = a ++ b ++ c.
Proof. induction a as [|x a IH]; cbn; [reflexivity | now rewrite IH]. Qed.

Lemma append_inj_l p : forall a b, p ++ a = p ++ b -> a = b.
Proof.
  induction p as [|c p IH]; cbn; intros a b H; [exact H|].
  injection H as H. now apply IH.
Qed.

Lemma substring_all s : substring 0 (String.length s) s = s.
Proof. induction s as [|c s IH]; cbn; [reflexivity | now rewrite IH]. Qed.

Lemma substring_append_r p suf :
  substring (String.length p) (String.length suf) (p ++ suf) = suf.
Proof.
  induction p as [|c p IH]; cbn [String.length append].
  - apply substring_all.
  - cbn [substring]. exact IH.
Qed.

Lemma substring_append_l p suf :
  substring 0 (String.length p) (p ++ suf) = p.
Proof.
  induction p as [|c p IH]; cbn [String.length append].
  - destruct suf; reflexivity.
  - cbn [substring]. now rewrite IH.
Qed.

(** The prefix and the rest of a string. *)
Lemma substring_split s : forall n,
  (n <= String.length s)%nat ->
  s = substring 0 n s ++ substring n (String.length s - n) s.
Proof.
  induction s as [|c s IH]; intros n Hn.
  - cbn in Hn. assert (n = 0%nat) by lia. subst n. reflexivity.
  - destruct n as [|n].
    + cbn [substring append]. rewrite Nat.sub_0_r.
      cbn [String.length substring]. now rewrite substring_all.
    + cbn [String.length] in *. cbn [substring append Nat.sub].
      f_equal. apply IH. lia.
Qed.

Lemma endswith_append p suf : endswith (p ++ suf) suf = true.
Proof.
  unfold endswith. rewrite length_append.
  replace (String.length p + String.length suf - String.length suf)%nat
    with (String.length p) by lia.
  rewrite substring_append_r, String.eqb_refl, andb_true_r.
  apply Nat.leb_le. lia.
Qed.

Lemma endswith_same_length p suf suf' :
  String.length suf = String.length suf' ->
  endswith (p ++ suf) suf' = String.eqb suf suf'.
Proof.
  intros H. unfold endswith. rewrite length_append, <- H.
  replace (String.length p + String.length suf - String.length suf)%nat
    with (String.length p) by lia.
  rewrite substring_append_r.
  replace (String.length suf <=? String.length p + String.length suf)%nat
    with true by (symmetry; apply Nat.leb_le; lia).
  reflexivity.
Qed.

Lemma drop_last_append p suf : drop_last (String.length suf) (p ++ suf) = p.
Proof.
  unfold drop_last. rewrite length_append.
  replace (String.length p + String.length suf - String.length suf)%nat
    with (String.length p) by lia.
  apply substring_append_l.
Qed.

Lemma endswith_inv s suf :
  endswith s suf = true -> s = drop_last (String.length suf) s ++ suf.
Proof.
  unfold endswith, drop_last. intros H. apply andb_true_iff in H.
  destruct H as (Hle & Heq). apply Nat.leb_le in Hle.
  apply String.eqb_eq in Heq.
  rewrite (substring_split s (String.length s - String.length suf)) at 1
    by lia.
  replace (String.length s - (String.length s - String.length suf))%nat
    with (String.length suf) by lia.
  now rewrite Heq.
Qed.

Lemma prefix_empty s : String.prefix EmptyString s = true.
Proof. destruct s; reflexivity. Qed.

Lemma contains_dot_append a b :
  contains "." (a ++ b) = contains "." a || contains "." b.
Proof.
  induction a as [|c a IH].
  - cbn [append]. destruct b; reflexivity.
  - cbn [append contains]. rewrite IH.
    cbn [String.prefix]. destruct (ascii_dec "." c).
    + now rewrite !prefix_empty.
    + reflexivity.
Qed.

Lemma dotless_append a b : dotless a -> dotless b -> dotless (a ++ b).
Proof.
  unfold dotless. intros Ha Hb. now rewrite contains_dot_append, Ha, Hb.
Qed.

Lemma dotless_no_extension s x :
  dotless s -> endswith s ("." ++ x) = false.
Proof.
  unfold dotless. intros Hs.
  destruct (endswith s ("." ++ x)) eqn:E; [|reflexivity].
  apply endswith_inv in E. rewrite E in Hs.
  rewrite contains_dot_append in Hs.
  apply orb_false_iff in Hs. destruct Hs as (_ & Hs).
  cbn [append contains String.prefix] in Hs.
  destruct (ascii_dec "." ".") as [_|Hne]; [|now destruct Hne].
  rewrite prefix_empty in Hs. discriminate Hs.
Qed.

(** X13. The file name [start_recording] settles on always ends with
    a dot and the lower-cased configured format. *)
Theorem output_name_extension filename timestamp audio_format :
  endswith (output_name filename timestamp audio_format)
           ("." ++ lower audio_format) = true.
Proof.
  unfold output_name.
  match goal with
  | |- context [if endswith ?f ?e then _ else _] =>
      destruct (endswith f e) eqn:E; [exact E | apply endswith_append]
  end.
Qed.

Lemma strip_known_extension stem ext :
  dotless stem ->
  In ext (EmptyString :: known_extensions) ->
  strip_extension [".wav"; ".m4a"; ".mp4"] (stem ++ ext) = stem.
Proof.
  intros Hs Hext. cbn [strip_extension].
  destruct Hext as [<- | [<- | [<- | [<- | []]]]].
  - rewrite append_empty_r.
    assert (H1 : endswith stem ".wav" = false)
      by apply (dotless_no_extension stem "wav" Hs).
    assert (H2 : endswith stem ".m4a" = false)
      by apply (dotless_no_extension stem "m4a" Hs).
    assert (H3 : endswith stem ".mp4" = false)
      by apply (dotless_no_extension stem "mp4" Hs).
    now rewrite H1, H2, H3.
  - rewrite endswith_append. apply (drop_last_append stem ".wav").
  - rewrite (endswith_same_length stem ".m4a" ".wav") by reflexivity.
    cbn [String.eqb Ascii.eqb Bool.eqb].
    rewrite endswith_append. apply (drop_last_append stem ".m4a").
  - rewrite (endswith_same_length stem ".mp4" ".wav") by reflexivity.
    rewrite (endswith_same_length stem ".mp4" ".m4a") by reflexivity.
    cbn [String.eqb Ascii.eqb Bool.eqb].
    rewrite endswith_append. apply (drop_last_append stem ".mp4").
Qed.

(** X14. For a name without a dot, given bare or with one of the
    extensions .wav, .m4a, .mp4, [start_recording] settles on the name
    with the extension of the configured format in its place. *)
Theorem output_name_normalises stem ext timestamp audio_format :
  dotless stem ->
  stem <> EmptyString ->
  In ext (EmptyString :: known_extensions) ->
  output_name (Some (stem ++ ext)) timestamp audio_format
  = stem ++ "." ++ lower audio_format.
Proof.
  intros Hs Hne Hext. unfold output_name.
  assert (Hpick : match Some (stem ++ ext) with
                  | None | Some EmptyString => "meeting_" ++ timestamp
                  | Some f => f
                  end = stem ++ ext).
  { destruct stem as [|c stem]; [congruence | reflexivity]. }
  rewrite Hpick, (strip_known_extension stem ext Hs Hext).
  change (String "." (lower audio_format)) with ("." ++ lower audio_format).
  now rewrite (dotless_no_extension stem (lower audio_format) Hs).
Qed.

(** X15. Without a name, or with the empty name, the file is called
    meeting_, the timestamp, and the extension of the configured
    format. *)
Theorem output_name_default timestamp audio_format :
  dotless timestamp ->
  output_name None timestamp audio_format
  = "meeting_" ++ timestamp ++ "." ++ lower audio_format
  /\ output_name (Some EmptyString) timestamp audio_format
     = "meeting_" ++ timestamp ++ "." ++ lower audio_format.
Proof.
  intros Hts.
  assert (Hstem : dotless ("meeting_" ++ timestamp))
    by (apply dotless_append; [reflexivity | exact Hts]).
  assert (Hgo : output_name None timestamp audio_format
                = "meeting_" ++ timestamp ++ "." ++ lower audio_format).
  { unfold output_name.
    pose proof (strip_known_extension ("meeting_" ++ timestamp) EmptyString
                  Hstem (or_introl eq_refl)) as Hstrip.
    rewrite append_empty_r in Hstrip. rewrite Hstrip.
    change (String "." (lower audio_format))
      with ("." ++ lower audio_format).
    rewrite (dotless_no_extension _ (lower audio_format) Hstem).
    now rewrite append_assoc. }
  split; [exact Hgo | exact Hgo].
Qed.

(** X16. The file name [quick_record] reports is the name the
    recorder writes to exactly when the format is wav or m4a up to
    case; for any other format the report says .wav while the
    recorder, configured with that format, uses its extension. *)
Theorem quick_record_name_agrees timestamp timestamp' audio_format :
  dotless timestamp ->
  output_name (Some (Main.quick_record_filename timestamp audio_format))
              timestamp' (lower audio_format)
  = Main.quick_record_filename timestamp audio_format
  <-> lower audio_format = "wav" \/ lower audio_format = "m4a".
Proof.
  intros Hts.
  assert (Hstem : dotless ("recording_" ++ timestamp))
    by (apply dotless_append; [reflexivity | exact Hts]).
  assert (Hne : "recording_" ++ timestamp <> EmptyString) by discriminate.
  assert (Hname : forall ext,
             In ("." ++ ext) (EmptyString :: known_extensions) ->
             output_name (Some ("recording_" ++ timestamp ++ "." ++ ext))
                         timestamp' (lower audio_format)
             = ("recording_" ++ timestamp) ++ "." ++ lower audio_format).
  { intros ext Hin. rewrite <- append_assoc. unfold output_name.
    assert (Hpick : match Some (("recording_" ++ timestamp) ++ "." ++ ext)
                    with
                    | None | Some EmptyString => "meeting_" ++ timestamp'
                    | Some f => f
                    end = ("recording_" ++ timestamp) ++ "." ++ ext)
      by reflexivity.
    rewrite Hpick.
    rewrite (strip_known_extension _ ("." ++ ext) Hstem Hin).
    change (String "." (lower (lower audio_format)))
      with ("." ++ lower (lower audio_format)).
    rewrite (dotless_no_extension _ (lower (lower audio_format)) Hstem).
    now rewrite lower_idempotent. }
  unfold Main.quick_record_filename. cbn [existsb].
  destruct (String.eqb (lower audio_format) "wav") eqn:Ew.
  - apply String.eqb_eq in Ew. cbn [orb].
    rewrite (Hname (lower audio_format)) by (rewrite Ew; cbn; auto).
    rewrite append_assoc.
    split; [intros _; now left | reflexivity].
  - destruct (String.eqb (lower audio_format) "m4a") eqn:Em; cbn [orb].
    + apply String.eqb_eq in Em.
      rewrite (Hname (lower audio_format)) by (rewrite Em; cbn; auto).
      rewrite append_assoc.
      split; [intros _; now right | reflexivity].
    + apply String.eqb_neq in Ew, Em.
      rewrite (Hname "wav") by (cbn; auto). rewrite append_assoc. split.
      * intros H. apply append_inj_l in H. apply append_inj_l in H.
        injection H as H. now left.
      * intros [H | H]; congruence.
Qed.

End Names.

(** ** Presets and automatic configuration *)
Section Configuration.
Import Examples Sessions.

(** X11. [RecordingQuality.get] does not mind the case of the name,
    always answers one of the four presets, and answers the
    professional one for every name that is none of the other three;
    every preset has one or two channels and a buffer of 85 ms of
    audio or more. *)
Theorem RecordingQuality_get_total quality_name :
  let p := RecordingQuality_get quality_name in
  RecordingQuality_get (lower quality_name) = p
  /\ In p [QUICK; STANDARD; PROFESSIONAL; HIGH]
  /\ (~ In (lower quality_name)
          ["quick"; "standard"; "high"]%string ->
      p = PROFESSIONAL)
  /\ 1 <= q_channels p <= 2
  /\ 85 * q_sample_rate p <= 1000 * q_chunk_size p.
Proof.
  unfold RecordingQuality_get. rewrite lower_idempotent.
  split; [reflexivity|].
  unfold get_all. cbn [dict_get].
  rewrite !(String.eqb_sym _ (lower quality_name)).
  destruct (String.eqb (lower quality_name) "quick") eqn:E1;
    [apply String.eqb_eq in E1|apply String.eqb_neq in E1].
  { cbn. repeat split; auto; try lia. intros H. destruct H. now left. }
  destruct (String.eqb (lower quality_name) "standard") eqn:E2;
    [apply String.eqb_eq in E2|apply String.eqb_neq in E2].
  { cbn. repeat split; auto; try lia. intros H. destruct H. right. now left. }
  destruct (String.eqb (lower quality_name) "professional") eqn:E3.
  { cbn. repeat split; auto; lia. }
  destruct (String.eqb (lower quality_name) "high") eqn:E4;
    [apply String.eqb_eq in E4|apply String.eqb_neq in E4].
  { cbn. repeat split; auto; try lia.
    intros H. destruct H. right. right. now left. }
  cbn. repeat split; auto; lia.
Qed.

(** X12. [set_device_auto] either answers [False] and leaves the
    recorder as it is, or configures the first of the recording
    capable devices of a new manager: a device with input channels,
    of a score no other candidate exceeds, recorded at its default
    rate with its input channels capped at two. *)
Theorem set_device_auto_choice s available pa :
  match set_device_auto s available pa with
  | (s', false) => s' = s
  | (s', true) =>
      exists dm dm' device rest,
        Devices.__init__ available pa = Ok dm
        /\ get_recording_capable_devices dm = (dm', Ok (device :: rest))
        /\ s' = set_config
                  (Some (RecordingConfig_of device
                           (default_sample_rate device)
                           (Z.min (max_input_channels device) 2))) s
        /\ 0 < max_input_channels device
        /\ 1 <= Z.min (max_input_channels device) 2 <= 2
        /\ forall d, In d rest ->
                     score d <= score device /\ 0 < max_input_channels d
  end.
Proof.
  unfold set_device_auto.
  destruct (Devices.__init__ available pa) as [dm|e]; [|reflexivity].
  destruct (get_recording_capable_devices dm) as [dm' [[|first rest]|e]]
    eqn:Hrec; try reflexivity.
  assert (Hin : forall d, In d (first :: rest) -> 0 < max_input_channels d).
  { unfold get_recording_capable_devices in Hrec.
    destruct (list_all_devices dm false) as [dm1 [devices|e]];
      [|discriminate].
    injection Hrec as _ Hs. intros d Hd. rewrite <- Hs in Hd.
    apply (Permutation_in _ (sorted_perm sort_key _)) in Hd.
    apply filter_In in Hd. destruct Hd as (_ & Hd).
    now apply Z.ltb_lt in Hd. }
  assert (Hsorted : forall d, In d rest -> score d <= score first).
  { unfold get_recording_capable_devices in Hrec.
    destruct (list_all_devices dm false) as [dm1 [devices|e]];
      [|discriminate].
    injection Hrec as _ Hs.
    pose proof (sorted_sorted sort_key (recording_devices devices)) as Hss.
    rewrite Hs in Hss. inversion Hss as [|? ? _ Hall]; subst.
    intros d Hd. rewrite Forall_forall in Hall.
    specialize (Hall d Hd). unfold key_le, sort_key in Hall. lia. }
  pose proof (Hin first (or_introl eq_refl)) as Hfirst.
  destruct (max_input_channels first =? 0) eqn:E0;
    [apply Z.eqb_eq in E0; lia|].
  destruct (0 <? max_input_channels first) eqn:E1;
    [|apply Z.ltb_ge in E1; lia].
  exists dm, dm', first, rest. repeat split; auto; try lia.
  apply Hin. now right.
Qed.

End Configuration.

(** ** The level of a chunk and the passes of the loop *)
Section Capture.
Import Sessions.

Lemma Z_of_byte_range b : 0 <= Wave.Z_of_byte b <= 255.
Proof.
  unfold Wave.Z_of_byte. pose proof (Byte.to_N_bounded b). lia.
Qed.

(** Chunks are unpacked two bytes at a time. *)
Lemma unpack_h_pairs (P : list byte -> Prop) :
  P [] ->
  (forall b, P [b]) ->
  (forall lo hi rest, P rest -> P (lo :: hi :: rest)) ->
  forall data, P data.
Proof.
  intros H0 H1 H2.
  assert (H : forall data, P data /\ forall b, P (b :: data)).
  { induction data as [|x data (IH1 & IH2)]; split; auto. }
  intros data. apply H.
Qed.

Lemma unpack_h_samples data :
  match unpack_h data with
  | None => Nat.odd (List.length data) = true
  | Some samples =>
      Nat.odd (List.length data) = false
      /\ Forall (fun x => -32768 <= x <= 32767) samples
  end.
Proof.
  induction data as [| b | lo hi rest IH] using unpack_h_pairs.
  - cbn. split; [reflexivity | constructor].
  - reflexivity.
  - cbn [unpack_h]. destruct (unpack_h rest) as [samples|].
    + destruct IH as (Hodd & Hall). split.
      * cbn [List.length]. now rewrite Nat.odd_succ_succ.
      * constructor; [|exact Hall].
        pose proof (Z_of_byte_range lo). pose proof (Z_of_byte_range hi).
        destruct (_ <? 32768) eqn:E;
          [apply Z.ltb_lt in E | apply Z.ltb_ge in E]; lia.
    + cbn [List.length]. now rewrite Nat.odd_succ_succ.
Qed.

Lemma sum_of_squares_upper bound samples :
  within_amplitude bound samples ->
  forall acc,
    fold_left (fun a x => a + x * x) samples acc
    <= acc + bound * bound * Z.of_nat (List.length samples).
Proof.
  induction 1 as [|x samples Hx Hall IH]; intros acc.
  - cbn. lia.
  - cbn [fold_left List.length]. specialize (IH (acc + x * x)).
    assert (x * x <= bound * bound) by nia. lia.
Qed.

Lemma sum_of_squares_lower bound samples :
  0 <= bound ->
  above_amplitude bound samples ->
  forall acc,
    acc + (bound * bound + 1) * Z.of_nat (List.length samples)
    <= fold_left (fun a x => a + x * x) samples acc.
Proof.
  intros Hb. induction 1 as [|x samples Hx Hall IH]; intros acc.
  - cbn. lia.
  - cbn [fold_left List.length]. specialize (IH (acc + x * x)).
    assert (bound * bound + 1 <= x * x) by nia. lia.
Qed.

(** X17. Against a threshold that is not negative, a chunk of odd
    length is never above it; no chunk is above 32768; a chunk whose
    samples all stay within the threshold is not above it, and a
    chunk whose samples all exceed it is. *)
Theorem audio_level_between data threshold :
  0 <= threshold ->
  (Nat.odd (List.length data) = true ->
   level_gt (_calculate_audio_level data) threshold = false)
  /\ level_gt (_calculate_audio_level data) (Z.max threshold 32768) = false
  /\ forall samples,
       unpack_h data = Some samples ->
       (within_amplitude threshold samples ->
        level_gt (_calculate_audio_level data) threshold = false)
       /\ (samples <> [] -> above_amplitude threshold samples ->
           level_gt (_calculate_audio_level data) threshold = true).
Proof.
  intros Hthr.
  assert (Hquiet : forall bound samples,
             0 <= bound ->
             unpack_h data = Some samples ->
             within_amplitude bound samples ->
             level_gt (_calculate_audio_level data) bound = false).
  { intros bound samples Hb Hs Hq. unfold _calculate_audio_level.
    rewrite Hs. destruct samples as [|x samples].
    - cbn. apply Z.ltb_ge. lia.
    - unfold level_gt, sum_of_squares.
      pose proof (sum_of_squares_upper bound _ Hq 0) as Hu.
      apply orb_false_iff. split; apply Z.ltb_ge; lia. }
  pose proof (unpack_h_samples data) as Hu.
  split; [|split].
  - intros Hodd. destruct (unpack_h data) as [samples|] eqn:Hs.
    + destruct Hu as (Heven & _). congruence.
    + unfold _calculate_audio_level. rewrite Hs. cbn.
      apply Z.ltb_ge. lia.
  - destruct (unpack_h data) as [samples|] eqn:Hs.
    + apply (Hquiet _ samples); [lia | reflexivity |].
      destruct Hu as (_ & Hall). revert Hall. apply Forall_impl.
      intros x Hx. lia.
    + unfold _calculate_audio_level. rewrite Hs. cbn.
      apply Z.ltb_ge. lia.
  - intros samples Hs. split.
    + now apply Hquiet.
    + intros Hne Hloud. unfold _calculate_audio_level. rewrite Hs.
      destruct samples as [|x samples]; [congruence|].
      unfold level_gt, sum_of_squares.
      pose proof (sum_of_squares_lower threshold _ Hthr Hloud 0) as Hl.
      apply orb_true_iff. right. apply Z.ltb_lt.
      cbn [List.length] in *. lia.
Qed.


(** A pass whose read returns, without a limit: the loop goes on and
    the chunk, if any, is appended and counted. *)
Lemma worker_iter_reads config w ev :
  recording_on config (w_rec w) ->
  max_duration config = None ->
  reads ev ->
  exists w1,
    worker_iter w ev = Continue w1
    /\ recording_on config (w_rec w1)
    /\ _frames (w_rec w1) = _frames (w_rec w) ++ chunk_of ev
    /\ _frames_captured (w_rec w1)
       = _frames_captured (w_rec w) + Z.of_nat (List.length (chunk_of ev))
    /\ forall st,
         _stats (w_rec w) = Some st ->
         exists st1,
           _stats (w_rec w1) = Some st1
           /\ samples_recorded st1
              = samples_recorded st
                + chunk_size config * Z.of_nat (List.length (chunk_of ev))
           /\ start_time st1 = start_time st
           /\ filename st1 = filename st.
Proof.
  intros (Hrec & Hc & Hstr & Hst) Hlim (Hev & data & Hread).
  destruct w as [s start clock]. cbn [w_rec w_start w_clock] in *.
  destruct s as [cfg au str rec thread frs sts cb cnt flag thr].
  cbn in Hrec, Hc, Hstr, Hst. subst cfg str rec.
  destruct sts as [st|]; [clear Hst|congruence].
  unfold worker_iter, chunk_of, on_data, with_rec, advance, recording_on.
  cbn -[level_gt _calculate_audio_level Z.add Z.mul Nat.ltb].
  rewrite Hlim, Hev, Hread.
  cbn -[level_gt _calculate_audio_level Z.add Z.mul Nat.ltb].
  destruct (0 <? List.length data)%nat;
    destruct flag;
    destruct (level_gt (_calculate_audio_level data) thr);
    destruct cb;
    cbn -[Z.add Z.mul];
    (eexists; split; [reflexivity|];
     cbn -[Z.add Z.mul]; rewrite ?app_nil_r;
     split; [repeat split; auto; congruence|];
     split; [reflexivity|]; split; [lia|];
     intros st0 Hst0; injection Hst0 as <-;
     eexists; split; [reflexivity|]; cbn -[Z.add Z.mul];
     repeat split; lia).
Qed.

(** X18. Without a duration limit and with reads that return, the
    recording thread keeps running, and the frame buffer is what it
    was followed by the non-empty chunks read, in the order read;
    the counter of frames grows by their number and the samples
    recorded by the buffer size for each. *)
Theorem recording_appends_chunks config s now evs :
  recording_on config s ->
  max_duration config = None ->
  Forall reads evs ->
  exists w,
    _recording_worker s now evs = (w, None)
    /\ recording_on config (w_rec w)
    /\ _frames (w_rec w) = _frames s ++ chunks evs
    /\ get_frames_captured (w_rec w)
       = get_frames_captured s + Z.of_nat (List.length (chunks evs))
    /\ forall st,
         _stats s = Some st ->
         exists st1,
           _stats (w_rec w) = Some st1
           /\ samples_recorded st1
              = samples_recorded st
                + chunk_size config * Z.of_nat (List.length (chunks evs))
           /\ start_time st1 = start_time st
           /\ filename st1 = filename st.
Proof.
  intros Hon Hlim Hall. unfold _recording_worker, get_frames_captured.
  change s with (w_rec (mk_worker s now now)) in Hon at 1.
  change (_frames s) with (_frames (w_rec (mk_worker s now now))).
  change (_frames_captured s)
    with (_frames_captured (w_rec (mk_worker s now now))).
  change (_stats s) with (_stats (w_rec (mk_worker s now now))).
  generalize dependent (mk_worker s now now). clear s.
  induction Hall as [|ev evs Hev Hrest IH]; intros w Hon.
  - exists w. cbn [worker_loop chunks flat_map List.length].
    rewrite app_nil_r. split; [reflexivity|]. split; [exact Hon|].
    split; [reflexivity|]. split; [lia|].
    intros st Hst. exists st. split; [exact Hst|].
    split; [lia|]. split; reflexivity.
  - destruct (worker_iter_reads config w ev Hon Hlim Hev)
      as (w1 & Hiter & Hon1 & Hfr & Hcnt & Hstats).
    destruct (IH w1 Hon1) as (w2 & Hloop & Hon2 & Hfr2 & Hcnt2 & Hstats2).
    exists w2. cbn [worker_loop]. rewrite Hiter.
    split; [exact Hloop|]. split; [exact Hon2|].
    cbn [chunks flat_map]. fold (chunks evs).
    rewrite length_app, Nat2Z.inj_add.
    split; [now rewrite Hfr2, Hfr, app_assoc|]. split; [lia|].
    intros st Hst. destruct (Hstats st Hst) as (st1 & Hst1 & Hs1 & Ht1 & Hf1).
    destruct (Hstats2 st1 Hst1) as (st2 & Hst2 & Hs2 & Ht2 & Hf2).
    exists st2. split; [exact Hst2|]. split; [lia|].
    split; congruence.
Qed.

(** X19. A read that raises ends the recording loop exactly when the
    error is an [OSError] naming an 'unanticipated host error' or a
    'device unavailable', or its text has 'invalid' or 'closed' in any
    case; after any other error the loop goes on at once, without its
    sleep. Either way the recorder is as it was. *)
Theorem read_error_classified config s start clock ev e :
  recording_on config s ->
  (forall d, max_duration config = Some d ->
             d = 0 \/ clock - start < 1000 * d) ->
  ev_stream_stops ev = false ->
  ev_read ev = Raise e ->
  let w := mk_worker s start clock in
  let after := mk_worker s start (clock + ev_read_ms ev) in
  (fatal_read_error e = false -> worker_iter w ev = Continue after)
  /\ (fatal_read_error e = true ->
      worker_iter w ev = Break after DeviceUnavailable
      \/ worker_iter w ev = Break after StreamInvalid).
Proof.
  intros (Hrec & Hc & Hstr & Hst) Hlim Hev Hread w after.
  subst w after. unfold worker_iter. cbn [w_rec w_start w_clock].
  rewrite Hrec, Hc. cbn [negb].
  assert (Hno : match max_duration config with
                | None => false
                | Some d => negb (d =? 0) && (1000 * d <=? clock - start)
                end = false).
  { destruct (max_duration config) as [d|]; [|reflexivity].
    destruct (Hlim d eq_refl) as [-> | Hlt]; [reflexivity|].
    apply andb_false_iff. right. apply Z.leb_gt. exact Hlt. }
  rewrite Hno, Hev. cbn [w_rec]. rewrite Hstr, Hread.
  unfold advance, on_exception, fatal_read_error.
  cbn [w_rec w_start w_clock].
  destruct (isinstance (exn_cls e) OSError
            && (contains "unanticipated host error" (exn_msg e)
                || contains "device unavailable" (exn_msg e))).
  - cbn [orb]. split; [discriminate | intros _; now left].
  - cbn [orb].
    destruct (contains "invalid" (lower (exn_msg e))
              || contains "closed" (lower (exn_msg e))).
    + split; [discriminate | intros _; now right].
    + split; [reflexivity | discriminate].
Qed.

End Capture.

(** ** Stopping, statistics and closing *)
Section Stopping.
Import Sessions.

(** The only file a save touches is the one the statistics name, and
    a save that returns has written it. *)
Lemma lookup_new path content (fs : files) :
  lookup path ((path, content) :: fs) = Some content.
Proof. cbn [lookup]. now rewrite String.eqb_refl. Qed.

Lemma save_as_wav_files s fs env :
  (fst (_save_as_wav s fs env) = fs
   /\ exists e, snd (_save_as_wav s fs env) = Raise e)
  \/ exists st path content,
       _stats s = Some st /\ filename st = Some path
       /\ fst (_save_as_wav s fs env) = (path, content) :: fs.
Proof.
  unfold _save_as_wav.
  destruct (_stats s) as [st|]; [|left; split; [|eexists]; reflexivity].
  destruct (filename st) as [path|] eqn:Hname;
    [|left; split; [|eexists]; reflexivity].
  destruct (st_io env); [left; split; [|eexists]; reflexivity|].
  right. exists st, path. unfold wav_block.
  repeat match goal with
         | |- context [match ?x with _ => _ end] => destruct x
         end; eexists; (split; [reflexivity|]);
    (split; [exact Hname | reflexivity]).
Qed.

Lemma save_as_m4a_files s fs env :
  (fst (_save_as_m4a s fs env) = fs
   /\ (snd (_save_as_m4a s fs env) = Ok tt ->
       exists st, _stats s = Some st /\ filename st = None))
  \/ exists st path content,
       _stats s = Some st /\ filename st = Some path
       /\ fst (_save_as_m4a s fs env) = (path, content) :: fs.
Proof.
  unfold _save_as_m4a.
  destruct (st_pydub_available env); cbn [negb];
    [|left; split; [reflexivity | discriminate]].
  cbv zeta.
  destruct (_stats s) as [st|];
    [|left; split; [reflexivity | discriminate]].
  destruct (_config s) as [config|];
    [|left; split; [reflexivity | discriminate]].
  destruct (if _audio s then get_sample_size (format config)
            else Raise (none_has_no "get_sample_size")) as [width|e];
    [|destruct (isinstance (exn_cls e) ImportError);
      left; split; try reflexivity; discriminate].
  destruct (st_export env) as [f|e];
    destruct (filename st) as [path|] eqn:Hname.
  - right. exists st, path, f. auto.
  - left. split; [reflexivity|]. intros _. exists st. auto.
  - destruct (st_export_leaves env) as [f|].
    + right. exists st, path, f.
      destruct (isinstance (exn_cls e) ImportError); auto.
    + left. destruct (isinstance (exn_cls e) ImportError);
        (split; [reflexivity | discriminate]).
  - left. destruct (isinstance (exn_cls e) ImportError);
      (split; [reflexivity | discriminate]).
Qed.

(** Once [_save_as_wav] has opened its file, the file is there,
    whatever the outcome. *)
Lemma save_as_wav_opened s fs env st path :
  _stats s = Some st ->
  filename st = Some path ->
  st_io env = None ->
  exists content, fst (_save_as_wav s fs env) = (path, content) :: fs.
Proof.
  intros Hst Hname Hio. unfold _save_as_wav. rewrite Hst, Hname, Hio.
  unfold wav_block.
  repeat match goal with
         | |- context [match ?x with _ => _ end] => destruct x
         end; eexists; reflexivity.
Qed.

(** The files [_save_recording] leaves are those of the save it
    calls. *)
Lemma save_recording_files s fs env config st :
  _frames s <> [] ->
  _config s = Some config ->
  _stats s = Some st ->
  lower (audio_format config) <> "m4a"%string ->
  snd (fst (_save_recording s fs env)) = fst (_save_as_wav s fs env).
Proof.
  intros Hfr Hc Hst Hfmt. unfold _save_recording.
  destruct (_frames s) as [|f frs]; [congruence|].
  rewrite Hc, Hst.
  assert (Hwav : String.eqb
                   match audio_format config with
                   | EmptyString => "wav"%string
                   | String a s0 => lower (String a s0)
                   end "m4a" = false).
  { destruct (audio_format config) as [|a s0]; [reflexivity|].
    now apply String.eqb_neq. }
  rewrite Hwav.
  destruct (_save_as_wav s fs env) as [fs' [[]|e]]; [|reflexivity].
  destruct (filename st) as [path|]; [|reflexivity].
  destruct (lookup path fs'); reflexivity.
Qed.

(** What [_save_recording] leaves. *)
Lemma save_recording_outcome s fs env :
  match _save_recording s fs env with
  | (s', fs', Ok _) =>
      exists st path content,
        _stats s = Some st
        /\ filename st = Some path
        /\ _frames s <> []
        /\ fs' = (path, content) :: fs
        /\ s' = set_stats
                  (Some (mk_RecordingStats (start_time st) (end_time st)
                           (duration st) (Z.of_nat (List.length content))
                           (samples_recorded st) (filename st))) s
  | (s', fs', Raise e) =>
      s' = s
      /\ (fs' = fs
          \/ exists st path partial,
               _stats s = Some st /\ filename st = Some path
               /\ fs' = (path, partial) :: fs)
  end.
Proof.
  unfold _save_recording.
  destruct (_frames s) as [|f frs]; [split; auto|].
  destruct (_config s) as [config|]; [|split; auto].
  destruct (_stats s) as [st|] eqn:Hst; [|split; auto].
  assert (Hfiles :
            (fst (if String.eqb match audio_format config with
                                | EmptyString => "wav"%string
                                | String a s0 => lower (String a s0)
                                end "m4a"
                  then _save_as_m4a s fs env else _save_as_wav s fs env)
             = fs
             /\ (snd (if String.eqb match audio_format config with
                                    | EmptyString => "wav"%string
                                    | String a s0 => lower (String a s0)
                                    end "m4a"
                      then _save_as_m4a s fs env else _save_as_wav s fs env)
                 = Ok tt -> filename st = None))
            \/ exists path content,
                 filename st = Some path
                 /\ fst (if String.eqb match audio_format config with
                                       | EmptyString => "wav"%string
                                       | String a s0 => lower (String a s0)
                                       end "m4a"
                         then _save_as_m4a s fs env
                         else _save_as_wav s fs env)
                    = (path, content) :: fs).
  { destruct (String.eqb _ "m4a").
    - destruct (save_as_m4a_files s fs env)
        as [(Hfs & Hok) | (st' & path & content & Hst' & Hname & Hfs)].
      + left. split; [exact Hfs|]. intros H.
        destruct (Hok H) as (st' & Hst' & Hname). congruence.
      + right. exists path, content. split; [congruence | exact Hfs].
    - destruct (save_as_wav_files s fs env)
        as [(Hfs & e & He) | (st' & path & content & Hst' & Hname & Hfs)].
      + left. split; [exact Hfs|]. rewrite He. discriminate.
      + right. exists path, content. split; [congruence | exact Hfs]. }
  destruct (if String.eqb _ "m4a" then _save_as_m4a s fs env
            else _save_as_wav s fs env) as [fs' [[]|e]];
    cbn [fst snd] in Hfiles.
  - destruct Hfiles as [(-> & Hnone) | (path & content & Hname & ->)].
    + rewrite (Hnone eq_refl). split; auto.
    + rewrite Hname, lookup_new.
      exists st, path, content. rewrite Hname.
      repeat split; auto. discriminate.
  - split; [reflexivity|].
    destruct Hfiles as [(-> & _) | (path & content & Hname & ->)];
      [now left | right; exists st, path, content; auto].
Qed.

(** [stop_recording] past its guard: the recorder is stopped, the
    statistics are finalised, the save decides the rest. *)
Lemma stop_recording_steps s fs env st :
  _stats s = Some st ->
  let stopped :=
    set_stats (Some (finalised st (st_now env)))
      (set_stream None (set_recording false s)) in
  stop_recording s fs env
  = match _save_recording stopped fs env with
    | (s', fs', Ok _) =>
        (s', fs', match _stats s' with
                  | Some st' => Ok st'
                  | None => Raise (none_has_no "end_time")
                  end)
    | (s', fs', Raise e) =>
        (s', fs', Raise (mk_exn AudioRecorderError
                           ("Failed to save file: " ++ exn_msg e)))
    end.
Proof.
  intros Hst stopped. subst stopped.
  destruct s as [cfg au str rec thread frs sts cb cnt flag thr].
  cbn in Hst. subst sts. unfold stop_recording.
  cbn [_frames _stats].
  assert (Hgo : forall s0 : AudioRecorder,
             s0 = mk_AudioRecorder cfg au None false thread frs (Some st)
                                   cb cnt flag thr ->
             match _stats s0 with
             | Some st0 =>
                 match _save_recording
                         (set_stats (Some (mk_RecordingStats (start_time st0)
                            (Some (st_now env))
                            (st_now env - start_time st0) (file_size st0)
                            (samples_recorded st0) (filename st0))) s0)
                         fs env with
                 | (s', fs', Ok _) =>
                     (s', fs', match _stats s' with
                               | Some st' => Ok st'
                               | None => Raise (none_has_no "end_time")
                               end)
                 | (s', fs', Raise e) =>
                     (s', fs', Raise (mk_exn AudioRecorderError
                                        ("Failed to save file: "
                                         ++ exn_msg e)))
                 end
             | None => (s0, fs, Raise (none_has_no "end_time"))
             end
             = match _save_recording
                       (set_stats (Some (finalised st (st_now env)))
                          (set_stream None
                             (set_recording false
                                (mk_AudioRecorder cfg au str rec thread frs
                                   (Some st) cb cnt flag thr)))) fs env with
               | (s', fs', Ok _) =>
                   (s', fs', match _stats s' with
                             | Some st' => Ok st'
                             | None => Raise (none_has_no "end_time")
                             end)
               | (s', fs', Raise e) =>
                   (s', fs', Raise (mk_exn AudioRecorderError
                                      ("Failed to save file: "
                                       ++ exn_msg e)))
               end).
  { intros s0 ->. reflexivity. }
  destruct frs as [|f frs]; apply Hgo;
    destruct thread; [destruct str as [[|]|]| | destruct str as [[|]|]|];
    reflexivity.
Qed.

Lemma stop_recording_stopped s fs env st :
  _stats s = Some st ->
  let s' := fst (fst (stop_recording s fs env)) in
  _recording s' = false
  /\ _stream s' = None
  /\ _frames s' = _frames s
  /\ _config s' = _config s
  /\ _audio s' = _audio s
  /\ (forall e, snd (stop_recording s fs env) = Raise e ->
                _stats s' = Some (finalised st (st_now env)))
  /\ (forall st', snd (stop_recording s fs env) = Ok st' ->
                  _stats s' = Some st'
                  /\ exists size, st' = sized (finalised st (st_now env)) size)
  /\ (snd (fst (stop_recording s fs env)) = fs
      \/ exists path content,
           filename st = Some path
           /\ snd (fst (stop_recording s fs env)) = (path, content) :: fs).
Proof.
  intros Hst. cbv zeta. rewrite (stop_recording_steps s fs env st Hst).
  cbv zeta.
  match goal with
  | |- context [_save_recording ?x fs env] =>
      pose proof (save_recording_outcome x fs env) as Ho;
      destruct (_save_recording x fs env) as [[s1 fs1] [u|e]]
  end; cbn [fst snd].
  - destruct Ho as (st1 & path & content & Hst1 & Hname & _ & -> & ->).
    cbn in Hst1. injection Hst1 as <-.
    cbn. do 5 (split; [reflexivity|]). split; [|split].
    + intros e. discriminate.
    + intros st' [= <-]. split; [reflexivity | eexists; reflexivity].
    + right. exists path, content. split; [exact Hname | reflexivity].
  - destruct Ho as (-> & Hfs). cbn. do 5 (split; [reflexivity|]).
    split; [|split].
    + intros e0 _. reflexivity.
    + intros st'. discriminate.
    + destruct Hfs as [-> | (st1 & path & partial & Hst1 & Hname & ->)];
        [now left|].
      cbn in Hst1. injection Hst1 as <-.
      right. exists path, partial. split; [exact Hname | reflexivity].
Qed.

Lemma stop_recording_guard s fs env :
  _frames s = [] -> _stats s = None ->
  stop_recording s fs env
  = (s, fs, Raise (mk_exn AudioRecorderError "No recording to save")).
Proof. intros Hf Hs. unfold stop_recording. now rewrite Hf, Hs. Qed.

Lemma stop_recording_without_stats s fs env f frs :
  _frames s = f :: frs -> _stats s = None ->
  exists s',
    stop_recording s fs env = (s', fs, Raise (none_has_no "end_time"))
    /\ _recording s' = false /\ _audio s' = _audio s.
Proof.
  intros Hf Hs.
  destruct s as [cfg au str rec thread frs0 sts cb cnt flag thr].
  cbn in Hf, Hs. subst. unfold stop_recording. cbn [_frames _stats].
  destruct thread; [destruct str as [[|]|]|]; cbn;
    eexists; repeat split.
Qed.

(** X20. [stop_recording] on a recorder without frames and without
    statistics raises 'No recording to save' and changes nothing. On a
    recorder with statistics it leaves the recorder not recording,
    without stream, its frames and configuration as they were, and
    its statistics finalised with end time and duration. The only
    file it ever enters is the one its statistics name; when there are
    frames to save as WAV and the file can be opened, that file is
    entered whether the save then succeeds or raises. When the stop
    raises, the statistics are the finalised ones. *)
Theorem stop_recording_effects s fs env :
  (_frames s = [] -> _stats s = None ->
   stop_recording s fs env
   = (s, fs, Raise (mk_exn AudioRecorderError "No recording to save")))
  /\ (forall st,
         _stats s = Some st ->
         let s' := fst (fst (stop_recording s fs env)) in
         _recording s' = false
         /\ _stream s' = None
         /\ _frames s' = _frames s
         /\ _config s' = _config s
         /\ exists size,
              _stats s' = Some (sized (finalised st (st_now env)) size))
  /\ (snd (fst (stop_recording s fs env)) = fs
      \/ exists st path content,
           _stats s = Some st
           /\ filename st = Some path
           /\ snd (fst (stop_recording s fs env)) = (path, content) :: fs)
  /\ (forall st config path,
         _stats s = Some st ->
         filename st = Some path ->
         _config s = Some config ->
         lower (audio_format config) <> "m4a"%string ->
         _frames s <> [] ->
         st_io env = None ->
         exists content,
           snd (fst (stop_recording s fs env)) = (path, content) :: fs)
  /\ (forall st e,
         _stats s = Some st ->
         snd (stop_recording s fs env) = Raise e ->
         _stats (fst (fst (stop_recording s fs env)))
         = Some (finalised st (st_now env))).
Proof.
  split; [|split; [|split; [|split]]].
  - intros Hf Hs. unfold stop_recording. now rewrite Hf, Hs.
  - intros st Hst. cbv zeta. rewrite (stop_recording_steps s fs env st Hst).
    cbv zeta.
    match goal with
    | |- context [_save_recording ?x fs env] =>
        pose proof (save_recording_outcome x fs env) as Ho;
        destruct (_save_recording x fs env) as [[s1 fs1] [u|e]]
    end; cbn [fst snd].
    + destruct Ho as (st1 & path & content & Hst1 & _ & _ & _ & ->).
      cbn in Hst1. injection Hst1 as <-.
      repeat split. eexists. reflexivity.
    + destruct Ho as (-> & _). repeat split.
      exists (file_size st). reflexivity.
  - destruct (_stats s) as [st|] eqn:Hst.
    + destruct (stop_recording_stopped s fs env st Hst)
        as (_ & _ & _ & _ & _ & _ & _ & [Hfs | (path & content & Hn & Hfs)]).
      * now left.
      * right. exists st, path, content. auto.
    + left. destruct (_frames s) as [|f frs] eqn:Hf.
      * now rewrite (stop_recording_guard s fs env Hf Hst).
      * destruct (stop_recording_without_stats s fs env f frs Hf Hst)
          as (s' & Hs' & _).
        now rewrite Hs'.
  - intros st config path Hst Hname Hc Hfmt Hfr Hio.
    rewrite (stop_recording_steps s fs env st Hst). cbv zeta.
    set (stopped := set_stats (Some (finalised st (st_now env)))
                      (set_stream None (set_recording false s))).
    pose proof (save_recording_files stopped fs env config
                  (finalised st (st_now env)) Hfr Hc eq_refl Hfmt) as Hfiles.
    destruct (save_as_wav_opened stopped fs env
                (finalised st (st_now env)) path eq_refl Hname Hio)
      as (content & Hopen).
    rewrite Hopen in Hfiles. exists content.
    destruct (_save_recording stopped fs env) as [[s1 fs1] [u|e]];
      exact Hfiles.
  - intros st e Hst. rewrite (stop_recording_steps s fs env st Hst). cbv zeta.
    match goal with
    | |- context [_save_recording ?x fs env] =>
        pose proof (save_recording_outcome x fs env) as Ho;
        destruct (_save_recording x fs env) as [[s1 fs1] [u|e1]]
    end; cbn [fst snd].
    + destruct Ho as (st1 & path & content & _ & _ & _ & _ & ->).
      cbn. discriminate.
    + destruct Ho as (-> & _). reflexivity.
Qed.

(** X21. Stopping a recording that started and never got a frame
    raises [AudioRecorderError] 'Failed to save file: No audio data to
    save'; the recorder is stopped, its statistics carry end time and
    duration, and no file is written. *)
Theorem stop_recording_without_frames s fs env st :
  _frames s = [] ->
  _stats s = Some st ->
  stop_recording s fs env
  = (set_stats (Some (finalised st (st_now env)))
       (set_stream None (set_recording false s)),
     fs,
     Raise (mk_exn AudioRecorderError
              "Failed to save file: No audio data to save")).
Proof.
  intros Hf Hst. rewrite (stop_recording_steps s fs env st Hst). cbv zeta.
  unfold _save_recording.
  assert (Hfr : forall v s0, _frames (set_stats v (set_stream None
                               (set_recording false s0))) = _frames s0)
    by reflexivity.
  rewrite Hfr, Hf. reflexivity.
Qed.

(** A save that fails after its file was opened leaves the file: with
    a sample rate the header cannot hold, the eight bytes written
    before the header was packed, at the write and again at the
    close. *)
Lemma failed_save_leaves_its_file :
  snd (fst (stop_recording (recorded unwritable) [] wav_stop))
  = [("storage/recordings/first.wav"%string, Wave.tag "RIFFRIFF")]
  /\ exists m,
       snd (stop_recording (recorded unwritable) [] wav_stop)
       = Raise (mk_exn AudioRecorderError m).
Proof. split; [reflexivity | eexists; reflexivity]. Qed.

(** X22. [get_current_stats] answers [None] without statistics; while
    recording it sets and returns the duration since the start; after
    a stop that succeeded it returns, at any later time, the
    statistics the stop returned, whose end time is the time of the
    stop. *)
Theorem get_current_stats_views s now :
  (_stats s = None -> get_current_stats s now = (s, None))
  /\ (forall st,
         _stats s = Some st -> _recording s = true ->
         get_current_stats s now
         = (set_stats (Some (mk_RecordingStats (start_time st) (end_time st)
                               (now - start_time st) (file_size st)
                               (samples_recorded st) (filename st))) s,
            Some (mk_RecordingStats (start_time st) (end_time st)
                    (now - start_time st) (file_size st)
                    (samples_recorded st) (filename st))))
  /\ (forall fs env st,
         snd (stop_recording s fs env) = Ok st ->
         get_current_stats (fst (fst (stop_recording s fs env))) now
         = (fst (fst (stop_recording s fs env)), Some st)
         /\ end_time st = Some (st_now env)).
Proof.
  split; [|split].
  - intros H. unfold get_current_stats. now rewrite H.
  - intros st Hst Hrec. unfold get_current_stats. now rewrite Hst, Hrec.
  - intros fs env st Hok.
    destruct (_stats s) as [st0|] eqn:Hst.
    + destruct (stop_recording_stopped s fs env st0 Hst)
        as (Hrec & _ & _ & _ & _ & _ & Hfin & _).
      destruct (Hfin st Hok) as (Hst' & size & ->).
      unfold get_current_stats. rewrite Hst', Hrec.
      split; reflexivity.
    + exfalso. destruct (_frames s) as [|f frs] eqn:Hf.
      * rewrite (stop_recording_guard s fs env Hf Hst) in Hok.
        discriminate.
      * destruct (stop_recording_without_stats s fs env f frs Hf Hst)
          as (s' & Hs' & _).
        rewrite Hs' in Hok. discriminate.
Qed.

(** After a stop that passed its guard nothing is recording. *)
Lemma stop_recording_flag s fs env :
  _frames s <> [] \/ _stats s <> None ->
  _recording (fst (fst (stop_recording s fs env))) = false
  /\ _audio (fst (fst (stop_recording s fs env))) = _audio s.
Proof.
  intros H. destruct (_stats s) as [st|] eqn:Hst.
  - destruct (stop_recording_stopped s fs env st Hst)
      as (Hrec & _ & _ & _ & Ha & _). auto.
  - destruct (_frames s) as [|f frs] eqn:Hf.
    + destruct H; congruence.
    + destruct (stop_recording_without_stats s fs env f frs Hf Hst)
        as (s' & Hs' & Hrec & Ha).
      rewrite Hs'. auto.
Qed.

(** What [close] leaves: a recorder without audio handle that does not
    record, unless the stop was turned away by its guard. *)
Lemma close_result s fs env :
  exists s1 fs1,
    Recorder.close s fs env = (set_audio false s1, fs1)
    /\ (_recording s1 = false
        \/ (_recording s1 = true /\ _frames s1 = [] /\ _stats s1 = None)).
Proof.
  unfold Recorder.close.
  destruct (_recording s) eqn:Hrec.
  - destruct (_frames s) as [|f frs] eqn:Hf;
      [destruct (_stats s) as [st|] eqn:Hst|].
    + pose proof (stop_recording_flag s fs env) as Hflag.
      rewrite Hf, Hst in Hflag.
      destruct Hflag as (Hr & Ha); [right; discriminate|].
      destruct (stop_recording s fs env) as [[s1 fs1] r]. cbn [fst snd] in *.
      exists s1, fs1. auto.
    + rewrite (stop_recording_guard s fs env Hf Hst).
      exists s, fs. auto.
    + pose proof (stop_recording_flag s fs env) as Hflag.
      rewrite Hf in Hflag.
      destruct Hflag as (Hr & Ha); [left; discriminate|].
      destruct (stop_recording s fs env) as [[s1 fs1] r]. cbn [fst snd] in *.
      exists s1, fs1. auto.
  - exists s, fs. auto.
Qed.

(** X23. After [close] the recorder has no audio handle, closing it
    again changes nothing and writes nothing, and every later
    [start_recording] raises. *)
Theorem close_is_final s fs env :
  let closed := Recorder.close s fs env in
  _audio (fst closed) = false
  /\ (forall env', Recorder.close (fst closed) (snd closed) env' = closed)
  /\ (forall filename callback senv,
         exists e,
           snd (start_recording (fst closed) filename callback senv)
           = Raise e).
Proof.
  cbv zeta.
  destruct (close_result s fs env) as (s1 & fs1 & -> & Hs1).
  cbn [fst snd]. split; [reflexivity|]. split.
  - intros env'. unfold Recorder.close. cbn [set_audio _recording].
    destruct Hs1 as [Hr | (Hr & Hf & Hst)]; rewrite Hr.
    + reflexivity.
    + rewrite (stop_recording_guard (set_audio false s1) fs1 env')
        by assumption.
      reflexivity.
  - intros filename callback senv. unfold start_recording.
    cbn [set_audio _recording].
    destruct (_recording s1); [eexists; reflexivity|].
    pose proof (set_device_auto_frame (set_audio false s1)
                  (se_pyaudio_available senv) (se_pa senv)) as Hf.
    cbv zeta in Hf. destruct Hf as (_ & _ & _ & Ha' & _).
    assert (Hau : _audio (fst (match _config (set_audio false s1) with
                               | Some _ => (set_audio false s1, true)
                               | None => set_device_auto (set_audio false s1)
                                           (se_pyaudio_available senv)
                                           (se_pa senv)
                               end)) = false).
    { destruct (_config (set_audio false s1)); cbn [fst];
        [reflexivity | exact Ha']. }
    destruct (match _config (set_audio false s1) with
              | Some _ => (set_audio false s1, true)
              | None => set_device_auto (set_audio false s1) _ _
              end) as [s2 ok]. cbn [fst snd] in *.
    destruct (_config s2); destruct ok; try (eexists; reflexivity).
    destruct (se_mkdir senv); [eexists; reflexivity|].
    cbn [set_frames set_stats set_progress_callback _audio].
    rewrite Hau. eexists. reflexivity.
Qed.

(** X24. When the stream does not open, [start_recording] raises
    [AudioRecorderError] 'Failed to start recording:' with the cause,
    and leaves the recorder not recording, without stream, frames and
    statistics, those of an earlier recording included; a stop
    afterwards raises 'No recording to save'. *)
Theorem failed_start_leaves_nothing s filename callback env config cause :
  _recording s = false ->
  _config s = Some config ->
  se_mkdir env = None ->
  se_open env = Some cause ->
  let s' := fst (start_recording s filename callback env) in
  snd (start_recording s filename callback env)
  = Raise (mk_exn AudioRecorderError
             ("Failed to start recording: "
              ++ (if _audio s then exn_msg cause
                  else "'NoneType' object has no attribute 'open'")))
  /\ _recording s' = false
  /\ _stream s' = None
  /\ _frames s' = []
  /\ _stats s' = None
  /\ forall fs senv,
       stop_recording s' fs senv
       = (s', fs, Raise (mk_exn AudioRecorderError "No recording to save")).
Proof.
  intros Hrec Hc Hm Ho. cbv zeta.
  unfold start_recording. rewrite Hrec, Hc. cbn [fst snd].
  rewrite Hc, Hm, Ho.
  destruct (_audio s) eqn:Ha;
    cbn [set_frames set_stats set_progress_callback _audio];
    rewrite Ha; cbn [negb fst snd exn_msg];
    (do 5 (split; [reflexivity|]); intros fs senv; reflexivity).
Qed.

End Stopping.

(** ** A recording from stop to file *)
Section StopToFile.
Import Sessions.

(** X25. Stopping a WAV recording of [N] whole buffers whose
    parameters fit a WAV header enters a file under the file name and returns
    statistics with the end time, the duration and a size of 44 bytes
    plus the frames; the file reads back as
    [N * chunk_size] frames of the configured parameters. *)
Theorem stop_recording_writes_wav s fs env config st path width :
  _config s = Some config ->
  _stats s = Some st ->
  filename st = Some path ->
  _frames s <> [] ->
  lower (audio_format config) <> "m4a"%string ->
  _audio s = true ->
  st_io env = None ->
  get_sample_size (format config) = Ok width ->
  1 <= channels config ->
  1 <= sample_rate config ->
  channels config * sample_rate config * width <= 4294967295 ->
  channels config * width <= 65535 ->
  (forall chunk,
      In chunk (_frames s) ->
      Z.of_nat (List.length chunk)
      = chunk_size config * (channels config * width)) ->
  36 + Z.of_nat (List.length (_frames s))
       * (chunk_size config * (channels config * width))
  <= 4294967295 ->
  exists s' file,
    stop_recording s fs env
    = (s', (path, file) :: fs,
       Ok (sized (finalised st (st_now env))
                 (44 + Z.of_nat (List.length (_frames s))
                       * (chunk_size config * (channels config * width)))))
    /\ Wave.read file
       = Ok (Wave.mk_wav (channels config) width (sample_rate config)
               (Z.of_nat (List.length (_frames s)) * chunk_size config)
               (List.concat (_frames s))).
Proof.
  intros Hc Hst Hname Hfr Hfmt Ha Hio Hw Hch Hrate Hbr Hba Hchunks Hsize.
  rewrite (stop_recording_steps s fs env st Hst). cbv zeta.
  set (stopped := set_stats (Some (finalised st (st_now env)))
                    (set_stream None (set_recording false s))).
  destruct (save_as_wav_canonical stopped fs env config
              (finalised st (st_now env)) path width)
    as (Hsave & Hlen & Hread); auto.
  change (_frames stopped) with (_frames s) in Hsave, Hlen, Hread.
  unfold _save_recording.
  change (_frames stopped) with (_frames s).
  change (_config stopped) with (_config s).
  change (_stats stopped) with (Some (finalised st (st_now env))).
  destruct (_frames s) as [|f frs]; [congruence|].
  rewrite Hc.
  assert (Hwav : String.eqb
                   match audio_format config with
                   | EmptyString => "wav"%string
                   | String a s0 => lower (String a s0)
                   end "m4a" = false).
  { destruct (audio_format config) as [|a s0]; [reflexivity|].
    now apply String.eqb_neq. }
  rewrite Hwav, Hsave. cbn [filename finalised].
  rewrite Hname, lookup_new, Hlen.
  eexists. eexists. split; [|exact Hread].
  unfold sized, finalised.
  cbn [_stats set_stats start_time end_time duration file_size
       samples_recorded filename].
  rewrite Hname. reflexivity.
Qed.

End StopToFile.

(** ** The duration [quick_record] asks for *)
Section QuickRecord.
Import Sessions.

Lemma worker_iter_unlimited config w ev w1 elapsed :
  _config (w_rec w) = Some config ->
  max_duration config = None \/ max_duration config = Some 0 ->
  worker_iter w ev <> Break w1 (MaxDurationReached elapsed).
Proof.
  intros Hc Hlim. destruct w as [s start clock].
  cbn [w_rec] in Hc. unfold worker_iter. cbn [w_rec w_start w_clock].
  destruct (_recording s); cbn [negb]; [|discriminate].
  rewrite Hc.
  assert (Hno : match max_duration config with
                | None => false
                | Some d => negb (d =? 0) && (1000 * d <=? clock - start)
                end = false)
    by (destruct Hlim as [-> | ->]; reflexivity).
  rewrite Hno.
  unfold on_data, on_exception, with_rec, advance.
  cbn [w_rec w_start w_clock].
  split_inner_matches; discriminate.
Qed.

Lemma worker_loop_unlimited config evs : forall w w1 elapsed,
  _config (w_rec w) = Some config ->
  max_duration config = None \/ max_duration config = Some 0 ->
  worker_loop w evs <> (w1, Some (MaxDurationReached elapsed)).
Proof.
  induction evs as [|ev evs IH]; intros w w1 elapsed Hc Hlim.
  - discriminate.
  - cbn [worker_loop].
    pose proof (worker_iter_unlimited config w ev) as Hi.
    pose proof (worker_iter_frame w ev) as Hf. cbv zeta in Hf.
    destruct (worker_iter w ev) as [w2|w2 r].
    + cbn [pass_result] in Hf. destruct Hf as (Hc2 & _).
      apply IH; [congruence | exact Hlim].
    + intros [= _ ->]. now apply (Hi w2 elapsed).
Qed.

(** X26. With the duration of [quick_record] set to -1 (manual mode)
    or to 0, the recording loop never ends on the duration limit; with
    a duration below -1 it ends on the limit at its first pass, with
    no time elapsed. *)
Theorem quick_record_duration_limit s config duration audio_format now :
  _config s = Some (Main.configure config duration audio_format) ->
  (duration = -1 \/ duration = 0 ->
   forall evs w elapsed,
     _recording_worker s now evs <> (w, Some (MaxDurationReached elapsed)))
  /\ (duration < -1 -> _recording s = true ->
      forall ev evs,
        snd (_recording_worker s now (ev :: evs))
        = Some (MaxDurationReached 0)).
Proof.
  intros Hc. split.
  - intros Hd evs w elapsed. unfold _recording_worker.
    apply (worker_loop_unlimited (Main.configure config duration audio_format));
      [exact Hc|].
    unfold Main.configure, Main.max_duration_of. cbn [max_duration].
    destruct Hd as [-> | ->]; auto.
  - intros Hd Hrec ev evs. unfold _recording_worker.
    cbn [worker_loop]. unfold worker_iter. cbn [w_rec w_start w_clock].
    rewrite Hrec, Hc. cbn [negb].
    unfold Main.configure, Main.max_duration_of. cbn [max_duration].
    destruct (duration =? -1) eqn:E1; [apply Z.eqb_eq in E1; lia|].
    destruct (duration =? 0) eqn:E0; [apply Z.eqb_eq in E0; lia|].
    cbn [negb andb]. rewrite Z.sub_diag.
    destruct (1000 * duration <=? 0) eqn:El;
      [reflexivity | apply Z.leb_gt in El; lia].
Qed.

End QuickRecord.

(** ** The properties above on the example sessions *)
Section OnExamples.
Import Examples Sessions.
Local Open Scope string_scope.

Lemma output_name_normalises_witness :
  output_name (Some "standup.mp4") "20250101_120000" "M4A" = "standup.m4a".
Proof.
  apply (output_name_normalises "standup" ".mp4" "20250101_120000" "M4A").
  - reflexivity.
  - discriminate.
  - cbn. auto.
Defined.

Lemma output_name_default_witness :
  output_name None "20250101_120000" "wav" = "meeting_20250101_120000.wav"
  /\ output_name (Some EmptyString) "20250101_120000" "wav"
     = "meeting_20250101_120000.wav".
Proof.
  apply (output_name_default "20250101_120000" "wav"). reflexivity.
Defined.

Lemma quick_record_name_agrees_witness :
  output_name (Some (Main.quick_record_filename "20250101_120000" "M4A"))
              "20250102_080000" (lower "M4A")
  = Main.quick_record_filename "20250101_120000" "M4A".
Proof.
  apply (quick_record_name_agrees "20250101_120000" "20250102_080000" "M4A").
  - reflexivity.
  - right. reflexivity.
Defined.

Lemma RecordingQuality_get_total_witness :
  RecordingQuality_get "Ultra" = PROFESSIONAL.
Proof.
  apply (RecordingQuality_get_total "Ultra").
  cbn. intros [H | [H | [H | []]]]; discriminate H.
Defined.

Lemma audio_level_between_witness :
  level_gt (_calculate_audio_level silent_chunk) 100 = false
  /\ level_gt (_calculate_audio_level loud_chunk) 100 = true.
Proof.
  split.
  - apply (audio_level_between silent_chunk 100) with (samples := [0; 0; 0; 0]).
    + lia.
    + reflexivity.
    + repeat constructor; cbn; lia.
  - apply (audio_level_between loud_chunk 100)
      with (samples := [4096; 4096; 4096; 4096]).
    + lia.
    + reflexivity.
    + discriminate.
    + repeat constructor; cbn; lia.
Defined.

Lemma recording_appends_chunks_witness :
  exists w,
    _recording_worker (started stereo_wav) 0
                      [pass loud_chunk; pass silent_chunk]
    = (w, None)
    /\ _frames (w_rec w) = [loud_chunk; silent_chunk]
    /\ get_frames_captured (w_rec w) = 2.
Proof.
  destruct (recording_appends_chunks
              stereo_wav (started stereo_wav) 0
              [pass loud_chunk; pass silent_chunk])
    as (w & Hrun & _ & Hfr & Hcnt & _).
  - repeat split; discriminate.
  - reflexivity.
  - repeat constructor; eexists; reflexivity.
  - exists w. split; [exact Hrun |]. split; [exact Hfr | exact Hcnt].
Defined.

Lemma read_error_classified_witness :
  worker_iter (mk_worker (started stereo_wav) 0 0) overflow_pass
  = Continue (mk_worker (started stereo_wav) 0 20)
  /\ (worker_iter (mk_worker (started stereo_wav) 0 0) unplugged_pass
      = Break (mk_worker (started stereo_wav) 0 20) DeviceUnavailable
      \/ worker_iter (mk_worker (started stereo_wav) 0 0) unplugged_pass
         = Break (mk_worker (started stereo_wav) 0 20) StreamInvalid).
Proof.
  split.
  - apply (read_error_classified stereo_wav (started stereo_wav) 0 0
             overflow_pass
             (mk_exn OSError "[Errno -9981] Input overflowed")).
    + repeat split; discriminate.
    + discriminate.
    + reflexivity.
    + reflexivity.
    + reflexivity.
  - apply (read_error_classified stereo_wav (started stereo_wav) 0 0
             unplugged_pass
             (mk_exn OSError "[Errno -9985] device unavailable")).
    + repeat split; discriminate.
    + discriminate.
    + reflexivity.
    + reflexivity.
    + reflexivity.
Defined.

Lemma stop_recording_effects_witness :
  stop_recording (Recorder.__init__ (Some stereo_wav)) [] wav_stop
  = (Recorder.__init__ (Some stereo_wav), [],
     Raise (mk_exn AudioRecorderError "No recording to save"))
  /\ _recording (fst (fst (stop_recording (recorded stereo_wav) [] wav_stop)))
     = false
  /\ exists content,
       snd (fst (stop_recording (recorded unwritable) [] wav_stop))
       = [("storage/recordings/first.wav", content)].
Proof.
  split; [|split].
  - apply (stop_recording_effects (Recorder.__init__ (Some stereo_wav))
             [] wav_stop); reflexivity.
  - apply (stop_recording_effects (recorded stereo_wav) [] wav_stop)
      with (st := mk_RecordingStats 0 None 0 0 4096
                    (Some "storage/recordings/first.wav")).
    reflexivity.
  - apply (stop_recording_effects (recorded unwritable) [] wav_stop)
      with (st := mk_RecordingStats 0 None 0 0 4096
                    (Some "storage/recordings/first.wav"))
           (config := unwritable);
      try reflexivity; discriminate.
Defined.

Lemma stop_recording_without_frames_witness :
  snd (stop_recording (started stereo_wav) [] wav_stop)
  = Raise (mk_exn AudioRecorderError
             "Failed to save file: No audio data to save").
Proof.
  rewrite (stop_recording_without_frames
             (started stereo_wav) [] wav_stop
             (mk_RecordingStats 0 None 0 0 0
                (Some "storage/recordings/first.wav")));
    reflexivity.
Defined.

Lemma get_current_stats_views_witness :
  snd (get_current_stats (started stereo_wav) 500)
  = Some (mk_RecordingStats 0 None 500 0 0
            (Some "storage/recordings/first.wav"))
  /\ snd (get_current_stats used_session 5000)
     = Some (mk_RecordingStats 0 (Some 1000) 1000 52 4096
               (Some "storage/recordings/first.wav")).
Proof.
  split.
  - rewrite (proj1 (proj2 (get_current_stats_views (started stereo_wav) 500))
               (mk_RecordingStats 0 None 0 0 0
                  (Some "storage/recordings/first.wav")));
      reflexivity.
  - apply (f_equal snd
             (proj1 (proj2 (proj2 (get_current_stats_views
                                     (recorded stereo_wav) 5000))
                      [] wav_stop
                      (mk_RecordingStats 0 (Some 1000) 1000 52 4096
                         (Some "storage/recordings/first.wav"))
                      eq_refl))).
Defined.

Lemma failed_start_leaves_nothing_witness :
  snd (start_recording used_session (Some "second") false busy_start)
  = Raise (mk_exn AudioRecorderError
             "Failed to start recording: [Errno -9996] Invalid input device")
  /\ _frames (fst (start_recording used_session (Some "second") false
                     busy_start)) = []
  /\ _stats (fst (start_recording used_session (Some "second") false
                    busy_start)) = None.
Proof.
  destruct (failed_start_leaves_nothing
              used_session (Some "second") false busy_start stereo_wav
              (mk_exn OSError "[Errno -9996] Invalid input device"))
    as (Hr & _ & _ & Hfr & Hst & _); try reflexivity.
  split; [exact Hr |]. split; [exact Hfr | exact Hst].
Defined.

Lemma stop_recording_writes_wav_witness :
  exists s' file,
    stop_recording two_buffers [] wav_stop
    = (s', [("storage/recordings/first.wav", file)],
       Ok (mk_RecordingStats 0 (Some 1000) 1000 60 4
             (Some "storage/recordings/first.wav")))
    /\ Wave.read file
       = Ok (Wave.mk_wav 2 2 48000 4 (loud_chunk ++ silent_chunk)).
Proof.
  destruct (stop_recording_writes_wav
              two_buffers [] wav_stop two_frame_buffers
              (mk_RecordingStats 0 None 0 0 4
                 (Some "storage/recordings/first.wav"))
              "storage/recordings/first.wav" 2)
    as (s' & file & Hstop & Hread);
    try reflexivity; try discriminate; try (cbn; lia).
  - intros chunk [H | [H | []]]; subst chunk; reflexivity.
  - exists s', file. split; [exact Hstop | exact Hread].
Defined.

Lemma quick_record_duration_limit_witness :
  (forall w elapsed,
      _recording_worker
        (set_config (Some (Main.configure stereo_wav (-1) "WAV"))
                    (started stereo_wav))
        0 [pass loud_chunk]
      <> (w, Some (MaxDurationReached elapsed)))
  /\ snd (_recording_worker
            (set_config (Some (Main.configure stereo_wav (-5) "WAV"))
                        (started stereo_wav))
            0 [pass loud_chunk])
     = Some (MaxDurationReached 0).
Proof.
  split.
  - apply (quick_record_duration_limit
             (set_config (Some (Main.configure stereo_wav (-1) "WAV"))
                         (started stereo_wav))
             stereo_wav (-1) "WAV" 0 eq_refl).
    left. reflexivity.
  - apply (quick_record_duration_limit
             (set_config (Some (Main.configure stereo_wav (-5) "WAV"))
                         (started stereo_wav))
             stereo_wav (-5) "WAV" 0 eq_refl).
    + lia.
    + reflexivity.
Defined.

End OnExamples.
